(** * NYAAYSETU: the complaint decision backend and the platform simulator

    A shallow embedding of
      - [gig_worker_app/backend/app.py]  (the /seek decision service),
      - [zomato_simulator/backend/utils.py], [zomato_simulator/backend/app.py]
        (the record store and its REST facade), and
      - [gig_worker_app/backend/ocr_echo_api.py]  (model selection and the
        statement PDF),
    followed by the properties of the specification that were checked
    against them, and by further properties of the same code.

    Conventions of the embedding.
      - A Python value that arrives as JSON is a [value]; a dict is an
        association list read at its first binding of a key.
      - A Python [str] is a [string] that holds its UTF-8 encoding.
        [str.strip] removes the white space of Unicode; [str.lower] and the
        regular expression class [\d] are computed on the ASCII range and
        taken from Python's tables, a parameter of the model, outside it.
      - A Python [float] is a binary64 [float] of the kernel.
      - A Python exception is the constructor [Raise] of [result]. *)

From Stdlib Require Import ZArith List String Ascii Bool Lia.
From Stdlib Require Import PrimFloat FloatOps SpecFloat.
Import ListNotations.

Local Open Scope string_scope.
Local Open Scope Z_scope.

(* ===================================================================== *)
(** * Python values *)
(* ===================================================================== *)

Module Py.

Inductive exn : Type :=
| AttributeError
| TypeError
| KeyError
| ValueError
| OverflowError
| IndexError
| FileNotFoundError
| SqliteBindError.      (* sqlite3 refuses to bind a list or a dict *)

Inductive result (A : Type) : Type :=
| Ok (a : A)
| Raise (e : exn).

Arguments Ok {A} a.
Arguments Raise {A} e.

Definition bind {A B : Type} (m : result A) (k : A -> result B) : result B :=
  match m with
  | Ok a => k a
  | Raise e => Raise e
  end.

(** [try: ... except: ...] around an expression. *)
Definition catch {A : Type} (m : result A) (handler : A) : A :=
  match m with
  | Ok a => a
  | Raise _ => handler
  end.

#[warnings="-register-all"]
Inductive value : Type :=
| VNone
| VBool (b : bool)
| VInt (z : Z)
| VFloat (f : float)
| VStr (s : string)
| VList (l : list value)
| VDict (d : list (string * value)).

Definition dict : Type := list (string * value).

(** ** Strings

    A text is held as its UTF-8 encoding: a character outside the ASCII
    range is the two to four bytes that encode it.  Equality, concatenation,
    [startswith] and the substring test [in] are the same on texts and on
    their encodings. *)

Definition is_ascii (c : ascii) : bool := (nat_of_ascii c <? 128)%nat.

(** A byte that continues a character. *)
Definition is_continuation (c : ascii) : bool :=
  ((128 <=? nat_of_ascii c) && (nat_of_ascii c <? 192))%nat.

(** The number of bytes of the character that starts with the byte [c]. *)
Definition utf8_width (c : ascii) : nat :=
  let n := nat_of_ascii c in
  if (n <? 192)%nat then 1%nat
  else if (n <? 224)%nat then 2%nat
  else if (n <? 240)%nat then 3%nat
  else 4%nat.

Definition closed (cur : string) : list string :=
  match cur with
  | EmptyString => []
  | _ => [cur]
  end.

(** The characters of a text, each as its bytes.  [cur] is the character
    being read and [need] the number of bytes it still lacks; a byte that
    cannot continue it starts the next character. *)
Fixpoint utf8_chars_from (cur : string) (need : nat) (s : string) : list string :=
  match s with
  | EmptyString => closed cur
  | String c s' =>
      match need, is_continuation c with
      | S O, true => (cur ++ String c EmptyString) :: utf8_chars_from EmptyString 0 s'
      | S need', true => utf8_chars_from (cur ++ String c EmptyString) need' s'
      | _, _ =>
          match utf8_width c with
          | S (S k) => (closed cur ++ utf8_chars_from (String c EmptyString) (S k) s')%list
          | _ => (closed cur ++ String c EmptyString :: utf8_chars_from EmptyString 0 s')%list
          end
      end
  end.

Definition utf8_chars (s : string) : list string := utf8_chars_from EmptyString 0 s.

Definition is_upper (c : ascii) : bool :=
  ((65 <=? nat_of_ascii c) && (nat_of_ascii c <=? 90))%nat.

(** The lower case of an ASCII character. *)
Definition lower_char (c : ascii) : ascii :=
  if is_upper c then ascii_of_nat (nat_of_ascii c + 32) else c.

(** A text of ASCII characters none of which is a capital letter. *)
Fixpoint plain (s : string) : bool :=
  match s with
  | EmptyString => true
  | String c s' => is_ascii c && negb (is_upper c) && plain s'
  end.

(** [k in t] for two strings *)
Fixpoint contains (k t : string) : bool :=
  String.prefix k t ||
  match t with
  | EmptyString => false
  | String _ t' => contains k t'
  end.

(** [any(k in t for k in ks)] *)
Definition any_in (ks : list string) (t : string) : bool :=
  existsb (fun k => contains k t) ks.

(** [t.startswith(k)] *)
Definition startswith (t k : string) : bool := String.prefix k t.

(** The characters [str.strip()] removes: those of the ASCII range, ... *)
Definition is_space (c : ascii) : bool :=
  let n := nat_of_ascii c in
  ((n =? 32) || ((9 <=? n) && (n <=? 13)) || ((28 <=? n) && (n <=? 31)))%nat.

Definition bytes (l : list Z) : string :=
  fold_right (fun n s => String (ascii_of_nat (Z.to_nat n)) s) EmptyString l.

(** ... and the white space outside it: U+0085, U+00A0, U+1680, U+2000 to
    U+200A, U+2028, U+2029, U+202F, U+205F and U+3000, as encoded. *)
Definition wide_spaces : list string :=
  [bytes [194; 133]; bytes [194; 160]; bytes [225; 154; 128];
   bytes [226; 128; 128]; bytes [226; 128; 129]; bytes [226; 128; 130];
   bytes [226; 128; 131]; bytes [226; 128; 132]; bytes [226; 128; 133];
   bytes [226; 128; 134]; bytes [226; 128; 135]; bytes [226; 128; 136];
   bytes [226; 128; 137]; bytes [226; 128; 138]; bytes [226; 128; 168];
   bytes [226; 128; 169]; bytes [226; 128; 175]; bytes [226; 129; 159];
   bytes [227; 128; 128]].

Fixpoint string_rev (s : string) : string :=
  match s with
  | EmptyString => EmptyString
  | String c s' => string_rev s' ++ String c EmptyString
  end.

(** The text after the prefix [p], when [s] starts with [p]. *)
Fixpoint drop_prefix (p s : string) : option string :=
  match p, s with
  | EmptyString, _ => Some s
  | String a p', String b s' => if (a =? b)%char then drop_prefix p' s' else None
  | String _ _, EmptyString => None
  end.

Fixpoint drop_first (ps : list string) (s : string) : option string :=
  match ps with
  | [] => None
  | p :: ps' =>
      match drop_prefix p s with
      | Some r => Some r
      | None => drop_first ps' s
      end
  end.

(** The text after one leading white-space character, if it has one;
    [wide] lists the encodings of those outside the ASCII range. *)
Definition drop_space (wide : list string) (s : string) : option string :=
  match s with
  | EmptyString => None
  | String c s' => if is_space c then Some s' else drop_first wide s
  end.

(** At most [n] leading white-space characters removed. *)
Fixpoint drop_spaces (wide : list string) (n : nat) (s : string) : string :=
  match n with
  | O => s
  | S n' =>
      match drop_space wide s with
      | Some r => drop_spaces wide n' r
      | None => s
      end
  end.

(** [s.lstrip()] *)
Definition lstrip (s : string) : string :=
  drop_spaces wide_spaces (String.length s) s.

(** [s.rstrip()]: the same from the end, on the text read backwards. *)
Definition rstrip (s : string) : string :=
  string_rev (drop_spaces (map string_rev wide_spaces) (String.length s) (string_rev s)).

(** [s.strip()] *)
Definition strip (s : string) : string := rstrip (lstrip s).

(** [s.rstrip('/')] *)
Fixpoint rstrip_slash (s : string) : string :=
  match s with
  | EmptyString => EmptyString
  | String c s' =>
      match rstrip_slash s' with
      | EmptyString => if (c =? "/")%char then EmptyString else String c EmptyString
      | r => String c r
      end
  end.

(** ** Numbers *)

(** [f == z] for a float and an int: Python compares the exact values. *)
Definition float_eq_Z (f : float) (z : Z) : bool :=
  match Prim2SF f with
  | S754_zero _ => z =? 0
  | S754_finite s m e =>
      let v := if s then Z.neg m else Z.pos m in
      if 0 <=? e then z =? v * 2 ^ e else z * 2 ^ (- e) =? v
  | _ => false
  end.

(** [float(z)] for an int: round to nearest, ties to even; an int too large
    for a float raises [OverflowError]. *)
Definition float_of_Z (z : Z) : result float :=
  match binary_normalize prec emax z 0 false with
  | S754_infinity _ => Raise OverflowError
  | sf => Ok (SF2Prim sf)
  end.

(** [int(f)] for a float: truncation towards zero. *)
Definition Z_of_float (f : float) : result Z :=
  match Prim2SF f with
  | S754_zero _ => Ok 0
  | S754_finite s m e =>
      let a := if 0 <=? e then Z.pos m * 2 ^ e else Z.pos m / 2 ^ (- e) in
      Ok (if s then - a else a)
  | S754_infinity _ => Raise OverflowError
  | S754_nan => Raise ValueError
  end.

(** ** Truth value, [==] against a constant, [in], [.get], [[]] *)

(** [bool(v)] *)
Definition truthy (v : value) : bool :=
  match v with
  | VNone => false
  | VBool b => b
  | VInt z => negb (z =? 0)
  | VFloat f => negb (PrimFloat.eqb f 0%float)
  | VStr s => negb (s =? "")%string
  | VList l => match l with [] => false | _ => true end
  | VDict d => match d with [] => false | _ => true end
  end.

(** [a or b] *)
Definition or_else (a b : value) : value := if truthy a then a else b.

(** [v == n] for an int constant [n] ([True] is [1], [False] is [0]). *)
Definition eq_int (v : value) (n : Z) : bool :=
  match v with
  | VBool b => (if b then 1 else 0) =? n
  | VInt z => z =? n
  | VFloat f => float_eq_Z f n
  | _ => false
  end.

(** [v == s] for a str constant [s]. *)
Definition eq_str (v : value) (s : string) : bool :=
  match v with
  | VStr s' => (s' =? s)%string
  | _ => false
  end.

(** [v in (0, "0", False)] *)
Definition in_zero_tuple (v : value) : bool :=
  eq_int v 0 || eq_str v "0" || eq_int v 0.

(** [v in (1, True, "1")] *)
Definition in_one_tuple (v : value) : bool :=
  eq_int v 1 || eq_int v 1 || eq_str v "1".

Fixpoint dict_get (k : string) (d : dict) : option value :=
  match d with
  | [] => None
  | (k', v) :: d' => if (k' =? k)%string then Some v else dict_get k d'
  end.

Definition dict_mem (k : string) (d : dict) : bool :=
  match dict_get k d with Some _ => true | None => false end.

(** [d[k] = v]: the binding is replaced where it stands, or added last. *)
Fixpoint dict_set (k : string) (v : value) (d : dict) : dict :=
  match d with
  | [] => [(k, v)]
  | (k', v') :: d' =>
      if (k' =? k)%string then (k, v) :: d' else (k', v') :: dict_set k v d'
  end.

(** [d.setdefault(k, v)] *)
Definition dict_setdefault (k : string) (v : value) (d : dict) : dict :=
  if dict_mem k d then d else dict_set k v d.

(** [v.get(k, default)]; only a dict has the method. *)
Definition get_default (v : value) (k : string) (default : value) : result value :=
  match v with
  | VDict d => Ok (match dict_get k d with Some x => x | None => default end)
  | _ => Raise AttributeError
  end.

(** [v.get(k)] *)
Definition get (v : value) (k : string) : result value := get_default v k VNone.

(** [k in v] for a str [k]: a key of a dict, an element of a list, a
    substring of a str; the other values are not containers. *)
Definition has (k : string) (v : value) : result bool :=
  match v with
  | VDict d => Ok (dict_mem k d)
  | VList l => Ok (existsb (fun x => eq_str x k) l)
  | VStr s => Ok (contains k s)
  | _ => Raise TypeError
  end.

(** [v[k]] for a str [k]. *)
Definition getitem (v : value) (k : string) : result value :=
  match v with
  | VDict d => match dict_get k d with Some x => Ok x | None => Raise KeyError end
  | _ => Raise TypeError
  end.

(** [v[0]] *)
Definition getitem0 (v : value) : result value :=
  match v with
  | VList l => match l with x :: _ => Ok x | [] => Raise IndexError end
  | VStr s => match utf8_chars s with ch :: _ => Ok (VStr ch) | [] => Raise IndexError end
  | VDict _ => Raise KeyError
  | _ => Raise TypeError
  end.

Definition is_dict (v : value) : bool :=
  match v with VDict _ => true | _ => false end.

Definition is_list (v : value) : bool :=
  match v with VList _ => true | _ => false end.

Definition is_str (v : value) : bool :=
  match v with VStr _ => true | _ => false end.

(** [any(f(o) for o in l)]: stops at the first true, raises where [f] does. *)
Fixpoint any_m (f : value -> result bool) (l : list value) : result bool :=
  match l with
  | [] => Ok false
  | o :: l' => bind (f o) (fun b => if b then Ok true else any_m f l')
  end.

(** [all(f(o) for o in l if g(o))]: stops at the first false. *)
Fixpoint all_if_m (g f : value -> result bool) (l : list value) : result bool :=
  match l with
  | [] => Ok true
  | o :: l' =>
      bind (g o) (fun keep =>
        if keep
        then bind (f o) (fun b => if b then all_if_m g f l' else Ok false)
        else all_if_m g f l')
  end.

(** [[o for o in l if f(o)]] *)
Fixpoint filter_m (f : value -> result bool) (l : list value) : result (list value) :=
  match l with
  | [] => Ok []
  | o :: l' =>
      bind (f o) (fun keep =>
        bind (filter_m f l') (fun r => Ok (if keep then o :: r else r)))
  end.

(** What Python's own [int], [float], [str] and [json.dumps] compute on a
    text or a value, and what its Unicode tables say of the characters
    outside the ASCII range; the model takes them as given.
    [lower_wide before run after] is what [str.lower] gives for the run of
    non-ASCII characters [run] of the text [before ++ run ++ after] (the
    lower case of a capital sigma depends on its neighbours), and
    [decimal_wide ch] tells whether the non-ASCII character [ch] is a
    decimal digit, which is what [\d] matches. *)
Record Builtins : Type := {
  lower_wide : string -> string -> string -> string;
  decimal_wide : string -> bool;
  int_of_str : string -> option Z;          (* int(s), None for ValueError *)
  float_of_str : string -> option float;    (* float(s), None for ValueError *)
  repr_of : value -> string;                (* str(v) of a value that is no str *)
  json_dumps : value -> string;             (* json.dumps(v) *)
  json_dumps_indent : value -> string;      (* json.dumps(v, ensure_ascii=False, indent=2) *)
  exn_text : exn -> string                  (* str(e) of a caught exception *)
}.

Section Conversions.

Variable py : Builtins.

(** The lower case of the pending run of non-ASCII characters. *)
Definition lower_run (before run after : string) : string :=
  match run with
  | EmptyString => EmptyString
  | _ => lower_wide py before run after
  end.

(** [s.lower()], read from the left: [before] is the text already read and
    [run] the non-ASCII characters read since the last ASCII one.  An ASCII
    character is lowered on its own. *)
Fixpoint lower_from (before run s : string) : string :=
  match s with
  | EmptyString => lower_run before run EmptyString
  | String c s' =>
      if is_ascii c
      then lower_run before run s
           ++ String (lower_char c) (lower_from (before ++ run ++ String c EmptyString) EmptyString s')
      else lower_from before (run ++ String c EmptyString) s'
  end.

(** [s.lower()] *)
Definition lower (s : string) : string := lower_from EmptyString EmptyString s.

(** [int(v)] *)
Definition to_int (v : value) : result Z :=
  match v with
  | VBool b => Ok (if b then 1 else 0)
  | VInt z => Ok z
  | VFloat f => Z_of_float f
  | VStr s => match int_of_str py s with Some z => Ok z | None => Raise ValueError end
  | _ => Raise TypeError
  end.

(** [float(v)] *)
Definition to_float (v : value) : result float :=
  match v with
  | VBool b => Ok (if b then 1%float else 0%float)
  | VInt z => float_of_Z z
  | VFloat f => Ok f
  | VStr s => match float_of_str py s with Some f => Ok f | None => Raise ValueError end
  | _ => Raise TypeError
  end.

(** [str(v)] *)
Definition to_str (v : value) : string :=
  match v with
  | VStr s => s
  | _ => repr_of py v
  end.

End Conversions.

End Py.

(* ===================================================================== *)
(** * gig_worker_app/backend/app.py *)
(* ===================================================================== *)

Module GigWorkerApp.

Import Py.

(** ** The amount pattern
    [(?<![\d.])(\d{1,6}(?:\.\d{1,2})?)(?![\d.])], matched on the
    characters of the text the way a backtracking engine does: the longest
    alternative first. *)

Definition is_digit (c : ascii) : bool :=
  ((48 <=? nat_of_ascii c) && (nat_of_ascii c <=? 57))%nat.

Section Pattern.

Variable py : Builtins.

(** [\d]: a decimal digit of any script. *)
Definition is_decimal (ch : string) : bool :=
  match ch with
  | String c EmptyString => is_digit c
  | _ => decimal_wide py ch
  end.

(** [[\d.]] *)
Definition digit_or_dot (ch : string) : bool :=
  is_decimal ch || (ch =? ".")%string.

(** [\d{n}]: the digits read and the rest of the text. *)
Fixpoint take_digits (n : nat) (s : list string) : option (list string * list string) :=
  match n with
  | O => Some ([], s)
  | S n' =>
      match s with
      | ch :: s' =>
          if is_decimal ch
          then match take_digits n' s' with
               | Some (d, r) => Some (ch :: d, r)
               | None => None
               end
          else None
      | [] => None
      end
  end.

(** [(?![\d.])] *)
Definition lookahead_ok (s : list string) : bool :=
  match s with
  | ch :: _ => negb (digit_or_dot ch)
  | [] => true
  end.

(** [(?<![\d.])], given the character before the position. *)
Definition lookbehind_ok (prev : option string) : bool :=
  match prev with
  | Some ch => negb (digit_or_dot ch)
  | None => true
  end.

Definition or_try {A : Type} (a b : option A) : option A :=
  match a with
  | Some _ => a
  | None => b
  end.

(** [\.\d{k}(?![\d.])] *)
Definition try_frac (k : nat) (r : list string) : option (list string) :=
  match r with
  | ch :: r' =>
      if (ch =? ".")%string
      then match take_digits k r' with
           | Some (d, rest) => if lookahead_ok rest then Some (ch :: d) else None
           | None => None
           end
      else None
  | [] => None
  end.

(** [(?:\.\d{1,2})?(?![\d.])] *)
Definition match_tail (r : list string) : option (list string) :=
  or_try (try_frac 2 r)
    (or_try (try_frac 1 r)
       (if lookahead_ok r then Some [] else None)).

(** [\d{n}(?:\.\d{1,2})?(?![\d.])] *)
Definition try_int (n : nat) (s : list string) : option (list string) :=
  match take_digits n s with
  | Some (d, r) =>
      match match_tail r with
      | Some f => Some (d ++ f)%list
      | None => None
      end
  | None => None
  end.

(** The pattern without its lookbehind, at the start of [s]. *)
Definition match_here (s : list string) : option (list string) :=
  or_try (try_int 6 s)
    (or_try (try_int 5 s)
       (or_try (try_int 4 s)
          (or_try (try_int 3 s)
             (or_try (try_int 2 s) (try_int 1 s))))).

(** [re.search]: the leftmost position where the pattern matches; the
    characters of the match. *)
Fixpoint amount_search (prev : option string) (s : list string) : option (list string) :=
  match (if lookbehind_ok prev then match_here s else None) with
  | Some m => Some m
  | None =>
      match s with
      | ch :: s' => amount_search (Some ch) s'
      | [] => None
      end
  end.

End Pattern.

(** The text made of the characters [l]. *)
Definition text_of (l : list string) : string := String.concat EmptyString l.

(** [text or ""] *)
Definition or_empty (text : option string) : string :=
  match text with
  | Some s => s
  | None => EmptyString
  end.

Definition termination_keywords : list string :=
  ["terminate"; "terminated"; "suspend"; "suspended"; "deactivated"; "blocked"; "banned"].

Definition payout_keywords : list string :=
  ["payout"; "paid"; "not paid"; "unpaid"; "payment"; "paid â‚¹"; "paid rs"; "rupees"; "rs."].

Definition rating_keywords : list string :=
  ["rating"; "algo"; "algorithm"; "penalty"; "deduct"; "deduction"].

Section Detector.

Variable py : Builtins.

Definition transcript_mentions_termination (text : option string) : bool :=
  any_in termination_keywords (lower py (or_empty text)).

Definition transcript_mentions_payout_or_paid (text : option string) : bool :=
  any_in payout_keywords (lower py (or_empty text)).

Definition transcript_mentions_rating_or_algo (text : option string) : bool :=
  any_in rating_keywords (lower py (or_empty text)).

Definition no_notice_keywords : list string :=
  ["no notice"; "sudden"; "immediately"; "without notice"].

Definition not_paid_keywords : list string :=
  ["not paid"; "didn't get paid"; "unpaid"; "not received"; "not paid to me"].

Definition extract_number_from_text (text : option string) : option float :=
  match amount_search py None (utf8_chars (or_empty text)) with
  | None => None
  | Some m => float_of_str py (text_of m)
  end.

(** The [term] of [check_discrepancy]. *)
Definition termination_of (worker_db : value) : result value :=
  bind (get worker_db "termination_status") (fun a =>
  if truthy a then Ok a else
  bind (get worker_db "terminationStatus") (fun b =>
  Ok (or_else b (VDict [])))).

(** The [is_terminated] of [check_discrepancy]; [None] is Python's [None]. *)
Definition is_terminated_of (term : value) : option Z :=
  match term with
  | VDict d =>
      if dict_mem "is_terminated" d
      then catch
             (bind (get_default term "is_terminated" (VInt 0)) (fun v =>
              bind (to_int py v) (fun z => Ok (Some z))))
             None
      else None
  | _ => None
  end.

(** Rule 1: the transcript claims a termination the record denies. *)
Definition termination_contradiction (transcript : option string) (term : value) : bool :=
  transcript_mentions_termination transcript &&
  match is_terminated_of term with
  | Some z => z =? 0
  | None => false
  end.

(** The [payouts] of [check_discrepancy]. *)
Definition payouts_of (worker_db : value) : result value :=
  bind (get worker_db "payouts") (fun p =>
  if truthy p then Ok p else
  bind (get worker_db "worker") (fun w =>
  bind (get (or_else w (VDict [])) "payouts") (fun q =>
  Ok (or_else q (VList []))))).

(** Rule 2: the claimed amount is more than 100 away from the first payout. *)
Definition payout_contradiction (claimed_amount : option float) (payouts : value) : bool :=
  match claimed_amount with
  | None => false
  | Some claimed =>
      if is_list payouts && truthy payouts
      then catch
             (bind (getitem0 payouts) (fun first =>
              bind (get_default first "amount" (VInt 0)) (fun a =>
              bind (to_float py a) (fun latest_amt =>
              Ok (PrimFloat.ltb 100%float (PrimFloat.abs (PrimFloat.sub latest_amt claimed)))))))
             false
      else false
  end.

(** Rule 3: the transcript claims no notice while the record holds a reason. *)
Definition notice_contradiction (t : string) (term : value) : bool :=
  any_in no_notice_keywords t &&
  match term with
  | VDict d => truthy (match dict_get "termination_reason_text" d with Some v => v | None => VNone end)
  | _ => false
  end.

(** Rule 4: the transcript claims non-payment while every flagged order is
    compliant. *)
Definition payment_contradiction (t : string) (worker_db : value) : result bool :=
  if any_in not_paid_keywords t then
    bind (get worker_db "orders") (fun o =>
    match or_else o (VList []) with
    | VList (x :: l) =>
        let orders := x :: l in
        bind (any_m (has "payment_compliant") orders) (fun has_payment_flags =>
        if has_payment_flags
        then all_if_m (has "payment_compliant")
               (fun o => bind (get o "payment_compliant") (fun v => Ok (in_one_tuple v)))
               orders
        else Ok false)
    | _ => Ok false
    end)
  else Ok false.

Definition check_discrepancy (transcript : option string) (worker_db : value) : result bool :=
  let t := lower py (or_empty transcript) in
  bind (termination_of worker_db) (fun term =>
  if termination_contradiction transcript term then Ok true else
  let claimed_amount := extract_number_from_text transcript in
  bind (payouts_of worker_db) (fun payouts =>
  if payout_contradiction claimed_amount payouts then Ok true else
  if notice_contradiction t term then Ok true else
  payment_contradiction t worker_db)).

(** [if k in worker_db: relevant[k] = worker_db[k]] *)
Definition copy_field (k : string) (worker_db : value) (relevant : dict) : result dict :=
  bind (has k worker_db) (fun present =>
  if present
  then bind (getitem worker_db k) (fun v => Ok (dict_set k v relevant))
  else Ok relevant).

(** [o.get("payment_compliant") in (0, "0", False) or "reduction_reason" in o
    or "payout_amount" in o] *)
Definition order_is_relevant (o : value) : result bool :=
  bind (get o "payment_compliant") (fun v =>
  if in_zero_tuple v then Ok true else
  bind (has "reduction_reason" o) (fun r =>
  if r then Ok true else has "payout_amount" o)).

(** The value stored under ["orders"] by the payout branch. *)
Definition relevant_orders (orders : value) : result value :=
  match orders with
  | VList l =>
      if (10 <? Z.of_nat (List.length l))
      then bind (filter_m order_is_relevant l) (fun filtered =>
           Ok (or_else (VList filtered) (VList (firstn 10 l))))
      else Ok orders
  | _ => Ok orders
  end.

(** One turn of the loop over the top-level identity fields. *)
Definition copy_identity_field (worker_db : value) (relevant : dict) (k : string) : result dict :=
  bind (has k worker_db) (fun present =>
  if present
  then
    let relevant := dict_setdefault "worker" (VDict []) relevant in
    bind (getitem worker_db k) (fun v =>
    bind (getitem (VDict relevant) "worker") (fun w =>
    match w with
    | VDict wd => Ok (dict_set "worker" (VDict (dict_set k v wd)) relevant)
    | _ => Raise TypeError
    end))
  else Ok relevant).

Fixpoint for_each (step : dict -> string -> result dict) (ks : list string) (relevant : dict) : result dict :=
  match ks with
  | [] => Ok relevant
  | k :: ks' => bind (step relevant k) (for_each step ks')
  end.

Definition identity_fields : list string :=
  ["name"; "phone"; "email"; "joined_at"; "current_status"].

(** The five parts of [get_relevant_db_fields], in the order of the source. *)

(** termination-related *)
Definition termination_part (transcript : option string) (worker_db : value) (relevant : dict) : result dict :=
  let t := lower py (or_empty transcript) in
  if transcript_mentions_termination transcript || contains "termination" t || contains "appeal" t
  then bind (copy_field "termination_status" worker_db relevant)
            (copy_field "termination_logs" worker_db)
  else Ok relevant.

(** payouts / payment issues *)
Definition payout_part (transcript : option string) (worker_db : value) (relevant : dict) : result dict :=
  let t := lower py (or_empty transcript) in
  if transcript_mentions_payout_or_paid transcript || any_in ["payout"; "paid"; "unpaid"; "payment"] t
  then bind (copy_field "payouts" worker_db relevant) (fun relevant =>
       bind (has "orders" worker_db) (fun present =>
       if present
       then bind (getitem worker_db "orders") (fun orders =>
            bind (relevant_orders orders) (fun kept =>
            Ok (dict_set "orders" kept relevant)))
       else Ok relevant))
  else Ok relevant.

(** rating/algorithm/penalty issues *)
Definition rating_part (transcript : option string) (worker_db : value) (relevant : dict) : result dict :=
  let t := lower py (or_empty transcript) in
  if transcript_mentions_rating_or_algo transcript
     || any_in ["rating"; "algorithm"; "algo"; "penalty"; "deduct"; "deduction"] t
  then bind (copy_field "penalties" worker_db relevant) (fun relevant =>
       bind (has "orders" worker_db) (fun present =>
       if present
       then bind (getitem worker_db "orders") (fun orders =>
            Ok (dict_setdefault "orders" orders relevant))
       else Ok relevant))
  else Ok relevant.

(** basic worker info *)
Definition worker_part (worker_db : value) (relevant : dict) : result dict :=
  bind (has "worker" worker_db) (fun present =>
  if present
  then bind (getitem worker_db "worker") (fun w =>
       Ok (dict_setdefault "worker" w relevant))
  else for_each (copy_identity_field worker_db) identity_fields relevant).

(** review counts *)
Definition review_part (transcript : option string) (worker_db : value) (relevant : dict) : result dict :=
  let t := lower py (or_empty transcript) in
  if contains "review" t || transcript_mentions_rating_or_algo transcript
  then copy_field "review_counts" worker_db relevant
  else Ok relevant.

Definition get_relevant_db_fields (transcript : option string) (worker_db : value) : result dict :=
  let relevant : dict := [] in
  bind (termination_part transcript worker_db relevant) (fun relevant =>
  bind (payout_part transcript worker_db relevant) (fun relevant =>
  bind (rating_part transcript worker_db relevant) (fun relevant =>
  bind (worker_part worker_db relevant) (fun relevant =>
  review_part transcript worker_db relevant)))).

Definition fallback_triggers : list string :=
  ["suspend"; "suspended"; "terminated"; "termination"; "no notice"; "deduct";
   "penalty"; "reduced"; "unpaid"; "not paid"; "appeal"].

Definition Valid_complaint : string := "Valid complaint".
Definition Invalid_complaint : string := "Invalid complaint".

Definition fallback_local_decision (transcript : option string) (worker_db : value) : result string :=
  let t := lower py (or_empty transcript) in
  if any_in fallback_triggers t then
    bind (get worker_db "termination_status") (fun a =>
    let term := or_else a (VDict []) in
    bind (if is_dict term
          then bind (get term "is_terminated") (fun v => Ok (in_zero_tuple v))
          else Ok false) (fun denied =>
    if denied then Ok Invalid_complaint else Ok Valid_complaint))
  else Ok Invalid_complaint.

End Detector.

(** ** The outside world of a request *)

(** What [requests.get] / [requests.post] followed by [raise_for_status]
    gives: an exception, or a body with the JSON it parses to, if any. *)
Inductive http_reply : Type :=
| HttpFailed (error : string)
| HttpBody (text : string) (json : option value).

Record World : Type := {
  EXTERNAL_PLATFORM_BASE_URL : string;
  GEMINI_API_URL : string;
  GEMINI_API_KEY : string;
  http_get : string -> http_reply;
  http_post : string -> value -> http_reply;
  utc_timestamp_str : string;                     (* strftime("%Y%m%dT%H%M%SZ") of the clock *)
  utcnow_isoformat : string;                      (* datetime.utcnow().isoformat() *)
  write_file : string -> string -> option string  (* open + write: the error text, if any *)
}.

Inductive event : Type :=
| HttpGet (url : string)
| FileWrite (path : string) (content : string)
| HttpPost (url : string) (payload : value).

(** How a handler ends: a returned value, an [HTTPException], or an
    exception nobody caught. *)
Inductive outcome (A : Type) : Type :=
| Return (a : A)
| HTTPException (status_code : Z) (detail : string)
| Uncaught (e : exn).

Arguments Return {A} a.
Arguments HTTPException {A} status_code detail.
Arguments Uncaught {A} e.

(** A computation with its external calls, in the order they were made. *)
Definition io (A : Type) : Type := (outcome A * list event)%type.

Definition io_ret {A : Type} (a : A) : io A := (Return a, []).

Definition io_bind {A B : Type} (m : io A) (k : A -> io B) : io B :=
  match m with
  | (Return a, tr) => let (r, tr') := k a in (r, (tr ++ tr')%list)
  | (HTTPException c d, tr) => (HTTPException c d, tr)
  | (Uncaught e, tr) => (Uncaught e, tr)
  end.

Definition io_raise {A : Type} (status_code : Z) (detail : string) : io A :=
  (HTTPException status_code detail, []).

(** A pure computation run inside a handler that catches nothing. *)
Definition io_lift {A : Type} (m : result A) : io A :=
  match m with
  | Ok a => (Return a, [])
  | Raise e => (Uncaught e, [])
  end.

Definition nl : string := String (ascii_of_nat 10) EmptyString.
Definition dq : string := String (ascii_of_nat 34) EmptyString.

Definition DEFAULT_GEMINI_MODEL_URL : string :=
  "https://generativelanguage.googleapis.com/v1beta/models/gemini-2.5-flash:generateContent".

Definition SAVE_DIR : string := "seek_results".

Record SeekPostRequest : Type := {
  workerId : string;
  transcript : option string;
  platformName : option string;
  entities : option dict
}.

Definition opt_str (o : option string) : value :=
  match o with
  | Some s => VStr s
  | None => VNone
  end.

Definition opt_dict (o : option dict) : value :=
  match o with
  | Some d => VDict d
  | None => VNone
  end.

Section Service.

Variable py : Builtins.
Variable w : World.

Definition BASE_WORKER_URL : string := EXTERNAL_PLATFORM_BASE_URL w ++ "/workers".

(** Returns the saved path, or the text of the exception. *)
Definition save_json_to_file (payload : value) (worker_id : string) : (string + string) * list event :=
  let filename := "seek_" ++ worker_id ++ "_" ++ utc_timestamp_str w ++ ".json" in
  let filepath := SAVE_DIR ++ "/" ++ filename in
  let content := json_dumps_indent py payload in
  (match write_file w filepath content with
   | None => inl filepath
   | Some e => inr e
   end, [FileWrite filepath content]).

(** Returns the record, or the text of the [RuntimeError]. *)
Definition fetch_worker_from_external (worker_id : string) : (value + string) * list event :=
  let url := BASE_WORKER_URL ++ "/" ++ worker_id in
  (match http_get w url with
   | HttpFailed e => inr ("Failed to fetch from external (" ++ url ++ "): " ++ e)
   | HttpBody text (Some j) => inl j
   | HttpBody text None => inl (VDict [("_raw", VStr text)])
   end, [HttpGet url]).

Definition gemini_ok (decision : string) (raw : value) : value :=
  VDict [("ok", VBool true); ("decision", VStr decision); ("raw", raw)].

Definition gemini_instruction (text : string) (db_payload : value) : string :=
  "You are a legal assistant. Given a gig-worker complaint (TEXT) and a company database (DB), "
  ++ "decide whether the complaint is VALID or INVALID under the Karnataka Gig Workers Act." ++ nl ++ nl
  ++ "Important rules:" ++ nl
  ++ "1) If any contradiction exists between the worker's claim and the company DB, the DB has precedence => INVALID." ++ nl
  ++ "2) Otherwise evaluate lawfully and return only one of these exact phrases: "
  ++ dq ++ "Valid complaint" ++ dq ++ " or " ++ dq ++ "Invalid complaint" ++ dq ++ "." ++ nl ++ nl
  ++ "Now evaluate and answer with only the phrase (no explanation):" ++ nl ++ nl
  ++ "COMPLAINT:" ++ nl
  ++ text ++ nl ++ nl
  ++ "COMPANY_DB:" ++ nl
  ++ json_dumps_indent py db_payload ++ nl ++ nl
  ++ "Answer:".

(** [txt.strip()]: only a str has the method. *)
Definition strip_of (txt : value) : result string :=
  match txt with
  | VStr s => Ok (strip s)
  | _ => Raise AttributeError
  end.

(** [isinstance(j, dict) and k in j and j[k]] *)
Definition dict_has_truthy (j : value) (k : string) : bool :=
  match j with
  | VDict d => match dict_get k d with Some v => truthy v | None => false end
  | _ => false
  end.

(** The shape [{"candidates": [{"content": {"parts": [...]}}]}]:
    the response it returns, if it returns. *)
Definition gemini_candidates (j : value) : result (option value) :=
  if dict_has_truthy j "candidates" then
    bind (getitem j "candidates") (fun cands =>
    bind (getitem0 cands) (fun cand =>
    bind (get cand "content") (fun content =>
    bind (if is_dict content
          then bind (get content "parts") (fun a =>
               bind (if truthy a then Ok a
                     else bind (get content "text") (fun b => Ok (or_else b (VList [])))) (fun parts =>
               if is_list parts && truthy parts then getitem0 parts else Ok VNone))
          else Ok VNone) (fun txt =>
    let txt := if negb (truthy txt) && is_str content then content else txt in
    if truthy txt
    then bind (strip_of txt) (fun d => Ok (Some (gemini_ok d j)))
    else Ok None))))
  else Ok None.

(** The loop over [content] in the shape [{"outputs": [{"content": [...]}]}]. *)
Fixpoint first_text (j : value) (content : list value) : result (option value) :=
  match content with
  | [] => Ok None
  | c :: rest =>
      match c with
      | VDict d =>
          if dict_mem "text" d
          then bind (getitem c "text") (fun t =>
               bind (strip_of t) (fun s => Ok (Some (gemini_ok s j))))
          else first_text j rest
      | _ => first_text j rest
      end
  end.

Definition gemini_outputs (j : value) : result (option value) :=
  if dict_has_truthy j "outputs" then
    bind (getitem j "outputs") (fun outs =>
    bind (getitem0 outs) (fun out =>
    bind (get out "content") (fun c =>
    match or_else c (VList []) with
    | VList content => first_text j content
    | _ => Ok None
    end)))
  else Ok None.

(** The [try] block that reads the decision out of the parsed reply. *)
Definition gemini_decision (j : value) : result value :=
  bind (gemini_candidates j) (fun r1 =>
  match r1 with
  | Some resp => Ok resp
  | None =>
      bind (gemini_outputs j) (fun r2 =>
      match r2 with
      | Some resp => Ok resp
      | None => Ok (gemini_ok (String.substring 0 2000 (json_dumps py j)) j)
      end)
  end).

Definition call_gemini_api (text : string) (db_payload : value) : value * list event :=
  if (GEMINI_API_KEY w =? "")%string then
    (VDict [("ok", VBool false); ("error", VStr "Gemini not configured (GEMINI_API_KEY missing)")], [])
  else
    let base_url := if (GEMINI_API_URL w =? "")%string then DEFAULT_GEMINI_MODEL_URL else GEMINI_API_URL w in
    let url := rstrip_slash base_url ++ "?key=" ++ GEMINI_API_KEY w in
    let payload :=
      VDict [("contents", VList [VDict [("parts", VList [VDict [("text", VStr (gemini_instruction text db_payload))]])]]);
             ("temperature", VFloat 0%float);
             ("maxOutputTokens", VInt 128)] in
    (match http_post w url payload with
     | HttpFailed e => VDict [("ok", VBool false); ("error", VStr e)]
     | HttpBody body None => gemini_ok (strip body) (VStr body)
     | HttpBody body (Some j) =>
         match gemini_decision j with
         | Ok resp => resp
         | Raise e =>
             VDict [("ok", VBool false);
                    ("error", VStr ("Failed to parse Gemini response: " ++ exn_text py e));
                    ("raw", j)]
         end
     end, [HttpPost url payload]).

(** The decision read off the classifier's text. *)
Definition final_of_decision (dec : string) (body : SeekPostRequest) (external_data : value) : result string :=
  if startswith (lower py dec) "valid" then Ok Valid_complaint
  else if startswith (lower py dec) "invalid" then Ok Invalid_complaint
  else if contains "invalid" (lower py dec) then Ok Invalid_complaint
  else if contains "valid" (lower py dec) then Ok Valid_complaint
  else fallback_local_decision py (Some (or_empty (transcript body))) external_data.

(** The [payload] of [seek_post]: what is saved and what the classifier is shown. *)
Definition seek_payload (body : SeekPostRequest) (external_data : value) : value :=
  VDict [("meta", VDict [("called_at", VStr (utcnow_isoformat w ++ "Z"));
                         ("requested_worker", VStr (workerId body));
                         ("transcript", opt_str (transcript body));
                         ("platformName", opt_str (platformName body));
                         ("entities", opt_dict (entities body))]);
         ("worker_db", external_data)].

(** Steps 3 and 4 of [seek_post]: the local check, then the classifier or
    the local fallback. *)
Definition seek_decide (body : SeekPostRequest) (external_data payload : value) : io value :=
  (* 3) local discrepancy check (company DB precedence) *)
  io_bind (io_lift (check_discrepancy py (transcript body) external_data)) (fun discrepancy =>
  if discrepancy then
    io_bind (io_lift (get_relevant_db_fields py (transcript body) external_data)) (fun relevant =>
    io_ret (VDict [("final_decision", VStr Invalid_complaint); ("relevant_db", VDict relevant)]))
  else
  (* 4) call gemini if available *)
  io_bind (let (r, tr) := call_gemini_api (or_empty (transcript body)) payload in (Return r, tr)) (fun gemini_resp =>
  io_bind (io_lift (get gemini_resp "ok")) (fun ok =>
  if truthy ok then
    io_bind (io_lift (get_default gemini_resp "decision" (VStr ""))) (fun d =>
    let dec := strip (to_str py d) in
    io_bind (io_lift (final_of_decision dec body external_data)) (fun final =>
    io_bind (io_lift (get_relevant_db_fields py (transcript body) external_data)) (fun relevant =>
    io_bind (io_lift (get gemini_resp "raw")) (fun raw =>
    io_ret (VDict [("final_decision", VStr final); ("relevant_db", VDict relevant); ("gemini_raw", raw)])))))
  else
    (* gemini failed/unconfigured -> local fallback *)
    io_bind (io_lift (fallback_local_decision py (Some (or_empty (transcript body))) external_data)) (fun final =>
    io_bind (io_lift (get_relevant_db_fields py (transcript body) external_data)) (fun relevant =>
    io_bind (io_lift (get gemini_resp "error")) (fun err =>
    io_ret (VDict [("final_decision", VStr final); ("relevant_db", VDict relevant); ("gemini_error", err)]))))))).

Definition seek_post (body : SeekPostRequest) : io value :=
  let worker_id := workerId body in
  if (worker_id =? "")%string then io_raise 400 "workerId is required" else
  (* 1) fetch DB *)
  io_bind (match fetch_worker_from_external worker_id with
           | (inl j, tr) => (Return j, tr)
           | (inr e, tr) => (HTTPException 502 e, tr)
           end) (fun external_data =>
  (* 2) save JSON file (meta + db) *)
  let payload := seek_payload body external_data in
  io_bind (match save_json_to_file payload worker_id with
           | (inl path, tr) => (Return path, tr)
           | (inr e, tr) => (HTTPException 500 ("Failed to save file: " ++ e), tr)
           end) (fun saved_path =>
  seek_decide body external_data payload)).

End Service.

(** ** Notions the properties below are stated with *)

(** The number of calls made to the classifier's endpoint. *)
Fixpoint classifier_calls (tr : list event) : nat :=
  match tr with
  | [] => O
  | HttpPost _ _ :: tr' => S (classifier_calls tr')
  | _ :: tr' => classifier_calls tr'
  end.

(** The termination flag of a record: [is_terminated] of its
    [termination_status] object, when there is one. *)
Definition termination_flag (d : dict) : option value :=
  match dict_get "termination_status" d with
  | Some (VDict term) => dict_get "is_terminated" term
  | _ => None
  end.

(** A flag that says "not terminated": [False], [0], ["0"] or a float zero. *)
Definition flag_is_false (v : value) : Prop :=
  v = VBool false \/ v = VInt 0 \/ v = VStr "0" \/
  exists f, v = VFloat f /\ float_eq_Z f 0 = true.

(** An order whose payment-compliance flag is [0], ["0"] or [False]. *)
Definition non_compliant (o : value) : bool :=
  match o with
  | VDict d =>
      match dict_get "payment_compliant" d with
      | Some v => in_zero_tuple v
      | None => false
      end
  | _ => false
  end.

(** An order that carries a [reduction_reason] or a [payout_amount] key. *)
Definition has_amount_keys (o : value) : bool :=
  match o with
  | VDict d => dict_mem "reduction_reason" d || dict_mem "payout_amount" d
  | _ => false
  end.

(** The identity fields a record carries at its top level, in the order
    [name, phone, email, joined_at, current_status]. *)
Definition identity_of (d : dict) : dict :=
  flat_map (fun k => match dict_get k d with Some v => [(k, v)] | None => [] end)
           identity_fields.

(** The nested worker of a record, when there is one, is an object. *)
Definition worker_is_object (d : dict) : bool :=
  match dict_get "worker" d with
  | Some w => is_dict w
  | None => true
  end.

(** [rel'] holds what [rel] holds, outside the keys [ks]. *)
Definition same_outside (ks : list string) (rel rel' : dict) : Prop :=
  forall k, ~ In k ks -> dict_get k rel' = dict_get k rel.

(** The sub-record the loop over the identity fields has built after one
    more field; [None] while nothing is stored. *)
Definition identity_step (d : dict) (acc : option dict) (k : string) : option dict :=
  match dict_get k d with
  | Some v => Some (dict_set k v (match acc with Some wd => wd | None => [] end))
  | None => acc
  end.

(** The order list of a record, when it is a list of objects. *)
Definition orders_are_objects (d : dict) : bool :=
  match dict_get "orders" d with
  | Some (VList l) => forallb is_dict l
  | _ => true
  end.

(** ** An instance of the built-ins and of the world, to run the model *)

Fixpoint digits_value (acc : Z) (s : string) : option Z :=
  match s with
  | EmptyString => Some acc
  | String c s' =>
      if is_digit c
      then digits_value (10 * acc + Z.of_nat (nat_of_ascii c - 48)) s'
      else None
  end.

(** [int(s)] on plain decimals: an optional sign and digits. *)
Definition ascii_int (s : string) : option Z :=
  match strip s with
  | EmptyString => None
  | String c r =>
      if (c =? "-")%char then
        match r with EmptyString => None | _ => option_map Z.opp (digits_value 0 r) end
      else if (c =? "+")%char then
        match r with EmptyString => None | _ => digits_value 0 r end
      else digits_value 0 (String c r)
  end.

Fixpoint split_dot (s : string) : string * option string :=
  match s with
  | EmptyString => (EmptyString, None)
  | String c s' =>
      if (c =? ".")%char then (EmptyString, Some s')
      else let (a, b) := split_dot s' in (String c a, b)
  end.

(** [float(s)] on what the amount pattern matches: digits, and at most two
    decimals; the quotient of two exact floats is correctly rounded. *)
Definition ascii_float (s : string) : option float :=
  match split_dot s with
  | (EmptyString, _) => None
  | (i, None) =>
      match digits_value 0 i with
      | Some n => match float_of_Z n with Ok f => Some f | Raise _ => None end
      | None => None
      end
  | (i, Some fr) =>
      match digits_value 0 (i ++ fr) with
      | Some n =>
          match float_of_Z n, float_of_Z (10 ^ Z.of_nat (String.length fr)) with
          | Ok a, Ok b => if (String.length fr <=? 2)%nat then Some (PrimFloat.div a b) else None
          | _, _ => None
          end
      | None => None
      end
  end.

Definition ascii_builtins : Builtins := {|
  lower_wide := fun _ run _ => run;
  decimal_wide := fun _ => false;
  int_of_str := ascii_int;
  float_of_str := ascii_float;
  repr_of := fun _ => "<value>";
  json_dumps := fun _ => "<json>";
  json_dumps_indent := fun _ => "<json>";
  exn_text := fun _ => "<exception>"
|}.

(** The Devanagari digit a character is, if it is one (U+0966 to U+096F). *)
Definition devanagari_digit (ch : string) : option nat :=
  match ch with
  | String a (String b (String c EmptyString)) =>
      if ((nat_of_ascii a =? 224) && (nat_of_ascii b =? 165)
          && (166 <=? nat_of_ascii c) && (nat_of_ascii c <=? 175))%nat
      then Some (nat_of_ascii c - 166)%nat
      else None
  | _ => None
  end.

(** The text with its Devanagari digits written in ASCII. *)
Definition latin_digits (s : string) : string :=
  text_of (map (fun ch => match devanagari_digit ch with
                          | Some d => String (ascii_of_nat (48 + d)) EmptyString
                          | None => ch
                          end)
               (utf8_chars s)).

(** The built-ins that also know the Devanagari digits, and the Kelvin sign
    (U+212A), whose lower case is the letter k. *)
Definition hindi_builtins : Builtins := {|
  lower_wide := fun _ run _ => if (run =? bytes [226; 132; 170])%string then "k" else run;
  decimal_wide := fun ch => match devanagari_digit ch with Some _ => true | None => false end;
  int_of_str := fun s => ascii_int (latin_digits s);
  float_of_str := fun s => ascii_float (latin_digits s);
  repr_of := fun _ => "<value>";
  json_dumps := fun _ => "<json>";
  json_dumps_indent := fun _ => "<json>";
  exn_text := fun _ => "<exception>"
|}.

(** The Devanagari numeral for five hundred. *)
Definition devanagari_500 : string :=
  bytes [224; 165; 171; 224; 165; 166; 224; 165; 166].

(** A world with one platform record, a writable disk and a classifier
    that answers [reply]. *)
Definition world_of (key : string) (record : value) (reply : http_reply) : World := {|
  EXTERNAL_PLATFORM_BASE_URL := "http://10.221.246.153:5001";
  GEMINI_API_URL := "";
  GEMINI_API_KEY := key;
  http_get := fun _ => HttpBody "" (Some record);
  http_post := fun _ _ => reply;
  utc_timestamp_str := "20260101T000000Z";
  utcnow_isoformat := "2026-01-01T00:00:00";
  write_file := fun _ _ => None
|}.

Definition request_of (id text : string) : SeekPostRequest := {|
  workerId := id;
  transcript := Some text;
  platformName := None;
  entities := None
|}.

(** A record as the platform serves it, with the given termination flag
    and orders. *)
Definition platform_record (flag : value) (orders : list value) : dict :=
  [("worker", VDict [("worker_id", VStr "W1"); ("name", VStr "Asha"); ("notes", VNone)]);
   ("orders", VList orders);
   ("termination_status",
      VDict [("worker_id", VStr "W1"); ("is_terminated", flag); ("termination_reason_text", VNone)]);
   ("termination_logs", VList []);
   ("review_counts", VNone)].


(** An order that carries its identifier and its compliance flag only. *)
Definition bare_order (n compliant : Z) : value :=
  VDict [("order_id", VInt n); ("payment_compliant", VInt compliant)].

(** Eleven orders, the third and the eighth flagged non-compliant. *)
Definition eleven (mk : Z -> Z -> value) : list value :=
  [mk 1 1; mk 2 1; mk 3 0; mk 4 1; mk 5 1; mk 6 1; mk 7 1; mk 8 0; mk 9 1; mk 10 1; mk 11 1].

(** ** Further notions: the shape of an amount, the keys of the mapping *)

(** The last character of a text, if any. *)
Fixpoint last_char (l : list string) : option string :=
  match l with
  | [] => None
  | ch :: l' => match last_char l' with Some c' => Some c' | None => Some ch end
  end.

(** One to six digits, then nothing or a dot and one or two digits. *)
Definition amount_shape (py : Builtins) (m : list string) : Prop :=
  exists d f,
    m = (d ++ f)%list /\
    forallb (is_decimal py) d = true /\ (1 <= List.length d <= 6)%nat /\
    (f = [] \/
     exists e, f = "." :: e /\ forallb (is_decimal py) e = true /\ (1 <= List.length e <= 2)%nat).

(** The keys [get_relevant_db_fields] may store, and those it copies as
    they are. *)
Definition relevant_keys : list string :=
  ["termination_status"; "termination_logs"; "payouts"; "orders"; "penalties";
   "worker"; "review_counts"].

Definition copied_keys : list string :=
  ["termination_status"; "termination_logs"; "payouts"; "penalties"; "review_counts"].

(** A transcript that touches on none of the four rules of
    [check_discrepancy]. *)
Definition no_rule_trigger (py : Builtins) (transcript : option string) : bool :=
  negb (transcript_mentions_termination py transcript)
  && match amount_search py None (utf8_chars (or_empty transcript)) with
     | None => true
     | Some _ => false
     end
  && negb (any_in no_notice_keywords (lower py (or_empty transcript)))
  && negb (any_in not_paid_keywords (lower py (or_empty transcript))).

(** The topics of a transcript that open the parts of
    [get_relevant_db_fields]. *)
Definition termination_topic (py : Builtins) (transcript : option string) : bool :=
  transcript_mentions_termination py transcript
  || contains "termination" (lower py (or_empty transcript))
  || contains "appeal" (lower py (or_empty transcript)).

Definition payout_topic (py : Builtins) (transcript : option string) : bool :=
  transcript_mentions_payout_or_paid py transcript
  || any_in ["payout"; "paid"; "unpaid"; "payment"] (lower py (or_empty transcript)).

Definition rating_topic (py : Builtins) (transcript : option string) : bool :=
  transcript_mentions_rating_or_algo py transcript
  || any_in ["rating"; "algorithm"; "algo"; "penalty"; "deduct"; "deduction"]
       (lower py (or_empty transcript)).

Definition review_topic (py : Builtins) (transcript : option string) : bool :=
  contains "review" (lower py (or_empty transcript))
  || transcript_mentions_rating_or_algo py transcript.

(** The topic that has to be mentioned for a key to be stored; ["worker"]
    needs none. *)
Definition topic_of (py : Builtins) (k : string) (transcript : option string) : bool :=
  if (k =? "termination_status")%string then termination_topic py transcript
  else if (k =? "termination_logs")%string then termination_topic py transcript
  else if (k =? "payouts")%string then payout_topic py transcript
  else if (k =? "orders")%string then payout_topic py transcript || rating_topic py transcript
  else if (k =? "penalties")%string then rating_topic py transcript
  else if (k =? "review_counts")%string then review_topic py transcript
  else true.

(** Every entry of the mapping is under a key of [relevant_keys], and under
    a key of [copied_keys] it is the entry of the record [d]. *)
Definition from_record (d rel : dict) : Prop :=
  forall k v, dict_get k rel = Some v ->
              In k relevant_keys /\ (In k copied_keys -> dict_get k d = Some v).

(** An order that carries a payment-compliance flag, and one whose flag, if
    any, is [1], [True] or ["1"]. *)
Definition has_flag (o : value) : bool :=
  match o with
  | VDict d => dict_mem "payment_compliant" d
  | _ => false
  end.

Definition flag_compliant (o : value) : bool :=
  match o with
  | VDict d =>
      match dict_get "payment_compliant" d with
      | Some v => in_one_tuple v
      | None => true
      end
  | _ => true
  end.

(** What the list kept under ["orders"] owes to the orders of the record:
    its items are items of the record, it is no longer, it is the record's
    list when that has at most ten items, and it is empty only if the
    record's list is. *)
Definition taken_from (os : list value) (kept : value) : Prop :=
  exists l',
    kept = VList l' /\
    (forall o, In o l' -> In o os) /\
    (List.length l' <= List.length os)%nat /\
    ((List.length os <= 10)%nat -> l' = os) /\
    (os <> [] -> l' <> []).

(** A computation that makes no external call. *)
Definition quiet {A : Type} (m : io A) : Prop := snd m = [].

(** The two shapes the docstring of [call_gemini_api] announces:
    [{"ok": True, "decision": <str>, "raw": ...}] and
    [{"ok": False, "error": <str>, ...}]. *)
Definition documented_reply (r : value) : bool :=
  match r with
  | VDict d =>
      match dict_get "ok" d with
      | Some (VBool true) =>
          match dict_get "decision" d with Some (VStr _) => dict_mem "raw" d | _ => false end
      | Some (VBool false) =>
          match dict_get "error" d with Some (VStr _) => true | _ => false end
      | _ => false
      end
  | _ => false
  end.

(** The value a handler returned, [None] where it raised. *)
Definition returned (m : io value) : value :=
  match fst m with
  | Return r => r
  | _ => VNone
  end.

(** A reply in the shape of the generateContent endpoint: the text of the
    first candidate sits in an object of its [parts]. *)
Definition generate_content_reply (text : string) : value :=
  VDict [("candidates",
          VList [VDict [("content",
                         VDict [("parts", VList [VDict [("text", VStr text)]]);
                                ("role", VStr "model")])]])].

(** A world whose platform and disk fail as told. *)
Definition failing_world (get_reply : http_reply) (write_error : option string) : World := {|
  EXTERNAL_PLATFORM_BASE_URL := "http://10.221.246.153:5001";
  GEMINI_API_URL := "";
  GEMINI_API_KEY := "key";
  http_get := fun _ => get_reply;
  http_post := fun _ _ => HttpBody "Valid complaint" None;
  utc_timestamp_str := "20260101T000000Z";
  utcnow_isoformat := "2026-01-01T00:00:00";
  write_file := fun _ _ => write_error
|}.

End GigWorkerApp.

(* ===================================================================== *)
(** * zomato_simulator/backend: utils.py and app.py *)
(* ===================================================================== *)

Module ZomatoSimulator.

Import Py.

(** A row as [dict(row)] gives it: column name to cell.  A cell is [VNone]
    (NULL), a [VInt], a [VFloat] or a [VStr]. *)
Definition row : Type := dict.

Record database : Type := {
  workers : list row;
  orders : list row;
  termination_status : list row;
  termination_logs : list row;
  review_counts : list row
}.

(** The database file: [None] when [gigworkers.db] does not exist. *)
Definition store : Type := option database.

Definition cell (col : string) (r : row) : value :=
  match dict_get col r with
  | Some v => v
  | None => VNone
  end.

(** Modelled from the spec: [database_schema.sql] is not among the sources.
    Identifiers are text; a cell equals a bound str when it holds the same
    text, and NULL equals nothing. *)
Definition col_is (col : string) (x : string) (r : row) : bool :=
  eq_str (cell col r) x.

(** Modelled from the spec: [database_schema.sql] is not among the sources.
    Equality of two stored cells, as a uniqueness constraint sees it: same
    text, or same number; NULL is distinct from everything. *)
Definition cell_eq (a b : value) : bool :=
  match a, b with
  | VStr s, VStr s' => (s =? s')%string
  | VInt z, VInt z' => z =? z'
  | VInt z, VFloat f => float_eq_Z f z
  | VFloat f, VInt z => float_eq_Z f z
  | VFloat f, VFloat f' => PrimFloat.eqb f f'
  | _, _ => false
  end.

(** What the engine and the absent schema decide beyond the identifiers'
    uniqueness: the order of an [ORDER BY ... DESC], and the other
    constraints of a [workers] row (a violation is an [IntegrityError]). *)
Record Engine : Type := {
  order_by_desc : string -> list row -> list row;
  workers_row_ok : row -> bool
}.

(** [SELECT * FROM t WHERE col = ?] *)
Definition select_where (col x : string) (t : list row) : list row :=
  filter (col_is col x) t.

(** [DELETE FROM t WHERE col = ?] *)
Definition delete_where (col x : string) (t : list row) : list row :=
  filter (fun r => negb (col_is col x r)) t.

(** [cur.fetchone()] then [_row_to_dict] *)
Definition fetchone (rows : list row) : value :=
  match rows with
  | r :: _ => VDict r
  | [] => VNone
  end.

(** [[dict(r) for r in cur.fetchall()]] *)
Definition fetchall (rows : list row) : value := VList (map VDict rows).

(** The value sqlite3 binds for a Python value; SQLite keeps a float that
    is not a number as NULL. *)
Definition bind_param (v : value) : result value :=
  match v with
  | VNone => Ok VNone
  | VBool b => Ok (VInt (if b then 1 else 0))
  | VInt z => if (- 2 ^ 63 <=? z) && (z <? 2 ^ 63) then Ok (VInt z) else Raise OverflowError
  | VFloat f => Ok (if PrimFloat.is_nan f then VNone else VFloat f)
  | VStr s => Ok (VStr s)
  | VList _ => Raise SqliteBindError
  | VDict _ => Raise SqliteBindError
  end.

(** [[worker.get(f) for f in fields]], bound to the columns of the insert. *)
Fixpoint bind_params (fields : list string) (d : dict) : result row :=
  match fields with
  | [] => Ok []
  | f :: fields' =>
      bind (bind_param (cell f d)) (fun c =>
      bind (bind_params fields' d) (fun r => Ok ((f, c) :: r)))
  end.

Record JSONResponse : Type := {
  status_code : Z;
  content : value
}.

Definition DB_PATH : string := "gigworkers.db".

Section Simulator.

Variable engine : Engine.

Definition get_worker_summary (worker_id : string) (st : store) : result value :=
  match st with
  | None => Raise FileNotFoundError
  | Some db =>
      let worker := fetchone (select_where "worker_id" worker_id (workers db)) in
      let orders := fetchall (order_by_desc engine "order_date" (select_where "worker_id" worker_id (orders db))) in
      let termination_status := fetchone (select_where "worker_id" worker_id (termination_status db)) in
      let termination_logs := fetchall (order_by_desc engine "logged_at" (select_where "worker_id" worker_id (termination_logs db))) in
      let review_counts := fetchone (select_where "worker_id" worker_id (review_counts db)) in
      Ok (VDict [("worker", worker);
                 ("orders", orders);
                 ("termination_status", termination_status);
                 ("termination_logs", termination_logs);
                 ("review_counts", review_counts)])
  end.

Definition worker_fields : list string :=
  ["worker_id"; "name"; "phone"; "email"; "joined_at"; "current_status"; "notes"].

(** Modelled from the spec: [database_schema.sql] is not among the sources.
    The worker identifier is unique: a new row conflicts with a stored row
    that holds an equal [worker_id]. *)
Definition worker_id_taken (r : row) (t : list row) : bool :=
  existsb (fun r' => cell_eq (cell "worker_id" r') (cell "worker_id" r)) t.

(** Returns True on success, False if the insert was refused.  The new
    row holds the values sqlite3 bound: [database_schema.sql] is not among
    the sources, and a column is taken to keep the value bound to it, with
    no conversion by a column affinity. *)
Definition add_worker (worker : dict) (st : store) : result bool * store :=
  if negb (dict_mem "worker_id" worker) then (Raise ValueError, st) else
  match st with
  | None => (Raise FileNotFoundError, st)
  | Some db =>
      match bind_params worker_fields worker with
      | Raise e => (Raise e, st)
      | Ok r =>
          if worker_id_taken r (workers db) || negb (workers_row_ok engine r)
          then (Ok false, st)                      (* sqlite3.IntegrityError *)
          else (Ok true,
                Some {| workers := (workers db ++ [r])%list;
                        orders := orders db;
                        termination_status := termination_status db;
                        termination_logs := termination_logs db;
                        review_counts := review_counts db |})
      end
  end.

(** Deletes the worker row and the rows of the four dependent tables. *)
Definition remove_worker (worker_id : string) (st : store) : result bool * store :=
  match st with
  | None => (Raise FileNotFoundError, st)
  | Some db =>
      let orders' := delete_where "worker_id" worker_id (orders db) in
      let termination_status' := delete_where "worker_id" worker_id (termination_status db) in
      let termination_logs' := delete_where "worker_id" worker_id (termination_logs db) in
      let review_counts' := delete_where "worker_id" worker_id (review_counts db) in
      let workers' := delete_where "worker_id" worker_id (workers db) in
      let deleted := Z.of_nat (List.length (select_where "worker_id" worker_id (workers db))) in
      (Ok (0 <? deleted),
       Some {| workers := workers';
               orders := orders';
               termination_status := termination_status';
               termination_logs := termination_logs';
               review_counts := review_counts' |})
  end.

Definition _file_error_response : JSONResponse :=
  {| status_code := 500;
     content := VDict [("error", VStr ("Database file not found at: " ++ DB_PATH ++ ". Run init_db.py first."))] |}.

(** GET /workers/{worker_id} *)
Definition api_get_worker_summary (worker_id : string) (st : store) : result JSONResponse :=
  match get_worker_summary worker_id st with
  | Ok summary =>
      if is_dict summary && match get summary "worker" with Ok VNone => true | _ => false end
      then Ok {| status_code := 404; content := VDict [("error", VStr "worker not found")] |}
      else Ok {| status_code := 200; content := summary |}
  | Raise FileNotFoundError => Ok _file_error_response
  | Raise e => Raise e
  end.

(** POST /workers *)
Definition api_add_worker (payload : dict) (st : store) : result JSONResponse * store :=
  if negb (truthy (VDict payload)) then
    (Ok {| status_code := 400; content := VDict [("error", VStr "JSON body required")] |}, st)
  else if negb (dict_mem "worker_id" payload) then
    (Ok {| status_code := 400; content := VDict [("error", VStr "worker_id required")] |}, st)
  else
    match add_worker payload st with
    | (Ok true, st') => (Ok {| status_code := 201; content := VDict [("ok", VBool true)] |}, st')
    | (Ok false, st') =>
        (Ok {| status_code := 409;
               content := VDict [("ok", VBool false); ("error", VStr "worker_id already exists")] |}, st')
    | (Raise FileNotFoundError, st') => (Ok _file_error_response, st')
    | (Raise e, st') => (Raise e, st')
    end.

(** DELETE /workers/{worker_id} *)
Definition api_remove_worker (worker_id : string) (st : store) : result JSONResponse * store :=
  match remove_worker worker_id st with
  | (Ok true, st') => (Ok {| status_code := 200; content := VDict [("ok", VBool true)] |}, st')
  | (Ok false, st') =>
      (Ok {| status_code := 404;
             content := VDict [("ok", VBool false); ("error", VStr "worker not found")] |}, st')
  | (Raise FileNotFoundError, st') => (Ok _file_error_response, st')
  | (Raise e, st') => (Raise e, st')
  end.

(** DELETE /termination_status/{worker_id}, DELETE /review_counts/{worker_id}:
    the helpers of utils.py and their endpoints. *)

Definition remove_termination_status (worker_id : string) (st : store) : result bool * store :=
  match st with
  | None => (Raise FileNotFoundError, st)
  | Some db =>
      let deleted := Z.of_nat (List.length (select_where "worker_id" worker_id (termination_status db))) in
      (Ok (0 <? deleted),
       Some {| workers := workers db;
               orders := orders db;
               termination_status := delete_where "worker_id" worker_id (termination_status db);
               termination_logs := termination_logs db;
               review_counts := review_counts db |})
  end.

Definition remove_review_counts (worker_id : string) (st : store) : result bool * store :=
  match st with
  | None => (Raise FileNotFoundError, st)
  | Some db =>
      let deleted := Z.of_nat (List.length (select_where "worker_id" worker_id (review_counts db))) in
      (Ok (0 <? deleted),
       Some {| workers := workers db;
               orders := orders db;
               termination_status := termination_status db;
               termination_logs := termination_logs db;
               review_counts := delete_where "worker_id" worker_id (review_counts db) |})
  end.

Definition remove_order (order_id : string) (st : store) : result bool * store :=
  match st with
  | None => (Raise FileNotFoundError, st)
  | Some db =>
      let deleted := Z.of_nat (List.length (select_where "order_id" order_id (orders db))) in
      (Ok (0 <? deleted),
       Some {| workers := workers db;
               orders := delete_where "order_id" order_id (orders db);
               termination_status := termination_status db;
               termination_logs := termination_logs db;
               review_counts := review_counts db |})
  end.

(** The answer of a DELETE endpoint for the result of its helper. *)
Definition delete_response (what : string) (r : result bool * store) : result JSONResponse * store :=
  match r with
  | (Ok true, st') => (Ok {| status_code := 200; content := VDict [("ok", VBool true)] |}, st')
  | (Ok false, st') =>
      (Ok {| status_code := 404;
             content := VDict [("ok", VBool false); ("error", VStr (what ++ " not found"))] |}, st')
  | (Raise FileNotFoundError, st') => (Ok _file_error_response, st')
  | (Raise e, st') => (Raise e, st')
  end.

Definition api_remove_termination_status (worker_id : string) (st : store) : result JSONResponse * store :=
  delete_response "termination_status" (remove_termination_status worker_id st).

Definition api_remove_review_counts (worker_id : string) (st : store) : result JSONResponse * store :=
  delete_response "review_counts" (remove_review_counts worker_id st).

Definition api_remove_order (order_id : string) (st : store) : result JSONResponse * store :=
  delete_response "order" (remove_order order_id st).

End Simulator.

(** ** Fields kept inside the [notes] column of a worker *)

(** [json.loads] ([None] where it raises) and [json.dumps] on the text of a
    [notes] cell. *)
Record JsonCodec : Type := {
  loads : string -> option value;
  dumps : value -> string
}.

(** [d.pop(k)]: the key is gone. *)
Definition dict_remove (k : string) (d : dict) : dict :=
  filter (fun kv => negb (fst kv =? k)%string) d.

(** [UPDATE workers SET notes = ? WHERE worker_id = ?] *)
Definition update_notes (worker_id notes_str : string) (t : list row) : list row :=
  map (fun r => if col_is "worker_id" worker_id r then dict_set "notes" (VStr notes_str) r else r) t.

Definition with_workers (db : database) (t : list row) : database :=
  {| workers := t;
     orders := orders db;
     termination_status := termination_status db;
     termination_logs := termination_logs db;
     review_counts := review_counts db |}.

Section Notes.

Variable codec : JsonCodec.

Definition _read_notes_json (notes_value : value) : value :=
  if negb (truthy notes_value) then VDict []
  else
    match notes_value with
    | VStr s =>
        match loads codec s with
        | Some v => v
        | None => VDict [("__raw_notes", notes_value)]
        end
    | _ => VDict [("__raw_notes", notes_value)]   (* json.loads refuses what is no text *)
    end.

(** Add or update a key inside the worker's notes.  Returns True if the
    worker existed, False if not. *)
Definition add_field_to_worker (worker_id field : string) (v : value) (st : store) : result bool * store :=
  match st with
  | None => (Raise FileNotFoundError, st)
  | Some db =>
      match select_where "worker_id" worker_id (workers db) with
      | [] => (Ok false, st)
      | r :: _ =>
          match _read_notes_json (cell "notes" r) with
          | VDict notes =>
              let notes_str := dumps codec (VDict (dict_set field v notes)) in
              (Ok true, Some (with_workers db (update_notes worker_id notes_str (workers db))))
          | _ => (Raise TypeError, st)            (* notes[field] = value on what is no dict *)
          end
      end
  end.

(** Remove a key from the worker's notes.  Returns True if the worker
    existed, the key removed or not present; False if the worker was not
    found. *)
Definition remove_field_from_worker (worker_id field : string) (st : store) : result bool * store :=
  match st with
  | None => (Raise FileNotFoundError, st)
  | Some db =>
      match select_where "worker_id" worker_id (workers db) with
      | [] => (Ok false, st)
      | r :: _ =>
          let notes := _read_notes_json (cell "notes" r) in
          match has field notes with
          | Raise e => (Raise e, st)
          | Ok false => (Ok true, st)
          | Ok true =>
              match notes with
              | VDict d =>
                  let notes_str := dumps codec (VDict (dict_remove field d)) in
                  (Ok true, Some (with_workers db (update_notes worker_id notes_str (workers db))))
              | VList _ => (Raise TypeError, st)      (* list.pop of a str *)
              | _ => (Raise AttributeError, st)       (* a str has no pop *)
              end
          end
      end
  end.

(** The notes of a worker as the two helpers read them. *)
Definition notes_of (worker_id : string) (st : store) : option value :=
  match st with
  | None => None
  | Some db =>
      match select_where "worker_id" worker_id (workers db) with
      | [] => None
      | r :: _ => Some (_read_notes_json (cell "notes" r))
      end
  end.

End Notes.

(** ** An engine and a database, to run the model *)

Definition plain_engine : Engine := {|
  order_by_desc := fun _ rows => rows;
  workers_row_ok := fun _ => true
|}.

Definition asha_row : row :=
  [("worker_id", VStr "W1"); ("name", VStr "Asha"); ("phone", VNone);
   ("email", VNone); ("joined_at", VStr "2024-01-05"); ("current_status", VStr "active");
   ("notes", VNone)].

Definition one_worker_db : database := {|
  workers := [asha_row];
  orders := [[("order_id", VStr "O1"); ("worker_id", VStr "W1"); ("payout_amount", VInt 120)]];
  termination_status := [];
  termination_logs := [];
  review_counts := []
|}.

(** The text written for the object [d] is not empty and is read back as
    [d]. *)
Definition reads_back (codec : JsonCodec) (d : dict) : Prop :=
  dumps codec (VDict d) <> "" /\ loads codec (dumps codec (VDict d)) = Some (VDict d).

Fixpoint flat_render (d : dict) : string :=
  match d with
  | [] => ""
  | (k, VStr v) :: d' => k ++ "=" ++ v ++ ";" ++ flat_render d'
  | (k, _) :: d' => k ++ "=;" ++ flat_render d'
  end.

Fixpoint flat_parse (s key cur : string) (acc : dict) : option value :=
  match s with
  | EmptyString => None
  | String c s' =>
      if (c =? "}")%char then
        match s', key, cur with
        | EmptyString, EmptyString, EmptyString => Some (VDict (rev acc))
        | _, _, _ => None
        end
      else if (c =? "=")%char then flat_parse s' cur "" acc
      else if (c =? ";")%char then flat_parse s' "" "" ((key, VStr cur) :: acc)
      else flat_parse s' key (cur ++ String c EmptyString) acc
  end.

(** A codec to run the model: objects whose keys and values are texts
    without [=], [;] and [}], and [null]. *)
Definition flat_codec : JsonCodec := {|
  loads := fun s =>
    match s with
    | String c s' => if (c =? "{")%char then flat_parse s' "" "" []
                     else if (s =? "null")%string then Some VNone else None
    | EmptyString => None
    end;
  dumps := fun v =>
    match v with
    | VDict d => "{" ++ flat_render d ++ "}"
    | _ => "null"
    end
|}.

(** The database of one worker, with the given [notes] cell. *)
Definition noted_db (notes : value) : database :=
  with_workers one_worker_db [dict_set "notes" notes asha_row].

End ZomatoSimulator.

(* ===================================================================== *)
(** * gig_worker_app/backend/ocr_echo_api.py *)
(* ===================================================================== *)

Module OcrEchoApi.

Import Py GigWorkerApp.

(** How a function of this file ends: a result, a Python exception, the
    [RuntimeError] it raises itself, or a failed HTTP request. *)
Inductive ended (A : Type) : Type :=
| Done (a : A)
| PyRaise (e : exn)
| RuntimeError (msg : string)
| RequestFailed (msg : string).

Arguments Done {A} a.
Arguments PyRaise {A} e.
Arguments RuntimeError {A} msg.
Arguments RequestFailed {A} msg.

Definition of_result {A : Type} (r : result A) : ended A :=
  match r with
  | Ok a => Done a
  | Raise e => PyRaise e
  end.

Definition PREFERRED_MODELS : list string :=
  ["models/gemini-2.5-flash";
   "models/gemini-2.5-pro";
   "models/gemini-pro-latest";
   "models/gemini-flash-latest"].

Definition chars (s : string) : list value := map VStr (utf8_chars s).

(** [for m in v]: the items of a list, the characters of a str, the keys of
    a dict; the other values are not iterable. *)
Definition iterate (v : value) : result (list value) :=
  match v with
  | VList l => Ok l
  | VStr s => Ok (chars s)
  | VDict d => Ok (map (fun kv => VStr (fst kv)) d)
  | _ => Raise TypeError
  end.

(** [{m["name"]: m for m in ms}], read at its str keys only: a later model
    replaces an earlier one of the same name; a name that is a list or a
    dict cannot be a key. *)
Fixpoint index_by_name (ms : list value) (models : dict) : result dict :=
  match ms with
  | [] => Ok models
  | m :: ms' =>
      bind (getitem m "name") (fun name =>
      match name with
      | VStr s => index_by_name ms' (dict_set s m models)
      | VList _ => Raise TypeError
      | VDict _ => Raise TypeError
      | _ => index_by_name ms' models
      end)
  end.

(** The loop of [pick_gemini_model] over the preferred models. *)
Fixpoint first_supported (models : dict) (preferred : list string) : result (option string) :=
  match preferred with
  | [] => Ok None
  | m :: rest =>
      match dict_get m models with
      | Some entry =>
          bind (get_default entry "supportedGenerationMethods" (VList [])) (fun methods =>
          bind (has "generateContent" methods) (fun supported =>
          if supported then Ok (Some m) else first_supported models rest))
      | None => first_supported models rest
      end
  end.

(** [data["candidates"][0]["content"]["parts"][0]["text"]] *)
Definition reply_text (data : value) : result value :=
  bind (getitem data "candidates") (fun cands =>
  bind (getitem0 cands) (fun cand =>
  bind (getitem cand "content") (fun content =>
  bind (getitem content "parts") (fun parts =>
  bind (getitem0 parts) (fun part =>
  getitem part "text"))))).

(** [text.split("\n")] *)
Fixpoint split_lines (s : string) : list string :=
  match s with
  | EmptyString => [EmptyString]
  | String c s' =>
      if (c =? ascii_of_nat 10)%char
      then EmptyString :: split_lines s'
      else match split_lines s' with
           | l :: ls => String c l :: ls
           | [] => [String c EmptyString]
           end
  end.

(** What [render_pdf] asks of the canvas. *)
Inductive canvas_op : Type :=
| SetFont (name : string) (size : Z)
| DrawCentredString (x y : float) (s : string)
| DrawString (x y : float) (s : string)
| ShowPage
| Save.

Section Service.

Variable GEMINI_API_KEY : string.

Definition LIST_MODELS_URL : string :=
  "https://generativelanguage.googleapis.com/v1beta/models?key=" ++ GEMINI_API_KEY.

(** [requests.get], [raise_for_status], [r.json()] *)
Definition fetch_models_list (http_get : string -> http_reply) : ended value :=
  match http_get LIST_MODELS_URL with
  | HttpFailed e => RequestFailed e
  | HttpBody _ None => PyRaise ValueError
  | HttpBody _ (Some j) => Done j
  end.

(** Returns [(SELECTED_MODEL, GEMINI_URL)]. *)
Definition pick_gemini_model (http_get : string -> http_reply) : ended (string * string) :=
  match fetch_models_list http_get with
  | Done data =>
      match bind (get_default data "models" (VList [])) (fun listed =>
            bind (iterate listed) (fun ms =>
            bind (index_by_name ms []) (fun models =>
            first_supported models PREFERRED_MODELS))) with
      | Ok (Some m) =>
          Done (m, "https://generativelanguage.googleapis.com/v1beta/" ++ m
                   ++ ":generateContent?key=" ++ GEMINI_API_KEY)
      | Ok None => RuntimeError "No valid Gemini model found"
      | Raise e => PyRaise e
      end
  | PyRaise e => PyRaise e
  | RuntimeError msg => RuntimeError msg
  | RequestFailed msg => RequestFailed msg
  end.

Definition call_gemini (http_post : string -> value -> http_reply) (GEMINI_URL prompt : string) : ended value :=
  let body :=
    VDict [("contents", VList [VDict [("role", VStr "user");
                                      ("parts", VList [VDict [("text", VStr prompt)]])]]);
           ("generationConfig", VDict [("temperature", VFloat 0%float);
                                       ("maxOutputTokens", VInt 2000)])] in
  match http_post GEMINI_URL body with
  | HttpFailed e => RequestFailed e
  | HttpBody _ None => PyRaise ValueError
  | HttpBody _ (Some data) => of_result (reply_text data)
  end.

End Service.

Section Pdf.

(** [A4] and [mm] of reportlab, and [TextWrapper(width=95).wrap]. *)
Variable page_w page_h mm : float.
Variable wrap : string -> list string.

Definition margin : float := PrimFloat.mul 15%float mm.

(** The inner loop: one wrapped line after the other, [y] moving down. *)
Fixpoint draw_wrapped (wrapped : list string) (y : float) (ops : list canvas_op) : float * list canvas_op :=
  match wrapped with
  | [] => (y, ops)
  | w :: rest =>
      let (y, ops) :=
        if PrimFloat.ltb y margin
        then (PrimFloat.sub page_h margin, (ops ++ [ShowPage; SetFont "Helvetica" 11])%list)
        else (y, ops) in
      draw_wrapped rest (PrimFloat.sub y 14%float) (ops ++ [DrawString margin y w])%list
  end.

(** The outer loop over the lines of the text. *)
Fixpoint draw_lines (lines : list string) (y : float) (ops : list canvas_op) : float * list canvas_op :=
  match lines with
  | [] => (y, ops)
  | line :: rest =>
      let (y, ops) := draw_wrapped (wrap line) y ops in
      draw_lines rest y ops
  end.

(** The canvas operations of [render_pdf], in order; a text that is no str
    has no [split]. *)
Definition render_pdf (text : value) : result (list canvas_op) :=
  match text with
  | VStr s =>
      let ops := [SetFont "Helvetica-Bold" 16;
                  DrawCentredString (PrimFloat.div page_w 2%float) (PrimFloat.sub page_h margin)
                                    "Worker Statement";
                  SetFont "Helvetica" 11] in
      let y := PrimFloat.sub (PrimFloat.sub page_h margin) 30%float in
      let (_, ops) := draw_lines (split_lines s) y ops in
      Ok (ops ++ [ShowPage; Save])%list
  | _ => Raise AttributeError
  end.

End Pdf.

(** The lines [render_pdf] draws, in the order it draws them. *)
Fixpoint drawn_lines (ops : list canvas_op) : list string :=
  match ops with
  | [] => []
  | DrawString _ _ s :: ops' => s :: drawn_lines ops'
  | _ :: ops' => drawn_lines ops'
  end.

(** No line is drawn below the height [low]. *)
Fixpoint drawn_above (low : float) (ops : list canvas_op) : bool :=
  match ops with
  | [] => true
  | DrawString _ y _ :: ops' => negb (PrimFloat.ltb y low) && drawn_above low ops'
  | _ :: ops' => drawn_above low ops'
  end.

(** [mm] and the height and width of [A4] as reportlab computes them. *)
#[warnings="-inexact-float"]
Definition reportlab_mm : float :=
  PrimFloat.mul (PrimFloat.div 72%float 2.54%float) 0.1%float.
Definition reportlab_A4_w : float := PrimFloat.mul 210%float reportlab_mm.
Definition reportlab_A4_h : float := PrimFloat.mul 297%float reportlab_mm.

(** A wrapper that cuts a line of ASCII text every [n] characters, to run
    the model. *)
Fixpoint chunks (fuel n : nat) (s : string) : list string :=
  match fuel with
  | O => []
  | S fuel' =>
      match s with
      | EmptyString => []
      | _ => String.substring 0 n s :: chunks fuel' n (String.substring n (String.length s - n) s)
      end
  end.

(** A models listing with the given names, each supporting [methods]. *)
Definition listing (names : list string) (methods : list string) : value :=
  VDict [("models",
          VList (map (fun n => VDict [("name", VStr n);
                                      ("supportedGenerationMethods", VList (map VStr methods))])
                     names))].

(** ["generateContent" in entry.get("supportedGenerationMethods", [])] *)
Definition supports_generate (entry : value) : result bool :=
  bind (get_default entry "supportedGenerationMethods" (VList [])) (has "generateContent").

(** An endpoint that answers every request with the JSON value [v]. *)
Definition serve (v : value) : string -> http_reply :=
  fun _ => HttpBody "" (Some v).

End OcrEchoApi.

(* ===================================================================== *)
(** * Properties of the decision service *)
(* ===================================================================== *)

Module DecisionProperties.

Import Py GigWorkerApp.

(** ** The model at work *)

Example amount_search_decimal :
  amount_search ascii_builtins None (utf8_chars "I got 250.50 rupees")
  = Some ["2"; "5"; "0"; "."; "5"; "0"].
Proof. reflexivity. Qed.

Example amount_search_skips_long_run :
  option_map text_of (amount_search ascii_builtins None (utf8_chars "ref 1234567, sent 12"))
  = Some "12".
Proof. reflexivity. Qed.

Example amount_search_dotted :
  amount_search ascii_builtins None (utf8_chars "app v1.2.3 and 4.567") = None.
Proof. reflexivity. Qed.

(** A numeral of another script is an amount: the pattern matches it and
    [float] reads it. *)
Example amount_in_devanagari :
  extract_number_from_text hindi_builtins (Some ("I got " ++ devanagari_500 ++ " rupees"))
  = Some 500%float.
Proof. vm_compute. reflexivity. Qed.

Example payout_rule_fires_in_devanagari :
  check_discrepancy hindi_builtins (Some ("I got " ++ devanagari_500))
    (VDict [("payouts", VList [VDict [("amount", VInt 5000)]])]) = Ok true.
Proof. vm_compute. reflexivity. Qed.

(** Digits of two scripts side by side are one run of digits. *)
Example amount_search_mixed_run :
  amount_search hindi_builtins None (utf8_chars ("1" ++ devanagari_500 ++ devanagari_500)) = None.
Proof. reflexivity. Qed.

Example strip_no_break_space :
  strip (bytes [194; 160] ++ "Valid complaint" ++ bytes [226; 128; 168]) = "Valid complaint".
Proof. reflexivity. Qed.

Example lower_kelvin_sign :
  lower hindi_builtins ("I was BLOC" ++ bytes [226; 132; 170] ++ "ED") = "i was blocked".
Proof. reflexivity. Qed.

Example payout_rule_fires :
  check_discrepancy ascii_builtins (Some "I got 250.50 for the week")
    (VDict [("payouts", VList [VDict [("amount", VInt 900)]])]) = Ok true.
Proof. vm_compute. reflexivity. Qed.

Example payout_rule_within_100 :
  check_discrepancy ascii_builtins (Some "I got 250.50 for the week")
    (VDict [("payouts", VList [VDict [("amount", VInt 300)]])]) = Ok false.
Proof. vm_compute. reflexivity. Qed.

Example record_that_is_no_object :
  check_discrepancy ascii_builtins (Some "I was terminated") (VList []) = Raise AttributeError.
Proof. reflexivity. Qed.

(** ** Strings and keyword matching *)

Lemma prefix_app (k b : string) : String.prefix k (k ++ b) = true.
Proof.
  induction k as [|c k IH]; simpl.
  - now destruct b.
  - destruct (ascii_dec c c) as [_|n]; [exact IH | now elim n].
Qed.

Lemma prefix_contains (k t : string) : String.prefix k t = true -> contains k t = true.
Proof. intros H. destruct t; unfold contains; fold contains; rewrite H; reflexivity. Qed.

Lemma contains_app (k a b : string) : contains k (a ++ k ++ b) = true.
Proof.
  induction a as [|c a IH].
  - cbn [append]. apply prefix_contains, prefix_app.
  - simpl append. unfold contains; fold contains. rewrite IH. apply orb_true_r.
Qed.

Lemma any_in_member (ks : list string) (k t : string) :
  In k ks -> contains k t = true -> any_in ks t = true.
Proof.
  intros Hin Hc. unfold any_in. apply existsb_exists. now exists k.
Qed.

Lemma append_assoc (a b c : string) : (a ++ b) ++ c = a ++ b ++ c.
Proof. induction a as [|x a IH]; simpl; [reflexivity | now rewrite IH]. Qed.

Lemma lower_char_plain (c : ascii) : is_upper c = false -> lower_char c = c.
Proof. unfold lower_char. now intros ->. Qed.

Section Lowering.

Variable py : Builtins.

(** A plain text read with no run pending comes out as it is. *)
Lemma lower_from_plain (k before s : string) :
  plain k = true ->
  exists before', lower_from py before EmptyString (k ++ s) = k ++ lower_from py before' EmptyString s.
Proof.
  revert before. induction k as [|c k IH]; intros before Hk.
  - now exists before.
  - cbn [plain] in Hk. apply andb_true_iff in Hk as [Hc Hk].
    apply andb_true_iff in Hc as [Ha Hu]. apply negb_true_iff in Hu.
    cbn [append lower_from]. rewrite Ha. cbn [lower_run append].
    rewrite (lower_char_plain c Hu).
    edestruct IH as (before' & E); [exact Hk|]. rewrite E.
    now exists before'.
Qed.

(** A plain word keeps its place in the lowered text, whatever stands
    around it. *)
Lemma lower_from_keyword (k a b before run : string) :
  plain k = true ->
  exists x y, lower_from py before run (a ++ k ++ b) = x ++ k ++ y.
Proof.
  intros Hk. revert before run. induction a as [|c a IH]; intros before run.
  - cbn [append]. destruct k as [|c k].
    + exists EmptyString. now eexists.
    + cbn [plain] in Hk. apply andb_true_iff in Hk as [Hc Hk].
      apply andb_true_iff in Hc as [Ha Hu]. apply negb_true_iff in Hu.
      cbn [append lower_from]. rewrite Ha, (lower_char_plain c Hu).
      edestruct (lower_from_plain k) as (before' & E); [exact Hk|]. rewrite E.
      eexists. eexists. reflexivity.
  - cbn [append lower_from]. destruct (is_ascii c).
    + edestruct IH as (x & y & E). rewrite E.
      exists (lower_run py before run (String c (a ++ k ++ b)) ++ String (lower_char c) x), y.
      now rewrite append_assoc.
    + apply IH.
Qed.

Lemma any_in_lower_keyword (ks : list string) (k a b : string) :
  In k ks -> plain k = true -> any_in ks (lower py (a ++ k ++ b)) = true.
Proof.
  intros Hin Hk. unfold lower.
  destruct (lower_from_keyword k a b EmptyString EmptyString Hk) as (x & y & ->).
  apply any_in_member with (k := k); [exact Hin | apply contains_app].
Qed.

End Lowering.

(** ** Dictionaries *)

Lemma dict_get_nonempty (k : string) (d : dict) (v : value) :
  dict_get k d = Some v -> truthy (VDict d) = true.
Proof. destruct d; simpl; [discriminate | reflexivity]. Qed.

Lemma dict_get_set_eq (k : string) (v : value) (d : dict) :
  dict_get k (dict_set k v d) = Some v.
Proof.
  induction d as [|[k' v'] d IH]; simpl.
  - now rewrite String.eqb_refl.
  - destruct (k' =? k)%string eqn:E; simpl; rewrite ?String.eqb_refl, ?E; auto.
Qed.

Lemma dict_get_set_neq (k k' : string) (v : value) (d : dict) :
  k <> k' -> dict_get k (dict_set k' v d) = dict_get k d.
Proof.
  intros Hne. induction d as [|[k0 v0] d IH]; simpl.
  - destruct (k' =? k)%string eqn:E; [apply String.eqb_eq in E; congruence | reflexivity].
  - destruct (k0 =? k')%string eqn:E; simpl.
    + apply String.eqb_eq in E. subst k0.
      destruct (k' =? k)%string eqn:E'; [apply String.eqb_eq in E'; congruence | reflexivity].
    + destruct (k0 =? k)%string; [reflexivity | exact IH].
Qed.

Lemma dict_get_setdefault_neq (k k' : string) (v : value) (d : dict) :
  k <> k' -> dict_get k (dict_setdefault k' v d) = dict_get k d.
Proof.
  intros Hne. unfold dict_setdefault. destruct (dict_mem k' d); [reflexivity|].
  now apply dict_get_set_neq.
Qed.

Lemma dict_get_setdefault_eq (k : string) (v : value) (d : dict) :
  dict_get k (dict_setdefault k v d) =
  match dict_get k d with Some x => Some x | None => Some v end.
Proof.
  unfold dict_setdefault, dict_mem. destruct (dict_get k d) eqn:E.
  - exact E.
  - apply dict_get_set_eq.
Qed.

Lemma bind_Ok_inv {A B : Type} (m : result A) (k : A -> result B) (b : B) :
  bind m k = Ok b -> exists a, m = Ok a /\ k a = Ok b.
Proof. destruct m as [a|e]; cbn [bind]; [eauto | discriminate]. Qed.

(** ** The discrepancy detector *)

(** C4.  For every transcript that contains the word "terminated" and every
    worker record whose termination status carries [is_terminated] equal to
    [False] or [0], [check_discrepancy] returns [True]. *)
Theorem check_discrepancy_terminated_but_active :
  forall (py : Builtins) (a b : string) (d term : dict) (flag : value),
    dict_get "termination_status" d = Some (VDict term) ->
    dict_get "is_terminated" term = Some flag ->
    flag = VBool false \/ flag = VInt 0 ->
    check_discrepancy py (Some (a ++ "terminated" ++ b)) (VDict d) = Ok true.
Proof.
  intros py a b d term flag Hts Hflag Hzero.
  assert (Hm : transcript_mentions_termination py (Some (a ++ "terminated" ++ b)) = true).
  { apply (any_in_lower_keyword py termination_keywords "terminated");
      [simpl; tauto | reflexivity]. }
  unfold check_discrepancy, termination_of, get, get_default.
  rewrite Hts. cbn [bind]. rewrite (dict_get_nonempty _ _ _ Hflag).
  unfold termination_contradiction. rewrite Hm.
  cbn [bind]. unfold is_terminated_of, dict_mem, get_default. rewrite Hflag.
  destruct Hzero as [-> | ->]; reflexivity.
Qed.

Lemma check_discrepancy_terminated_but_active_run :
  check_discrepancy ascii_builtins
    (Some ("My account was " ++ "terminated" ++ " last week"))
    (VDict (platform_record (VBool false) [])) = Ok true.
Proof.
  apply (check_discrepancy_terminated_but_active ascii_builtins
           "My account was " " last week" (platform_record (VBool false) [])
           [("worker_id", VStr "W1"); ("is_terminated", VBool false);
            ("termination_reason_text", VNone)]
           (VBool false)).
  - reflexivity.
  - reflexivity.
  - left. reflexivity.
Defined.

(** C5.  For every transcript in which the amount pattern finds no match,
    the payout rule of [check_discrepancy] does not fire, whatever the
    payouts of the record are: when [check_discrepancy] returns [True] on
    such a transcript, one of the other three rules fired. *)
Theorem no_amount_no_payout_rule :
  forall (py : Builtins) (transcript : option string) (worker_db : value),
    amount_search py None (utf8_chars (or_empty transcript)) = None ->
    (forall payouts,
        payout_contradiction py (extract_number_from_text py transcript) payouts = false) /\
    (check_discrepancy py transcript worker_db = Ok true ->
     exists term,
       termination_of worker_db = Ok term /\
       (termination_contradiction py transcript term = true \/
        notice_contradiction (lower py (or_empty transcript)) term = true \/
        payment_contradiction (lower py (or_empty transcript)) worker_db = Ok true)).
Proof.
  intros py transcript worker_db Hnone.
  assert (Hex : extract_number_from_text py transcript = None).
  { unfold extract_number_from_text. now rewrite Hnone. }
  split.
  - intros payouts. now rewrite Hex.
  - unfold check_discrepancy. rewrite Hex. intros H.
    apply bind_Ok_inv in H as (term & Eterm & H).
    exists term. split; [exact Eterm|].
    destruct (termination_contradiction py transcript term); [now left|].
    apply bind_Ok_inv in H as (payouts & _ & H).
    cbn [payout_contradiction] in H.
    destruct (notice_contradiction (lower py (or_empty transcript)) term); [now right; left|].
    right; right. exact H.
Qed.

Lemma no_amount_no_payout_rule_run :
  amount_search ascii_builtins None (utf8_chars "They cut my payout and gave no reason") = None /\
  payout_contradiction ascii_builtins
    (extract_number_from_text ascii_builtins (Some "They cut my payout and gave no reason"))
    (VList [VDict [("amount", VInt 5000)]]) = false.
Proof.
  split.
  - reflexivity.
  - apply (proj1 (no_amount_no_payout_rule ascii_builtins
                    (Some "They cut my payout and gave no reason") VNone eq_refl)).
Defined.

(** ** The relevance extractor on a record that is an object *)

Section Extractor.

Variable py : Builtins.

Lemma copy_field_dict (k : string) (d rel : dict) :
  copy_field k (VDict d) rel =
  Ok (match dict_get k d with Some v => dict_set k v rel | None => rel end).
Proof.
  unfold copy_field, has, getitem, dict_mem. destruct (dict_get k d); reflexivity.
Qed.

Lemma copy_field_outside (k : string) (d rel : dict) :
  exists rel', copy_field k (VDict d) rel = Ok rel' /\ same_outside [k] rel rel'.
Proof.
  rewrite copy_field_dict. eexists; split; [reflexivity|].
  intros k' Hk'. destruct (dict_get k d); [|reflexivity].
  apply dict_get_set_neq. intros ->. apply Hk'. now left.
Qed.

Lemma termination_part_outside (t : option string) (d rel : dict) :
  exists rel', termination_part py t (VDict d) rel = Ok rel' /\
               same_outside ["termination_status"; "termination_logs"] rel rel'.
Proof.
  unfold termination_part.
  destruct (_ || _ || _).
  - destruct (copy_field_outside "termination_status" d rel) as (r1 & E1 & H1).
    destruct (copy_field_outside "termination_logs" d r1) as (r2 & E2 & H2).
    exists r2. rewrite E1. cbn [bind]. split; [exact E2|].
    intros k Hk. rewrite H2, H1; [reflexivity | |]; simpl in *; tauto.
  - exists rel. split; [reflexivity | intros k _; reflexivity].
Qed.

Lemma payout_part_outside (t : option string) (d rel rel' : dict) :
  payout_part py t (VDict d) rel = Ok rel' ->
  same_outside ["payouts"; "orders"] rel rel'.
Proof.
  unfold payout_part. destruct (_ || _).
  - destruct (copy_field_outside "payouts" d rel) as (r1 & E1 & H1).
    rewrite E1. cbn [bind has]. unfold dict_mem, getitem.
    destruct (dict_get "orders" d) as [orders|].
    + cbn [bind]. destruct (relevant_orders orders) as [kept|e]; cbn [bind]; [|discriminate].
      intros [= <-] k Hk. rewrite dict_get_set_neq, H1; [reflexivity | |]; simpl in *; try tauto.
      intros ->. tauto.
    + intros [= <-] k Hk. apply H1. simpl in *; tauto.
  - intros [= <-] k _. reflexivity.
Qed.

Lemma rating_part_outside (t : option string) (d rel : dict) :
  exists rel', rating_part py t (VDict d) rel = Ok rel' /\
               same_outside ["penalties"; "orders"] rel rel' /\
               (forall x, dict_get "orders" rel = Some x -> dict_get "orders" rel' = Some x).
Proof.
  unfold rating_part. destruct (_ || _).
  - destruct (copy_field_outside "penalties" d rel) as (r1 & E1 & H1).
    rewrite E1. cbn [bind has]. unfold dict_mem, getitem.
    destruct (dict_get "orders" d) as [orders|]; cbn [bind].
    + eexists; split; [reflexivity|]. split.
      * intros k Hk. rewrite dict_get_setdefault_neq, H1; [reflexivity | |]; simpl in *; try tauto.
        intros ->. tauto.
      * intros x Hx. rewrite dict_get_setdefault_eq, H1, Hx; [reflexivity|].
        simpl. intros [E|[]]. discriminate.
    + exists r1; split; [reflexivity|]. split.
      * intros k Hk. apply H1. simpl in *; tauto.
      * intros x Hx. rewrite H1; [exact Hx|]. simpl. intros [E|[]]. discriminate.
  - exists rel. split; [reflexivity|]. split; [intros k _; reflexivity | auto].
Qed.

Lemma review_part_outside (t : option string) (d rel : dict) :
  exists rel', review_part py t (VDict d) rel = Ok rel' /\ same_outside ["review_counts"] rel rel'.
Proof.
  unfold review_part. destruct (_ || _).
  - apply copy_field_outside.
  - exists rel. split; [reflexivity | intros k _; reflexivity].
Qed.

Lemma for_each_identity (d : dict) (ks : list string) :
  forall (rel : dict) (acc : option dict),
    dict_get "worker" rel = option_map VDict acc ->
    exists rel',
      for_each (copy_identity_field (VDict d)) ks rel = Ok rel' /\
      same_outside ["worker"] rel rel' /\
      dict_get "worker" rel' = option_map VDict (fold_left (identity_step d) ks acc).
Proof.
  induction ks as [|k ks IH]; intros rel acc Hacc.
  - exists rel. simpl. split; [reflexivity|]. split; [intros k _; reflexivity | exact Hacc].
  - cbn [for_each fold_left]. unfold copy_identity_field at 1, identity_step at 2.
    cbn [has]. unfold dict_mem, getitem.
    destruct (dict_get k d) as [v|] eqn:Ek; cbn [bind].
    + rewrite dict_get_setdefault_eq, Hacc.
      destruct acc as [wd|]; cbn [option_map bind].
      * destruct (IH (dict_set "worker" (VDict (dict_set k v wd)) (dict_setdefault "worker" (VDict []) rel))
                     (Some (dict_set k v wd))) as (rel' & E & Hout & Hw).
        { apply dict_get_set_eq. }
        exists rel'. split; [exact E|]. split; [|exact Hw].
        intros k' Hk'. rewrite Hout by exact Hk'.
        rewrite dict_get_set_neq, dict_get_setdefault_neq; [reflexivity | |];
          intros ->; apply Hk'; now left.
      * destruct (IH (dict_set "worker" (VDict (dict_set k v [])) (dict_setdefault "worker" (VDict []) rel))
                     (Some (dict_set k v []))) as (rel' & E & Hout & Hw).
        { apply dict_get_set_eq. }
        exists rel'. split; [exact E|]. split; [|exact Hw].
        intros k' Hk'. rewrite Hout by exact Hk'.
        rewrite dict_get_set_neq, dict_get_setdefault_neq; [reflexivity | |];
          intros ->; apply Hk'; now left.
    + apply IH. exact Hacc.
Qed.

Lemma identity_fold (d : dict) :
  fold_left (identity_step d) identity_fields None =
  match identity_of d with [] => None | wd => Some wd end.
Proof.
  unfold identity_of, identity_step, identity_fields. cbn [fold_left flat_map].
  destruct (dict_get "name" d), (dict_get "phone" d), (dict_get "email" d),
           (dict_get "joined_at" d), (dict_get "current_status" d); reflexivity.
Qed.

Lemma worker_part_dict (d rel : dict) :
  dict_get "worker" rel = None ->
  exists rel',
    worker_part (VDict d) rel = Ok rel' /\
    same_outside ["worker"] rel rel' /\
    dict_get "worker" rel' =
      match dict_get "worker" d with
      | Some w => Some w
      | None => match identity_of d with [] => None | wd => Some (VDict wd) end
      end.
Proof.
  intros Hnone. unfold worker_part. cbn [has]. unfold dict_mem, getitem.
  destruct (dict_get "worker" d) as [w|]; cbn [bind].
  - eexists; split; [reflexivity|]. split.
    + intros k Hk. apply dict_get_setdefault_neq. intros ->. apply Hk. now left.
    + now rewrite dict_get_setdefault_eq, Hnone.
  - destruct (for_each_identity d identity_fields rel None Hnone) as (rel' & E & Hout & Hw).
    exists rel'. split; [exact E|]. split; [exact Hout|].
    rewrite Hw, identity_fold. now destruct (identity_of d).
Qed.

Lemma order_is_relevant_dict (od : dict) :
  order_is_relevant (VDict od) = Ok (non_compliant (VDict od) || has_amount_keys (VDict od)).
Proof.
  unfold order_is_relevant, non_compliant, has_amount_keys, get, get_default, has.
  cbn [bind]. destruct (dict_get "payment_compliant" od) as [v|].
  - destruct (in_zero_tuple v); cbn [bind orb]; [reflexivity|].
    destruct (dict_mem "reduction_reason" od); reflexivity.
  - replace (in_zero_tuple VNone) with false by reflexivity. cbn [bind orb].
    destruct (dict_mem "reduction_reason" od); reflexivity.
Qed.

Lemma filter_m_objects (l : list value) :
  forallb is_dict l = true ->
  filter_m order_is_relevant l =
  Ok (filter (fun o => non_compliant o || has_amount_keys o) l).
Proof.
  induction l as [|o l IH]; intros Hall; [reflexivity|].
  cbn [forallb] in Hall. apply andb_true_iff in Hall as [Ho Hl].
  destruct o; try discriminate.
  cbn [filter_m filter]. rewrite order_is_relevant_dict, (IH Hl). cbn [bind].
  destruct (_ || _); reflexivity.
Qed.


Lemma relevant_orders_objects (l : list value) :
  forallb is_dict l = true ->
  relevant_orders (VList l) =
  Ok (if 10 <? Z.of_nat (List.length l)
      then or_else (VList (filter (fun o => non_compliant o || has_amount_keys o) l))
                   (VList (firstn 10 l))
      else VList l).
Proof.
  intros Hall. unfold relevant_orders. destruct (10 <? _); [|reflexivity].
  now rewrite (filter_m_objects l Hall).
Qed.

Lemma get_relevant_db_fields_inv (t : option string) (d rel : dict) :
  get_relevant_db_fields py t (VDict d) = Ok rel ->
  exists r1 r2 r3 r4,
    termination_part py t (VDict d) [] = Ok r1 /\
    payout_part py t (VDict d) r1 = Ok r2 /\
    rating_part py t (VDict d) r2 = Ok r3 /\
    worker_part (VDict d) r3 = Ok r4 /\
    review_part py t (VDict d) r4 = Ok rel.
Proof.
  unfold get_relevant_db_fields. intros H.
  apply bind_Ok_inv in H as (r1 & E1 & H).
  apply bind_Ok_inv in H as (r2 & E2 & H).
  apply bind_Ok_inv in H as (r3 & E3 & H).
  apply bind_Ok_inv in H as (r4 & E4 & H).
  now exists r1, r2, r3, r4.
Qed.

(** Before the worker part runs, nothing is stored under ["worker"]. *)
Lemma no_worker_before_worker_part (t : option string) (d r1 r2 r3 : dict) :
  termination_part py t (VDict d) [] = Ok r1 ->
  payout_part py t (VDict d) r1 = Ok r2 ->
  rating_part py t (VDict d) r2 = Ok r3 ->
  dict_get "worker" r3 = None.
Proof.
  intros E1 E2 E3.
  destruct (termination_part_outside t d []) as (r1' & E1' & H1).
  rewrite E1 in E1'. injection E1' as <-.
  pose proof (payout_part_outside t d r1 r2 E2) as H2.
  destruct (rating_part_outside t d r2) as (r3' & E3' & H3 & _).
  rewrite E3 in E3'. injection E3' as <-.
  rewrite H3, H2, H1; [reflexivity | | |]; simpl; intuition discriminate.
Qed.

(** The extractor returns on a record whose orders are objects, and on any
    record when the transcript does not touch on payouts. *)
Lemma get_relevant_db_fields_returns_when (t : option string) (d : dict) :
  transcript_mentions_payout_or_paid py t
    || any_in ["payout"; "paid"; "unpaid"; "payment"] (lower py (or_empty t)) = false \/
  orders_are_objects d = true ->
  exists rel, get_relevant_db_fields py t (VDict d) = Ok rel.
Proof.
  intros Hobj. unfold get_relevant_db_fields.
  destruct (termination_part_outside t d []) as (r1 & E1 & _). rewrite E1. cbn [bind].
  assert (exists r2, payout_part py t (VDict d) r1 = Ok r2) as (r2 & E2).
  { unfold payout_part. destruct (_ || _); [|eauto].
    destruct Hobj as [Hobj|Hobj]; [discriminate|].
    rewrite copy_field_dict. cbn [bind has]. unfold dict_mem, getitem.
    unfold orders_are_objects in Hobj.
    destruct (dict_get "orders" d) as [orders|]; [|eauto]. cbn [bind].
    destruct orders; try (cbn; eauto; fail).
    rewrite (relevant_orders_objects l Hobj). cbn [bind]. eauto. }
  rewrite E2. cbn [bind].
  destruct (rating_part_outside t d r2) as (r3 & E3 & _). rewrite E3. cbn [bind].
  destruct (worker_part_dict d r3 (no_worker_before_worker_part t d r1 r2 r3 E1 E2 E3))
    as (r4 & E4 & _).
  rewrite E4. cbn [bind].
  destruct (review_part_outside t d r4) as (r5 & E5 & _). eauto.
Qed.


(** C3, as amended.  For every transcript and every record that is an
    object, the mapping the extractor returns holds under ["worker"] the
    nested worker object when the record has a ["worker"] key; otherwise the
    sub-record made of those of [name], [phone], [email], [joined_at],
    [current_status] that the record carries at its top level; and no
    ["worker"] entry at all when it carries none of them.  The extractor
    returns whenever the orders of the record are objects. *)
Theorem relevant_fields_worker_identity :
  forall (t : option string) (d : dict),
    (forall rel,
        get_relevant_db_fields py t (VDict d) = Ok rel ->
        dict_get "worker" rel =
          match dict_get "worker" d with
          | Some w => Some w
          | None => match identity_of d with
                    | [] => None
                    | wd => Some (VDict wd)
                    end
          end) /\
    (orders_are_objects d = true ->
     exists rel, get_relevant_db_fields py t (VDict d) = Ok rel).
Proof.
  intros t d. split; [|intros H; apply get_relevant_db_fields_returns_when; now right].
  intros rel H.
  apply get_relevant_db_fields_inv in H as (r1 & r2 & r3 & r4 & E1 & E2 & E3 & E4 & E5).
  destruct (worker_part_dict d r3 (no_worker_before_worker_part t d r1 r2 r3 E1 E2 E3))
    as (r4' & E4' & _ & Hw).
  rewrite E4 in E4'. injection E4' as <-.
  destruct (review_part_outside t d r4) as (r5 & E5' & H5).
  rewrite E5 in E5'. injection E5' as <-.
  rewrite H5; [exact Hw|]. simpl. intuition discriminate.
Qed.

End Extractor.



Lemma relevant_fields_worker_identity_run :
  get_relevant_db_fields ascii_builtins (Some "My rating fell")
    (VDict [("phone", VStr "98"); ("review_counts", VNone); ("current_status", VStr "active")])
  = Ok [("worker", VDict [("phone", VStr "98"); ("current_status", VStr "active")]);
        ("review_counts", VNone)] /\
  dict_get "worker"
    [("worker", VDict [("phone", VStr "98"); ("current_status", VStr "active")]);
     ("review_counts", VNone)]
  = Some (VDict [("phone", VStr "98"); ("current_status", VStr "active")]).
Proof.
  split.
  - reflexivity.
  - exact (proj1 (relevant_fields_worker_identity ascii_builtins (Some "My rating fell")
                    [("phone", VStr "98"); ("review_counts", VNone);
                     ("current_status", VStr "active")])
                 _ eq_refl).
Defined.

(** C3, as stated, fails on the record the service itself builds when the
    platform's reply is not JSON: it has no ["worker"] key and no identity
    field, and the mapping returned has no ["worker"] entry. *)
Lemma relevant_fields_without_worker :
  exists rel,
    get_relevant_db_fields ascii_builtins (Some "I was not paid for my orders")
      (VDict [("_raw", VStr "<html>Bad Gateway</html>")]) = Ok rel /\
    dict_mem "worker" rel = false.
Proof. exists []. split; reflexivity. Qed.

(** ** The /seek handler *)

Lemma classifier_calls_app (a b : list event) :
  classifier_calls (a ++ b) = (classifier_calls a + classifier_calls b)%nat.
Proof.
  induction a as [|e a IH]; [reflexivity|].
  destruct e; simpl; rewrite IH; reflexivity.
Qed.

Lemma io_bind_Return_inv {A B : Type} (m : io A) (k : A -> io B) (b : B) :
  fst (io_bind m k) = Return b ->
  exists a, fst m = Return a /\ fst (k a) = Return b.
Proof.
  destruct m as [[a|c d|e] tr]; cbn [io_bind fst]; try discriminate.
  destruct (k a) as [r tr'] eqn:E. cbn [fst]. intros ->. exists a. now rewrite E.
Qed.

Section Handler.

Variable py : Builtins.
Variable w : World.

(** A request that has an identifier, whose record was fetched and whose
    audit file was written, goes on to the decision. *)
Lemma seek_post_reaches_decision (body : SeekPostRequest) (external_data : value) (path : string) :
  workerId body <> "" ->
  fst (fetch_worker_from_external w (workerId body)) = inl external_data ->
  fst (save_json_to_file py w (seek_payload w body external_data) (workerId body)) = inl path ->
  fst (seek_post py w body) =
    fst (seek_decide py w body external_data (seek_payload w body external_data)) /\
  classifier_calls (snd (seek_post py w body)) =
    classifier_calls (snd (seek_decide py w body external_data (seek_payload w body external_data))).
Proof.
  intros Hid Hfetch Hsave. unfold seek_post.
  apply String.eqb_neq in Hid. rewrite Hid.
  destruct (fetch_worker_from_external w (workerId body)) as [r tr1] eqn:Ef.
  cbn [fst] in Hfetch. subst r.
  assert (Htr1 : classifier_calls tr1 = 0%nat).
  { unfold fetch_worker_from_external in Ef. injection Ef as _ <-. reflexivity. }
  cbn [io_bind].
  destruct (save_json_to_file py w (seek_payload w body external_data) (workerId body))
    as [r tr2] eqn:Es.
  cbn [fst] in Hsave. subst r.
  assert (Htr2 : classifier_calls tr2 = 0%nat).
  { unfold save_json_to_file in Es. injection Es as _ <-. reflexivity. }
  cbn [io_bind].
  destruct (seek_decide py w body external_data (seek_payload w body external_data)) as [r tr3].
  cbn [fst snd]. split; [reflexivity|].
  rewrite !classifier_calls_app, Htr1, Htr2. reflexivity.
Qed.

(** C1, as amended.  For every /seek request on which [check_discrepancy]
    returns [True] for the transcript and the fetched record, no call is
    made to the classifier; where [get_relevant_db_fields] returns, the
    response is [final_decision = "Invalid complaint"] together with the
    fields it extracts, and where it raises, the request ends with that
    exception and there is no response. *)
Theorem seek_post_discrepancy_short_circuit
    (body : SeekPostRequest) (external_data : value) (path : string) :
  workerId body <> "" ->
  fst (fetch_worker_from_external w (workerId body)) = inl external_data ->
  fst (save_json_to_file py w (seek_payload w body external_data) (workerId body)) = inl path ->
  check_discrepancy py (transcript body) external_data = Ok true ->
  classifier_calls (snd (seek_post py w body)) = 0%nat /\
  fst (seek_post py w body) =
    match get_relevant_db_fields py (transcript body) external_data with
    | Ok relevant =>
        Return (VDict [("final_decision", VStr "Invalid complaint");
                       ("relevant_db", VDict relevant)])
    | Raise e => Uncaught e
    end.
Proof.
  intros Hid Hfetch Hsave Hdisc.
  destruct (seek_post_reaches_decision body external_data path Hid Hfetch Hsave) as [-> ->].
  unfold seek_decide. rewrite Hdisc. cbn [io_lift io_bind].
  destruct (get_relevant_db_fields py (transcript body) external_data); split; reflexivity.
Qed.

Lemma fallback_local_decision_two (t : option string) (worker_db : value) (s : string) :
  fallback_local_decision py t worker_db = Ok s ->
  s = "Valid complaint" \/ s = "Invalid complaint".
Proof.
  unfold fallback_local_decision. destruct (any_in _ _).
  - intros H. apply bind_Ok_inv in H as (a & _ & H).
    apply bind_Ok_inv in H as (denied & _ & H).
    destruct denied; injection H as <-; [now right | now left].
  - intros [= <-]. now right.
Qed.

Lemma final_of_decision_two (dec : string) (body : SeekPostRequest) (external_data : value) (s : string) :
  final_of_decision py dec body external_data = Ok s ->
  s = "Valid complaint" \/ s = "Invalid complaint".
Proof.
  unfold final_of_decision.
  destruct (startswith _ "valid"); [intros [= <-]; now left|].
  destruct (startswith _ "invalid"); [intros [= <-]; now right|].
  destruct (contains "invalid" _); [intros [= <-]; now right|].
  destruct (contains "valid" _); [intros [= <-]; now left|].
  apply fallback_local_decision_two.
Qed.

Lemma seek_decide_final (body : SeekPostRequest) (external_data payload resp : value) :
  fst (seek_decide py w body external_data payload) = Return resp ->
  exists fields,
    resp = VDict fields /\
    (dict_get "final_decision" fields = Some (VStr "Valid complaint") \/
     dict_get "final_decision" fields = Some (VStr "Invalid complaint")).
Proof.
  unfold seek_decide. intros H.
  apply io_bind_Return_inv in H as (discrepancy & _ & H).
  destruct discrepancy.
  - apply io_bind_Return_inv in H as (relevant & _ & H).
    injection H as <-. eexists; split; [reflexivity|]. now right.
  - apply io_bind_Return_inv in H as (gemini_resp & _ & H).
    apply io_bind_Return_inv in H as (ok & _ & H).
    destruct (truthy ok).
    + apply io_bind_Return_inv in H as (d & _ & H).
      apply io_bind_Return_inv in H as (final & Hfinal & H).
      apply io_bind_Return_inv in H as (relevant & _ & H).
      apply io_bind_Return_inv in H as (raw & _ & H).
      injection H as <-. eexists; split; [reflexivity|].
      destruct (final_of_decision py _ _ _) as [s|e] eqn:E; [|discriminate].
      injection Hfinal as <-.
      destruct (final_of_decision_two _ _ _ _ E) as [-> | ->]; [now left | now right].
    + apply io_bind_Return_inv in H as (final & Hfinal & H).
      apply io_bind_Return_inv in H as (relevant & _ & H).
      apply io_bind_Return_inv in H as (err & _ & H).
      injection H as <-. eexists; split; [reflexivity|].
      destruct (fallback_local_decision py _ _) as [s|e] eqn:E; [|discriminate].
      injection Hfinal as <-.
      destruct (fallback_local_decision_two _ _ _ E) as [-> | ->]; [now left | now right].
Qed.

(** C10.  For every /seek request that ends with a response, the response
    is an object whose [final_decision] is "Valid complaint" or "Invalid
    complaint", on every path of the handler. *)
Theorem seek_post_final_decision_two_valued (body : SeekPostRequest) (resp : value) :
  fst (seek_post py w body) = Return resp ->
  exists fields,
    resp = VDict fields /\
    (dict_get "final_decision" fields = Some (VStr "Valid complaint") \/
     dict_get "final_decision" fields = Some (VStr "Invalid complaint")).
Proof.
  unfold seek_post. destruct (workerId body =? "")%string; [discriminate|].
  intros H.
  apply io_bind_Return_inv in H as (external_data & _ & H).
  apply io_bind_Return_inv in H as (saved_path & _ & H).
  now apply seek_decide_final in H.
Qed.


Lemma in_zero_tuple_flag (v : value) : in_zero_tuple v = true <-> flag_is_false v.
Proof.
  unfold in_zero_tuple, flag_is_false. split.
  - destruct v as [|b|z|f|s|l|d]; cbn [eq_int eq_str orb]; try discriminate.
    + destruct b; [discriminate | now left].
    + rewrite orb_false_r, orb_diag. intros H. apply Z.eqb_eq in H. subst. now right; left.
    + rewrite orb_false_r, orb_diag. intros H. right; right; right. now exists f.
    + rewrite orb_false_r. intros H. apply String.eqb_eq in H. subst. now right; right; left.
  - intros [-> | [-> | [-> | (f & -> & Hf)]]]; try reflexivity.
    cbn [eq_int eq_str]. now rewrite Hf.
Qed.

Lemma fallback_local_decision_dict (t : string) (d : dict) :
  fallback_local_decision py (Some t) (VDict d) =
  Ok (if any_in fallback_triggers (lower py t)
      then if match termination_flag d with Some v => in_zero_tuple v | None => false end
           then "Invalid complaint" else "Valid complaint"
      else "Invalid complaint").
Proof.
  unfold fallback_local_decision, termination_flag. cbn [or_empty].
  destruct (any_in fallback_triggers (lower py t)); [|reflexivity].
  unfold get, get_default. cbn [bind].
  destruct (dict_get "termination_status" d) as [a|]; [|reflexivity].
  destruct a as [|b|z|f|s|l|term]; unfold or_else; cbn [truthy].
  - reflexivity.
  - destruct b; reflexivity.
  - destruct (negb (z =? 0)); reflexivity.
  - destruct (negb (PrimFloat.eqb f 0)); reflexivity.
  - destruct (negb (s =? "")%string); reflexivity.
  - destruct l; reflexivity.
  - destruct term as [|p term]; [reflexivity|].
    cbn [is_dict bind]. destruct (dict_get "is_terminated" (p :: term)) as [v|]; [|reflexivity].
    cbn [bind]. destruct (in_zero_tuple v); reflexivity.
Qed.

Lemma payouts_of_returns (d : dict) :
  worker_is_object d = true -> exists p, payouts_of (VDict d) = Ok p.
Proof.
  unfold worker_is_object, payouts_of, get, get_default. cbn [bind].
  intros Hw. destruct (truthy _); [eauto|].
  destruct (dict_get "worker" d) as [wv|].
  - destruct wv; try discriminate. unfold or_else.
    destruct (truthy (VDict d0)); cbn [bind]; eauto.
  - cbn. eauto.
Qed.

Lemma check_discrepancy_suspended_terminated (d : dict) :
  termination_flag d = Some (VBool true) ->
  worker_is_object d = true ->
  check_discrepancy py (Some "I was suspended without reason") (VDict d) = Ok false.
Proof.
  intros Hflag Hw. unfold termination_flag in Hflag.
  destruct (dict_get "termination_status" d) as [a|] eqn:Ets; [|discriminate].
  destruct a as [| | | | | |term]; try discriminate.
  unfold check_discrepancy, termination_of, get, get_default.
  rewrite Ets. cbn [bind]. rewrite (dict_get_nonempty _ _ _ Hflag).
  cbn [bind]. unfold termination_contradiction, is_terminated_of, dict_mem, get_default.
  rewrite Hflag. cbn [bind to_int catch].
  replace (transcript_mentions_termination py (Some "I was suspended without reason"))
    with true by reflexivity.
  cbn [andb Z.eqb].
  destruct (payouts_of_returns d Hw) as (p & ->). cbn [bind].
  replace (extract_number_from_text py (Some "I was suspended without reason"))
    with (@None float) by reflexivity.
  cbn [payout_contradiction]. reflexivity.
Qed.

(** C7, as amended.  When the classifier is unavailable or errors (its
    reply has [ok = False]), the local check found no discrepancy and the
    relevance extraction returns, the request
    succeeds with the decision of the local fallback: with a trigger word in
    the transcript and a termination flag that is not explicitly false,
    "Valid complaint"; with a trigger word and the flag explicitly false, or
    with no trigger word, "Invalid complaint".  In particular, for the
    transcript "I was suspended without reason" and a record with
    [is_terminated = True] (and a nested worker that is an object, if any),
    the final decision is "Valid complaint". *)
Theorem seek_post_fallback_decision
    (body : SeekPostRequest) (d : dict) (path : string) (resp : dict) :
  workerId body <> "" ->
  fst (fetch_worker_from_external w (workerId body)) = inl (VDict d) ->
  fst (save_json_to_file py w (seek_payload w body (VDict d)) (workerId body)) = inl path ->
  fst (call_gemini_api py w (or_empty (transcript body)) (seek_payload w body (VDict d)))
    = VDict resp ->
  dict_get "ok" resp = Some (VBool false) ->
  let t := lower py (or_empty (transcript body)) in
  let err := match dict_get "error" resp with Some e => e | None => VNone end in
  let respond (final : string) (relevant : dict) : outcome value :=
    Return (VDict [("final_decision", VStr final);
                   ("relevant_db", VDict relevant);
                   ("gemini_error", err)]) in
  (forall relevant,
      check_discrepancy py (transcript body) (VDict d) = Ok false ->
      get_relevant_db_fields py (transcript body) (VDict d) = Ok relevant ->
      exists final,
        fst (seek_post py w body) = respond final relevant /\
        (any_in fallback_triggers t = true ->
         (forall v, termination_flag d = Some v -> ~ flag_is_false v) ->
         final = "Valid complaint") /\
        (any_in fallback_triggers t = true ->
         (exists v, termination_flag d = Some v /\ flag_is_false v) ->
         final = "Invalid complaint") /\
        (any_in fallback_triggers t = false -> final = "Invalid complaint")) /\
  (transcript body = Some "I was suspended without reason" ->
   termination_flag d = Some (VBool true) ->
   worker_is_object d = true ->
   exists relevant, fst (seek_post py w body) = respond "Valid complaint" relevant).
Proof.
  intros Hid Hfetch Hsave Hgem Hok t err respond.
  destruct (seek_post_reaches_decision body (VDict d) path Hid Hfetch Hsave) as [-> _].
  assert (Hrun : forall relevant,
             check_discrepancy py (transcript body) (VDict d) = Ok false ->
             get_relevant_db_fields py (transcript body) (VDict d) = Ok relevant ->
             fst (seek_decide py w body (VDict d) (seek_payload w body (VDict d)))
             = respond (if any_in fallback_triggers t
                        then if match termination_flag d with
                                | Some v => in_zero_tuple v
                                | None => false
                                end
                             then "Invalid complaint" else "Valid complaint"
                        else "Invalid complaint") relevant).
  { intros relevant Hdisc Hrel. unfold seek_decide. rewrite Hdisc. cbn [io_lift io_bind].
    destruct (call_gemini_api py w (or_empty (transcript body)) (seek_payload w body (VDict d)))
      as [r tr]. cbn [fst] in Hgem. subst r.
    cbn [io_bind]. unfold get at 1, get_default. rewrite Hok.
    cbn [io_lift io_bind truthy].
    rewrite fallback_local_decision_dict, Hrel. cbn [io_lift io_bind].
    unfold get, get_default. cbn [io_lift io_bind io_ret fst]. reflexivity. }
  split.
  - intros relevant Hdisc Hrel. eexists. split; [apply Hrun; assumption|].
    fold t. repeat split.
    + intros -> Hnot. destruct (termination_flag d) as [v|]; [|reflexivity].
      destruct (in_zero_tuple v) eqn:E; [|reflexivity].
      apply in_zero_tuple_flag in E. now elim (Hnot v eq_refl).
    + intros -> (v & -> & Hv). apply in_zero_tuple_flag in Hv. now rewrite Hv.
    + intros ->. reflexivity.
  - intros Ht Hflag Hw.
    destruct (get_relevant_db_fields_returns_when py (transcript body) d) as (relevant & Hrel).
    { left. rewrite Ht. reflexivity. }
    exists relevant.
    rewrite (Hrun relevant);
      [| rewrite Ht; now apply check_discrepancy_suspended_terminated | exact Hrel].
    subst t. rewrite Ht, Hflag. reflexivity.
Qed.

End Handler.

(** ** Runs of the handler *)

Lemma seek_post_discrepancy_short_circuit_run :
  let W := world_of "key" (VDict (platform_record (VInt 0) [])) (HttpBody "Valid complaint" None) in
  let R := request_of "W1" "I was terminated for no reason" in
  classifier_calls (snd (seek_post ascii_builtins W R)) = 0%nat /\
  exists relevant,
    get_relevant_db_fields ascii_builtins (transcript R) (VDict (platform_record (VInt 0) [])) = Ok relevant /\
    fst (seek_post ascii_builtins W R) =
      Return (VDict [("final_decision", VStr "Invalid complaint");
                     ("relevant_db", VDict relevant)]).
Proof.
  intros W R.
  destruct (seek_post_discrepancy_short_circuit ascii_builtins W R
              (VDict (platform_record (VInt 0) []))
              "seek_results/seek_W1_20260101T000000Z.json") as [Hcalls Hresp].
  - discriminate.
  - reflexivity.
  - reflexivity.
  - reflexivity.
  - split; [exact Hcalls|]. eexists. split; [reflexivity|]. exact Hresp.
Defined.


Lemma seek_post_fallback_decision_run :
  let W := world_of "key" (VDict (platform_record (VBool true) []))
             (HttpFailed "connection refused") in
  let R := request_of "W1" "I was suspended without reason" in
  exists relevant,
    fst (seek_post ascii_builtins W R) =
      Return (VDict [("final_decision", VStr "Valid complaint");
                     ("relevant_db", VDict relevant);
                     ("gemini_error", VStr "connection refused")]).
Proof.
  intros W R.
  refine (proj2 (seek_post_fallback_decision ascii_builtins W R
                   (platform_record (VBool true) [])
                   "seek_results/seek_W1_20260101T000000Z.json"
                   [("ok", VBool false); ("error", VStr "connection refused")]
                   _ eq_refl eq_refl eq_refl eq_refl) eq_refl eq_refl eq_refl).
  discriminate.
Defined.

Lemma seek_post_final_decision_two_valued_run :
  let W := world_of "" (VDict (platform_record (VInt 0) [])) (HttpFailed "unused") in
  let R := request_of "W1" "My rating dropped after a penalty" in
  exists fields,
    fst (seek_post ascii_builtins W R) = Return (VDict fields) /\
    (dict_get "final_decision" fields = Some (VStr "Valid complaint") \/
     dict_get "final_decision" fields = Some (VStr "Invalid complaint")).
Proof.
  intros W R.
  destruct (seek_post_final_decision_two_valued ascii_builtins W R _ eq_refl)
    as (fields & E & H).
  exists fields. split; [rewrite <- E; reflexivity | exact H].
Defined.

(** White space of any script around the classifier's text is stripped
    before the text is matched. *)
Example decision_behind_no_break_space :
  let W := world_of "key" (VDict (platform_record (VInt 1) []))
             (HttpBody (bytes [194; 160] ++ "Valid complaint - the DB does not make it invalid")
                       None) in
  exists fields,
    fst (seek_post ascii_builtins W (request_of "W1" "Please look at my case again"))
      = Return (VDict fields) /\
    dict_get "final_decision" fields = Some (VStr "Valid complaint").
Proof. intros W. eexists. split; reflexivity. Qed.

(** C1, as stated, fails where the extractor raises: on a record that
    denies the termination and lists eleven orders that are no objects, the
    detector returns [True], the filter of the payout branch calls [get] on
    an order, and the request ends with [AttributeError]: no response
    carries "Invalid complaint". *)
Lemma seek_post_discrepancy_without_response :
  let record := VDict (platform_record (VInt 0) (eleven (fun n _ => VInt n))) in
  let W := world_of "key" record (HttpBody "Valid complaint" None) in
  let R := request_of "W1" "I was terminated and my payout was never paid" in
  check_discrepancy ascii_builtins (transcript R) record = Ok true /\
  fst (seek_post ascii_builtins W R) = Uncaught AttributeError /\
  forall resp, fst (seek_post ascii_builtins W R) <> Return resp.
Proof.
  intros record W R. split; [reflexivity|].
  assert (E : fst (seek_post ascii_builtins W R) = Uncaught AttributeError) by reflexivity.
  split; [exact E|]. intros resp H. rewrite E in H. discriminate H.
Qed.


(** C7, as stated, fails in three ways with the classifier not configured.
    A transcript with the trigger word "suspended" and the phrase "without
    notice", against a record that is terminated with a reason, is decided
    "Invalid complaint" by rule 3 of the local check, although the flag is
    not false.  The transcript of the claim, against a record whose nested
    worker is a text, ends with [AttributeError].  And a payout transcript
    against eleven orders that are no objects gets past the local check and
    the fallback and ends with the extractor's [AttributeError]. *)
Lemma fallback_decision_not_reached :
  let terminated :=
    [("termination_status",
      VDict [("is_terminated", VInt 1); ("termination_reason_text", VStr "fraud")])] in
  let W (record : value) := world_of "" record (HttpFailed "unused") in
  (any_in fallback_triggers (lower ascii_builtins "I was suspended without notice") = true /\
   termination_flag terminated = Some (VInt 1) /\
   fst (seek_post ascii_builtins (W (VDict terminated))
          (request_of "W1" "I was suspended without notice")) =
     Return (VDict [("final_decision", VStr "Invalid complaint");
                    ("relevant_db", VDict terminated)])) /\
  fst (seek_post ascii_builtins
         (W (VDict [("worker", VStr "Asha");
                    ("termination_status", VDict [("is_terminated", VBool true)])]))
         (request_of "W1" "I was suspended without reason")) = Uncaught AttributeError /\
  (check_discrepancy ascii_builtins (Some "My payout has a penalty")
     (VDict (platform_record (VInt 1) (eleven (fun n _ => VInt n)))) = Ok false /\
   fst (seek_post ascii_builtins
          (W (VDict (platform_record (VInt 1) (eleven (fun n _ => VInt n)))))
          (request_of "W1" "My payout has a penalty")) = Uncaught AttributeError).
Proof.
  intros terminated W. repeat split; reflexivity.
Qed.

End DecisionProperties.

(* ===================================================================== *)
(** * Properties of the platform simulator *)
(* ===================================================================== *)

Module SimulatorProperties.

Import Py ZomatoSimulator.

Lemma delete_where_In (col x : string) (t : list row) (r : row) :
  In r (delete_where col x t) <-> In r t /\ col_is col x r = false.
Proof.
  unfold delete_where. rewrite filter_In. now rewrite negb_true_iff.
Qed.

Lemma select_after_delete (col x : string) (t : list row) :
  select_where col x (delete_where col x t) = [].
Proof.
  unfold select_where, delete_where. induction t as [|r t IH]; [reflexivity|].
  cbn [filter]. destruct (col_is col x r) eqn:E; cbn [negb filter]; [exact IH|].
  now rewrite E.
Qed.

Lemma bind_params_worker_id (payload : dict) (r : row) :
  bind_params worker_fields payload = Ok r ->
  bind_param (cell "worker_id" payload) = Ok (cell "worker_id" r).
Proof.
  unfold worker_fields. cbn [bind_params].
  destruct (bind_param (cell "worker_id" payload)) as [c|e]; cbn [bind]; [|discriminate].
  destruct (bind (bind_param (cell "name" payload)) _) as [r'|e]; cbn [bind]; [|discriminate].
  intros [= <-]. reflexivity.
Qed.

Section Store.

Variable engine : Engine.

(** C8.  For every worker identifier, [remove_worker] leaves in each of
    [workers], [orders], [termination_status], [termination_logs] and
    [review_counts] exactly the rows that are not keyed by that identifier,
    and a worker-summary lookup for the identifier then answers 404. *)
Theorem remove_worker_cascades (worker_id : string) (db : database) :
  exists db',
    snd (remove_worker worker_id (Some db)) = Some db' /\
    (forall r, In r (workers db') <->
               In r (workers db) /\ col_is "worker_id" worker_id r = false) /\
    (forall r, In r (orders db') <->
               In r (orders db) /\ col_is "worker_id" worker_id r = false) /\
    (forall r, In r (termination_status db') <->
               In r (termination_status db) /\ col_is "worker_id" worker_id r = false) /\
    (forall r, In r (termination_logs db') <->
               In r (termination_logs db) /\ col_is "worker_id" worker_id r = false) /\
    (forall r, In r (review_counts db') <->
               In r (review_counts db) /\ col_is "worker_id" worker_id r = false) /\
    api_get_worker_summary engine worker_id (Some db') =
      Ok {| status_code := 404; content := VDict [("error", VStr "worker not found")] |}.
Proof.
  exists {| workers := delete_where "worker_id" worker_id (workers db);
            orders := delete_where "worker_id" worker_id (orders db);
            termination_status := delete_where "worker_id" worker_id (termination_status db);
            termination_logs := delete_where "worker_id" worker_id (termination_logs db);
            review_counts := delete_where "worker_id" worker_id (review_counts db) |}.
  cbn [workers orders termination_status termination_logs review_counts].
  split; [reflexivity|].
  do 5 (split; [intros r; apply delete_where_In|]).
  unfold api_get_worker_summary, get_worker_summary.
  cbn [workers]. rewrite select_after_delete. reflexivity.
Qed.

(** C9, as amended.  For every insert of a worker whose field values
    sqlite3 can bind (None, a bool, an int of at most 64 bits, a float, a
    text) and whose [worker_id] equals the [worker_id] of a row of
    [workers], [add_worker] returns [False], the endpoint answers 409, and
    the database is left as it was. *)
Theorem add_worker_conflict
    (payload : dict) (db : database) (v c : value) (r r' : row) :
  dict_get "worker_id" payload = Some v ->
  bind_param v = Ok c ->
  In r' (workers db) ->
  cell_eq (cell "worker_id" r') c = true ->
  bind_params worker_fields payload = Ok r ->
  add_worker engine payload (Some db) = (Ok false, Some db) /\
  api_add_worker engine payload (Some db) =
    (Ok {| status_code := 409;
           content := VDict [("ok", VBool false); ("error", VStr "worker_id already exists")] |},
     Some db).
Proof.
  intros Hid Hbind Hin Heq Hrow.
  assert (Hmem : dict_mem "worker_id" payload = true).
  { unfold dict_mem. now rewrite Hid. }
  assert (Hadd : add_worker engine payload (Some db) = (Ok false, Some db)).
  { unfold add_worker. rewrite Hmem, Hrow. cbn [negb].
    assert (Htaken : worker_id_taken r (workers db) = true).
    { unfold worker_id_taken. apply existsb_exists. exists r'. split; [exact Hin|].
      pose proof (bind_params_worker_id payload r Hrow) as Hc.
      unfold cell at 1 in Hc. rewrite Hid, Hbind in Hc. injection Hc as <-. exact Heq. }
    now rewrite Htaken. }
  split; [exact Hadd|].
  unfold api_add_worker. rewrite Hmem, Hadd.
  destruct payload; [discriminate|]. reflexivity.
Qed.

End Store.

Lemma add_worker_conflict_run :
  let payload := [("worker_id", VStr "W1"); ("name", VStr "Ravi"); ("phone", VStr "99")] in
  add_worker plain_engine payload (Some one_worker_db) = (Ok false, Some one_worker_db) /\
  api_add_worker plain_engine payload (Some one_worker_db) =
    (Ok {| status_code := 409;
           content := VDict [("ok", VBool false); ("error", VStr "worker_id already exists")] |},
     Some one_worker_db).
Proof.
  intros payload.
  refine (add_worker_conflict plain_engine payload one_worker_db (VStr "W1") (VStr "W1")
            (catch (bind_params worker_fields payload) []) asha_row
            eq_refl eq_refl _ eq_refl eq_refl).
  left. reflexivity.
Defined.

(** C9, as stated, fails for a payload that repeats a stored [worker_id]
    and sends its notes as an object: sqlite3 refuses to bind the object
    before the insert is tried, [add_worker] raises instead of returning
    [False], and the endpoint, which catches [FileNotFoundError] only, does
    not answer 409.  The database is unchanged. *)
Lemma add_worker_unbindable_field :
  let payload := [("worker_id", VStr "W1"); ("name", VStr "Ravi");
                  ("notes", VDict [("shift", VStr "night")])] in
  worker_id_taken [("worker_id", VStr "W1")] (workers one_worker_db) = true /\
  add_worker plain_engine payload (Some one_worker_db)
    = (Raise SqliteBindError, Some one_worker_db) /\
  api_add_worker plain_engine payload (Some one_worker_db)
    = (Raise SqliteBindError, Some one_worker_db).
Proof. intros payload. repeat split; reflexivity. Qed.

End SimulatorProperties.

(* ===================================================================== *)
(** * Further properties of the discrepancy detector *)
(* ===================================================================== *)

Module DetectorProperties.

Import Py GigWorkerApp DecisionProperties.

Section Pattern.

Variable py : Builtins.

Lemma take_digits_spec (n : nat) :
  forall s d r,
    take_digits py n s = Some (d, r) ->
    s = (d ++ r)%list /\ List.length d = n /\ forallb (is_decimal py) d = true.
Proof.
  induction n as [|n IH]; intros s d r H.
  - injection H as <- <-. repeat split.
  - cbn [take_digits] in H. destruct s as [|c s]; [discriminate|].
    destruct (is_decimal py c) eqn:Ec; [|discriminate].
    destruct (take_digits py n s) as [[d' r']|] eqn:E; [|discriminate].
    injection H as <- <-. destruct (IH s d' r' E) as (-> & Hl & Hd).
    repeat split; simpl; [now rewrite Hl | now rewrite Ec, Hd].
Qed.

Lemma try_frac_spec (k : nat) (r f : list string) :
  try_frac py k r = Some f ->
  exists e rest,
    f = "." :: e /\ r = (f ++ rest)%list /\
    forallb (is_decimal py) e = true /\ List.length e = k /\ lookahead_ok py rest = true.
Proof.
  unfold try_frac. destruct r as [|c r]; [discriminate|].
  destruct (c =? ".")%string eqn:Ec; [|discriminate].
  apply String.eqb_eq in Ec. subst c.
  destruct (take_digits py k r) as [[d rest]|] eqn:E; [|discriminate].
  destruct (lookahead_ok py rest) eqn:El; [|discriminate].
  intros [= <-]. destruct (take_digits_spec k r d rest E) as (-> & Hl & Hd).
  exists d, rest. repeat split; assumption.
Qed.

Lemma match_tail_spec (r f : list string) :
  match_tail py r = Some f ->
  exists rest,
    r = (f ++ rest)%list /\ lookahead_ok py rest = true /\
    (f = [] \/
     exists e, f = "." :: e /\ forallb (is_decimal py) e = true /\ (1 <= List.length e <= 2)%nat).
Proof.
  unfold match_tail, or_try.
  destruct (try_frac py 2 r) as [f2|] eqn:E2.
  { intros [= <-]. destruct (try_frac_spec 2 r f2 E2) as (e & rest & -> & -> & Hd & Hl & Hla).
    exists rest. repeat split; [assumption|]. right. exists e. repeat split; [assumption | lia | lia]. }
  destruct (try_frac py 1 r) as [f1|] eqn:E1.
  { intros [= <-]. destruct (try_frac_spec 1 r f1 E1) as (e & rest & -> & -> & Hd & Hl & Hla).
    exists rest. repeat split; [assumption|]. right. exists e. repeat split; [assumption | lia | lia]. }
  destruct (lookahead_ok py r) eqn:El; [|discriminate].
  intros [= <-]. exists r. repeat split; [assumption | now left].
Qed.

Lemma try_int_spec (n : nat) (s m : list string) :
  try_int py n s = Some m ->
  exists d f rest,
    m = (d ++ f)%list /\ s = (m ++ rest)%list /\
    forallb (is_decimal py) d = true /\ List.length d = n /\
    lookahead_ok py rest = true /\
    (f = [] \/
     exists e, f = "." :: e /\ forallb (is_decimal py) e = true /\ (1 <= List.length e <= 2)%nat).
Proof.
  unfold try_int. destruct (take_digits py n s) as [[d r]|] eqn:E; [|discriminate].
  destruct (match_tail py r) as [f|] eqn:Et; [|discriminate].
  intros [= <-]. destruct (take_digits_spec n s d r E) as (-> & Hl & Hd).
  destruct (match_tail_spec r f Et) as (rest & -> & Hla & Hf).
  exists d, f, rest. repeat split; try assumption. now rewrite app_assoc.
Qed.

Lemma match_here_spec (s m : list string) :
  match_here py s = Some m ->
  exists rest, s = (m ++ rest)%list /\ amount_shape py m /\ lookahead_ok py rest = true.
Proof.
  unfold match_here, or_try. intros H.
  assert (exists n, (1 <= n <= 6)%nat /\ try_int py n s = Some m) as (n & Hn & E).
  { destruct (try_int py 6 s) eqn:E6; [exists 6%nat; split; [lia | congruence]|].
    destruct (try_int py 5 s) eqn:E5; [exists 5%nat; split; [lia | congruence]|].
    destruct (try_int py 4 s) eqn:E4; [exists 4%nat; split; [lia | congruence]|].
    destruct (try_int py 3 s) eqn:E3; [exists 3%nat; split; [lia | congruence]|].
    destruct (try_int py 2 s) eqn:E2; [exists 2%nat; split; [lia | congruence]|].
    exists 1%nat; split; [lia | congruence]. }
  destruct (try_int_spec n s m E) as (d & f & rest & -> & -> & Hd & Hl & Hla & Hf).
  exists rest. split; [reflexivity|]. split; [|assumption].
  exists d, f. repeat split; try assumption; lia.
Qed.

Lemma amount_search_spec (s : list string) :
  forall prev m,
    amount_search py prev s = Some m ->
    exists a b,
      s = (a ++ m ++ b)%list /\ amount_shape py m /\ lookahead_ok py b = true /\
      lookbehind_ok py (match last_char a with Some c => Some c | None => prev end) = true.
Proof.
  induction s as [|c s IH]; intros prev m H.
  - cbn [amount_search] in H.
    destruct (lookbehind_ok py prev) eqn:Eb.
    + destruct (match_here py []) as [m'|] eqn:Eh; [|discriminate].
      injection H as <-.
      destruct (match_here_spec _ _ Eh) as (rest & Hs & Hshape & Hla).
      exists [], rest. repeat split; assumption.
    + discriminate.
  - cbn [amount_search] in H.
    destruct (if lookbehind_ok py prev then match_here py (c :: s) else None) as [m'|] eqn:Eh.
    + injection H as <-.
      destruct (lookbehind_ok py prev) eqn:Eb; [|discriminate].
      destruct (match_here_spec _ _ Eh) as (rest & Hs & Hshape & Hla).
      exists [], rest. repeat split; assumption.
    + destruct (IH (Some c) m H) as (a & b & -> & Hshape & Hla & Hlb).
      exists (c :: a), b. repeat split; try assumption.
      cbn [last_char]. destruct (last_char a); assumption.
Qed.

(** X1.  An amount that [extract_number_from_text] finds stands among the
    characters of the transcript, is one to six decimal digits (of any
    script) with at most a dot and one or two more digits, and has neither
    a digit nor a dot right before or right after it; the number returned
    is what [float] reads in it. *)
Theorem amount_search_sound (text : string) (m : list string) :
  amount_search py None (utf8_chars text) = Some m ->
  (exists a b,
     utf8_chars text = (a ++ m ++ b)%list /\ amount_shape py m /\
     lookbehind_ok py (last_char a) = true /\ lookahead_ok py b = true) /\
  extract_number_from_text py (Some text) = float_of_str py (text_of m).
Proof.
  intros H. split.
  - destruct (amount_search_spec (utf8_chars text) None m H) as (a & b & E & Hs & Hla & Hlb).
    exists a, b. repeat split; try assumption.
    destruct (last_char a); assumption.
  - unfold extract_number_from_text. cbn [or_empty]. now rewrite H.
Qed.

End Pattern.

Lemma amount_search_sound_run :
  (exists a b,
     utf8_chars ("I got " ++ devanagari_500 ++ ".50 rupees")
       = (a ++ utf8_chars (devanagari_500 ++ ".50") ++ b)%list /\
     amount_shape hindi_builtins (utf8_chars (devanagari_500 ++ ".50")) /\
     lookbehind_ok hindi_builtins (last_char a) = true /\
     lookahead_ok hindi_builtins b = true) /\
  extract_number_from_text hindi_builtins (Some ("I got " ++ devanagari_500 ++ ".50 rupees"))
    = float_of_str hindi_builtins (text_of (utf8_chars (devanagari_500 ++ ".50"))).
Proof.
  exact (amount_search_sound hindi_builtins ("I got " ++ devanagari_500 ++ ".50 rupees")
           (utf8_chars (devanagari_500 ++ ".50")) eq_refl).
Defined.

Lemma termination_of_dict (d : dict) : exists term, termination_of (VDict d) = Ok term.
Proof.
  unfold termination_of, get, get_default. cbn [bind].
  destruct (truthy _); eauto.
Qed.

Section Rules.

Variable py : Builtins.

(** X2.  For a transcript with no termination word, no amount, no
    no-notice phrase and no not-paid phrase, [check_discrepancy] never
    returns [True]: whatever the record holds, and it returns [False] for
    every record that is an object whose nested worker, if any, is an
    object. *)
Theorem no_trigger_no_discrepancy (transcript : option string) (worker_db : value) :
  no_rule_trigger py transcript = true ->
  check_discrepancy py transcript worker_db <> Ok true /\
  (forall d, worker_db = VDict d -> worker_is_object d = true ->
             check_discrepancy py transcript worker_db = Ok false).
Proof.
  unfold no_rule_trigger. intros H.
  apply andb_true_iff in H as [H H4]. apply andb_true_iff in H as [H H3].
  apply andb_true_iff in H as [H1 H2].
  apply negb_true_iff in H1, H3, H4.
  assert (Hex : extract_number_from_text py transcript = None).
  { unfold extract_number_from_text. destruct (amount_search py None (utf8_chars (or_empty transcript)));
      [discriminate | reflexivity]. }
  assert (Hrest : forall term payouts,
             (if termination_contradiction py transcript term then Ok true
              else if payout_contradiction py (extract_number_from_text py transcript) payouts then Ok true
              else if notice_contradiction (lower py (or_empty transcript)) term then Ok true
              else payment_contradiction (lower py (or_empty transcript)) worker_db) = Ok false).
  { intros term payouts. unfold termination_contradiction, notice_contradiction, payment_contradiction.
    rewrite H1, Hex, H3, H4. reflexivity. }
  split.
  - unfold check_discrepancy. destruct (termination_of worker_db) as [term|e]; cbn [bind]; [|discriminate].
    unfold termination_contradiction. rewrite H1. cbn [andb].
    destruct (payouts_of worker_db) as [payouts|e]; cbn [bind]; [|discriminate].
    rewrite Hex. cbn [payout_contradiction]. unfold notice_contradiction, payment_contradiction.
    rewrite H3, H4. discriminate.
  - intros d -> Hw. unfold check_discrepancy.
    destruct (termination_of_dict d) as (term & ->). cbn [bind].
    unfold termination_contradiction. rewrite H1. cbn [andb].
    destruct (payouts_of_returns d Hw) as (p & ->). cbn [bind].
    rewrite Hex. cbn [payout_contradiction]. unfold notice_contradiction, payment_contradiction.
    rewrite H3, H4. reflexivity.
Qed.

Lemma no_notice_keyword_lower (k : string) : In k no_notice_keywords -> plain k = true.
Proof. simpl. intros [<-|[<-|[<-|[<-|[]]]]]; reflexivity. Qed.

(** X4.  Rule 3 of [check_discrepancy]: when the transcript contains one of
    the no-notice phrases, the termination status of the record holds a
    truthy [termination_reason_text], and the nested worker of the record,
    if it has one, is an object, the result is [True]. *)
Theorem no_notice_against_reason
    (a b k : string) (d term : dict) (v : value) :
  In k no_notice_keywords ->
  dict_get "termination_status" d = Some (VDict term) ->
  dict_get "termination_reason_text" term = Some v ->
  truthy v = true ->
  worker_is_object d = true ->
  check_discrepancy py (Some (a ++ k ++ b)) (VDict d) = Ok true.
Proof.
  intros Hk Hts Hreason Hv Hw.
  unfold check_discrepancy, termination_of, get, get_default.
  rewrite Hts. cbn [bind]. rewrite (dict_get_nonempty _ _ _ Hreason). cbn [bind].
  destruct (termination_contradiction py _ _); [reflexivity|].
  destruct (payouts_of_returns d Hw) as (p & ->). cbn [bind].
  destruct (payout_contradiction py _ p); [reflexivity|].
  unfold notice_contradiction. cbn [or_empty].
  rewrite (any_in_lower_keyword py no_notice_keywords k a b Hk (no_notice_keyword_lower k Hk)).
  rewrite Hreason, Hv. reflexivity.
Qed.

End Rules.

Lemma any_m_flags (l : list value) :
  forallb is_dict l = true ->
  any_m (has "payment_compliant") l = Ok (existsb has_flag l).
Proof.
  induction l as [|o l IH]; intros Hall; [reflexivity|].
  cbn [forallb] in Hall. apply andb_true_iff in Hall as [Ho Hl].
  destruct o; try discriminate.
  cbn [any_m existsb has has_flag bind]. destruct (dict_mem "payment_compliant" d); [reflexivity|].
  now apply IH.
Qed.

Lemma all_if_m_flags (l : list value) :
  forallb is_dict l = true ->
  all_if_m (has "payment_compliant")
    (fun o => bind (get o "payment_compliant") (fun v => Ok (in_one_tuple v))) l
  = Ok (forallb flag_compliant l).
Proof.
  induction l as [|o l IH]; intros Hall; [reflexivity|].
  cbn [forallb] in Hall. apply andb_true_iff in Hall as [Ho Hl].
  destruct o; try discriminate.
  cbn [all_if_m forallb has flag_compliant bind]. unfold dict_mem, get, get_default.
  destruct (dict_get "payment_compliant" d) as [v|]; cbn [bind].
  - destruct (in_one_tuple v); [now apply IH | reflexivity].
  - now apply IH.
Qed.

Lemma not_paid_keyword_lower (k : string) : In k not_paid_keywords -> plain k = true.
Proof. simpl. intros [<-|[<-|[<-|[<-|[<-|[]]]]]]; reflexivity. Qed.

Section Rule4.

Variable py : Builtins.

(** X5.  Rule 4 of [check_discrepancy]: for a transcript with a not-paid
    phrase and a record whose orders are objects, the rule holds exactly
    when some order carries a [payment_compliant] flag and every order that
    carries one has it equal to [1], [True] or the text 1; orders without
    the flag do not count against it.  When it holds and the nested worker
    of the record, if it has one, is an object, [check_discrepancy] returns
    [True]. *)
Theorem not_paid_against_compliant_orders
    (a b k : string) (d : dict) (os : list value) :
  In k not_paid_keywords ->
  dict_get "orders" d = Some (VList os) ->
  forallb is_dict os = true ->
  payment_contradiction (lower py (a ++ k ++ b)) (VDict d)
    = Ok (existsb has_flag os && forallb flag_compliant os) /\
  (existsb has_flag os && forallb flag_compliant os = true ->
   worker_is_object d = true ->
   check_discrepancy py (Some (a ++ k ++ b)) (VDict d) = Ok true).
Proof.
  intros Hk Hos Hobj.
  assert (Hrule : payment_contradiction (lower py (a ++ k ++ b)) (VDict d)
                  = Ok (existsb has_flag os && forallb flag_compliant os)).
  { unfold payment_contradiction.
    rewrite (any_in_lower_keyword py not_paid_keywords k a b Hk (not_paid_keyword_lower k Hk)).
    assert (Hg : get (VDict d) "orders" = Ok (VList os))
      by (unfold get, get_default; now rewrite Hos).
    rewrite Hg. cbn [bind].
    destruct os as [|x l]; [reflexivity|].
    unfold or_else. cbn [truthy].
    rewrite (any_m_flags (x :: l) Hobj). cbn [bind].
    destruct (existsb has_flag (x :: l)); [|reflexivity].
    rewrite (all_if_m_flags (x :: l) Hobj). reflexivity. }
  split; [exact Hrule|].
  intros Htrue Hw. unfold check_discrepancy.
  destruct (termination_of_dict d) as (term & ->). cbn [bind].
  destruct (termination_contradiction py _ _); [reflexivity|].
  destruct (payouts_of_returns d Hw) as (p & ->). cbn [bind].
  destruct (payout_contradiction py _ p); [reflexivity|].
  destruct (notice_contradiction _ _); [reflexivity|].
  cbn [or_empty]. rewrite Hrule, Htrue. reflexivity.
Qed.

End Rule4.

Lemma no_trigger_no_discrepancy_run :
  check_discrepancy ascii_builtins (Some "the app shows a wrong shift for me")
    (VDict (platform_record (VInt 0) [])) <> Ok true /\
  (forall d, VDict (platform_record (VInt 0) []) = VDict d -> worker_is_object d = true ->
             check_discrepancy ascii_builtins (Some "the app shows a wrong shift for me")
               (VDict (platform_record (VInt 0) [])) = Ok false).
Proof.
  exact (no_trigger_no_discrepancy ascii_builtins (Some "the app shows a wrong shift for me")
           (VDict (platform_record (VInt 0) [])) eq_refl).
Defined.

Lemma no_notice_against_reason_run :
  check_discrepancy ascii_builtins (Some ("They removed me " ++ "without notice" ++ " last week"))
    (VDict [("termination_status",
             VDict [("is_terminated", VInt 1); ("termination_reason_text", VStr "fraud")])])
  = Ok true.
Proof.
  refine (no_notice_against_reason ascii_builtins "They removed me " " last week" "without notice"
            [("termination_status",
              VDict [("is_terminated", VInt 1); ("termination_reason_text", VStr "fraud")])]
            [("is_terminated", VInt 1); ("termination_reason_text", VStr "fraud")]
            (VStr "fraud") _ eq_refl eq_refl eq_refl eq_refl).
  right; right; right; left; reflexivity.
Defined.

Lemma not_paid_against_compliant_orders_run :
  payment_contradiction (lower ascii_builtins ("I was " ++ "not paid" ++ " for two orders"))
    (VDict (platform_record (VInt 1) [bare_order 1 1; bare_order 2 1]))
    = Ok (existsb has_flag [bare_order 1 1; bare_order 2 1]
          && forallb flag_compliant [bare_order 1 1; bare_order 2 1]) /\
  (existsb has_flag [bare_order 1 1; bare_order 2 1]
   && forallb flag_compliant [bare_order 1 1; bare_order 2 1] = true ->
   worker_is_object (platform_record (VInt 1) [bare_order 1 1; bare_order 2 1]) = true ->
   check_discrepancy ascii_builtins (Some ("I was " ++ "not paid" ++ " for two orders"))
     (VDict (platform_record (VInt 1) [bare_order 1 1; bare_order 2 1])) = Ok true).
Proof.
  refine (not_paid_against_compliant_orders ascii_builtins "I was " " for two orders" "not paid"
            (platform_record (VInt 1) [bare_order 1 1; bare_order 2 1])
            [bare_order 1 1; bare_order 2 1] _ eq_refl eq_refl).
  left; reflexivity.
Defined.

Section PayoutRule.

Variable py : Builtins.

(** X3.  Rule 2 of [check_discrepancy]: when the transcript states an amount
    and the first entry of the record's top-level [payouts] list has an
    [amount] more than 100 away from it, the result is [True]. *)
Theorem payout_far_from_latest
    (transcript : option string) (d p : dict) (ps : list value) (a : value) (claimed latest : float) :
  extract_number_from_text py transcript = Some claimed ->
  dict_get "payouts" d = Some (VList (VDict p :: ps)) ->
  dict_get "amount" p = Some a ->
  to_float py a = Ok latest ->
  PrimFloat.ltb 100%float (PrimFloat.abs (PrimFloat.sub latest claimed)) = true ->
  check_discrepancy py transcript (VDict d) = Ok true.
Proof.
  intros Hc Hp Ha Hf Hfar. unfold check_discrepancy.
  destruct (termination_of_dict d) as (term & ->). cbn [bind].
  destruct (termination_contradiction py transcript term); [reflexivity|].
  unfold payouts_of, get, get_default. rewrite Hp. cbn [bind truthy].
  rewrite Hc. unfold payout_contradiction. cbn [is_list truthy andb getitem0 bind get_default].
  rewrite Ha. cbn [bind]. rewrite Hf. cbn [bind catch]. now rewrite Hfar.
Qed.

End PayoutRule.

Lemma payout_far_from_latest_run :
  check_discrepancy ascii_builtins (Some "I got 250.50 for the week")
    (VDict [("payouts", VList [VDict [("amount", VInt 900)]])]) = Ok true.
Proof.
  refine (payout_far_from_latest ascii_builtins (Some "I got 250.50 for the week")
            [("payouts", VList [VDict [("amount", VInt 900)]])] [("amount", VInt 900)] []
            (VInt 900) 250.5%float 900%float _ eq_refl eq_refl _ _); vm_compute; reflexivity.
Defined.

End DetectorProperties.

(* ===================================================================== *)
(** * Further properties of the relevance extractor *)
(* ===================================================================== *)

Module ExtractorProperties.

Import Py GigWorkerApp DecisionProperties.

Lemma dict_get_set (k k' : string) (v : value) (d : dict) :
  dict_get k' (dict_set k v d) = if (k =? k')%string then Some v else dict_get k' d.
Proof.
  destruct (String.eqb_spec k k') as [->|Hne].
  - apply dict_get_set_eq.
  - apply dict_get_set_neq. congruence.
Qed.

Section Provenance.

Variable d : dict.

Lemma from_record_nil : from_record d [].
Proof. intros k v H. discriminate. Qed.

Lemma from_record_copy (k : string) (rel rel' : dict) :
  In k copied_keys -> from_record d rel ->
  copy_field k (VDict d) rel = Ok rel' -> from_record d rel'.
Proof.
  intros Hk Hrel. rewrite copy_field_dict. intros [= <-].
  destruct (dict_get k d) as [x|] eqn:Ex; [|exact Hrel].
  intros k' v. rewrite dict_get_set.
  destruct (String.eqb_spec k k') as [<-|Hne].
  - intros [= <-]. split; [|intros _; exact Ex].
    simpl in Hk. unfold relevant_keys. simpl. intuition.
  - apply Hrel.
Qed.

Lemma from_record_set (k : string) (x : value) (rel : dict) :
  In k relevant_keys -> ~ In k copied_keys -> from_record d rel ->
  from_record d (dict_set k x rel).
Proof.
  intros Hk Hnk Hrel k' v. rewrite dict_get_set.
  destruct (String.eqb_spec k k') as [<-|Hne].
  - intros _. split; [exact Hk | intros H; now elim Hnk].
  - apply Hrel.
Qed.

Lemma from_record_setdefault (k : string) (x : value) (rel : dict) :
  In k relevant_keys -> ~ In k copied_keys -> from_record d rel ->
  from_record d (dict_setdefault k x rel).
Proof.
  intros Hk Hnk Hrel. unfold dict_setdefault. destruct (dict_mem k rel); [exact Hrel|].
  now apply from_record_set.
Qed.

Lemma from_record_outside (k0 : string) (rel rel' : dict) :
  In k0 relevant_keys -> ~ In k0 copied_keys -> from_record d rel ->
  same_outside [k0] rel rel' -> from_record d rel'.
Proof.
  intros Hk Hnk Hrel Hout k v Hv.
  destruct (String.eqb_spec k0 k) as [<-|Hne].
  - split; [exact Hk | intros H; now elim Hnk].
  - apply Hrel. rewrite <- Hout; [exact Hv|]. simpl. intros [E|[]]. congruence.
Qed.

End Provenance.

Ltac in_keys := unfold relevant_keys, copied_keys; simpl; intuition discriminate.

(** X6.  [get_relevant_db_fields] invents nothing: every key of the mapping
    it returns is one of [termination_status], [termination_logs],
    [payouts], [orders], [penalties], [worker], [review_counts], and under
    each of these except [orders] and [worker] the mapping holds the very
    value the record holds under that key. *)
Theorem relevant_fields_from_record (py : Builtins) (t : option string) (d rel : dict) :
  get_relevant_db_fields py t (VDict d) = Ok rel ->
  forall k v,
    dict_get k rel = Some v ->
    In k relevant_keys /\ (In k copied_keys -> dict_get k d = Some v).
Proof.
  intros H.
  apply get_relevant_db_fields_inv in H as (r1 & r2 & r3 & r4 & E1 & E2 & E3 & E4 & E5).
  pose proof (no_worker_before_worker_part py t d r1 r2 r3 E1 E2 E3) as Hnone.
  assert (H1 : from_record d r1).
  { revert E1. unfold termination_part. destruct (_ || _ || _).
    - intros E. apply bind_Ok_inv in E as (ra & Ea & Eb).
      apply (from_record_copy d "termination_logs" ra r1); [in_keys | | exact Eb].
      apply (from_record_copy d "termination_status" [] ra); [in_keys | apply from_record_nil | exact Ea].
    - intros [= <-]. apply from_record_nil. }
  assert (H2 : from_record d r2).
  { revert E2. unfold payout_part. destruct (_ || _).
    - intros E. apply bind_Ok_inv in E as (ra & Ea & Eb).
      pose proof (from_record_copy d "payouts" r1 ra ltac:(in_keys) H1 Ea) as Ha.
      apply bind_Ok_inv in Eb as (present & _ & Eb). destruct present.
      + apply bind_Ok_inv in Eb as (orders & _ & Eb).
        apply bind_Ok_inv in Eb as (kept & _ & Eb). injection Eb as <-.
        apply from_record_set; [in_keys | in_keys | exact Ha].
      + now injection Eb as <-.
    - now intros [= <-]. }
  assert (H3 : from_record d r3).
  { revert E3. unfold rating_part. destruct (_ || _).
    - intros E. apply bind_Ok_inv in E as (ra & Ea & Eb).
      pose proof (from_record_copy d "penalties" r2 ra ltac:(in_keys) H2 Ea) as Ha.
      apply bind_Ok_inv in Eb as (present & _ & Eb). destruct present.
      + apply bind_Ok_inv in Eb as (orders & _ & Eb). injection Eb as <-.
        apply from_record_setdefault; [in_keys | in_keys | exact Ha].
      + now injection Eb as <-.
    - now intros [= <-]. }
  assert (H4 : from_record d r4).
  { destruct (worker_part_dict d r3 Hnone) as (r4' & E4' & Hout & _).
    rewrite E4 in E4'. injection E4' as <-.
    apply (from_record_outside d "worker" r3 r4); [in_keys | in_keys | exact H3 | exact Hout]. }
  revert E5. unfold review_part. destruct (_ || _).
  - intros E. apply (from_record_copy d "review_counts" r4 rel); [in_keys | exact H4 | exact E].
  - intros [= <-]. exact H4.
Qed.

(** X7.  [get_relevant_db_fields] stores a key only when the transcript
    touches its topic: the termination fields need a termination word, the
    payouts a payment word, the penalties a rating word, the orders a
    payment or a rating word, the review counts a review or a rating word;
    only [worker] needs none. *)
Theorem relevant_fields_need_their_topic (py : Builtins) (t : option string) (d rel : dict) (k : string) :
  get_relevant_db_fields py t (VDict d) = Ok rel ->
  dict_mem k rel = true ->
  topic_of py k t = true.
Proof.
  intros H Hk.
  apply get_relevant_db_fields_inv in H as (r1 & r2 & r3 & r4 & E1 & E2 & E3 & E4 & E5).
  pose proof (no_worker_before_worker_part py t d r1 r2 r3 E1 E2 E3) as Hnone.
  destruct (termination_part_outside py t d []) as (r1' & E1' & O1).
  rewrite E1 in E1'. injection E1' as <-.
  pose proof (payout_part_outside py t d r1 r2 E2) as O2.
  destruct (rating_part_outside py t d r2) as (r3' & E3' & O3 & _).
  rewrite E3 in E3'. injection E3' as <-.
  destruct (worker_part_dict d r3 Hnone) as (r4' & E4' & O4 & _).
  rewrite E4 in E4'. injection E4' as <-.
  destruct (review_part_outside py t d r4) as (r5 & E5' & O5).
  rewrite E5 in E5'. injection E5' as <-.
  assert (T1 : termination_topic py t = true \/ r1 = []).
  { destruct (termination_topic py t) eqn:G; [now left | right].
    revert E1. unfold termination_part. fold (termination_topic py t).
    rewrite G. now intros [= <-]. }
  assert (T2 : payout_topic py t = true \/ r2 = r1).
  { destruct (payout_topic py t) eqn:G; [now left | right].
    revert E2. unfold payout_part. fold (payout_topic py t).
    rewrite G. now intros [= <-]. }
  assert (T3 : rating_topic py t = true \/ r3 = r2).
  { destruct (rating_topic py t) eqn:G; [now left | right].
    revert E3. unfold rating_part. fold (rating_topic py t).
    rewrite G. now intros [= <-]. }
  assert (T5 : review_topic py t = true \/ rel = r4).
  { destruct (review_topic py t) eqn:G; [now left | right].
    revert E5. unfold review_part. fold (review_topic py t).
    rewrite G. now intros [= <-]. }
  unfold dict_mem in Hk.
  unfold topic_of.
  destruct (String.eqb_spec k "termination_status") as [->|N1].
  { destruct T1 as [G|R]; [exact G|]. exfalso.
    rewrite O5, O4, O3, O2, R in Hk by (simpl; intuition discriminate). discriminate. }
  destruct (String.eqb_spec k "termination_logs") as [->|N2].
  { destruct T1 as [G|R]; [exact G|]. exfalso.
    rewrite O5, O4, O3, O2, R in Hk by (simpl; intuition discriminate). discriminate. }
  destruct (String.eqb_spec k "payouts") as [->|N3].
  { destruct T2 as [G|R]; [exact G|]. exfalso.
    rewrite O5, O4, O3, R, O1 in Hk by (simpl; intuition discriminate). discriminate. }
  destruct (String.eqb_spec k "orders") as [->|N4].
  { destruct T2 as [G|R]; [now rewrite G|].
    destruct T3 as [G'|R']; [rewrite G'; apply orb_true_r|]. exfalso.
    rewrite O5, O4, R', R, O1 in Hk by (simpl; intuition discriminate). discriminate. }
  destruct (String.eqb_spec k "penalties") as [->|N5].
  { destruct T3 as [G|R]; [exact G|]. exfalso.
    rewrite O5, O4, R, O2, O1 in Hk by (simpl; intuition discriminate). discriminate. }
  destruct (String.eqb_spec k "review_counts") as [->|N6]; [|reflexivity].
  destruct T5 as [G|R]; [exact G|]. exfalso.
  rewrite R, O4, O3, O2, O1 in Hk by (simpl; intuition discriminate). discriminate.
Qed.

Lemma relevant_fields_from_record_run :
  In "termination_status" relevant_keys /\
  (In "termination_status" copied_keys ->
   dict_get "termination_status" (platform_record (VInt 1) []) =
     Some (VDict [("worker_id", VStr "W1"); ("is_terminated", VInt 1);
                  ("termination_reason_text", VNone)])).
Proof.
  exact (relevant_fields_from_record ascii_builtins (Some "I was suspended") (platform_record (VInt 1) [])
           (catch (get_relevant_db_fields ascii_builtins (Some "I was suspended")
                     (VDict (platform_record (VInt 1) []))) [])
           eq_refl
           "termination_status"
           (VDict [("worker_id", VStr "W1"); ("is_terminated", VInt 1);
                   ("termination_reason_text", VNone)])
           eq_refl).
Defined.

Lemma relevant_fields_need_their_topic_run :
  topic_of ascii_builtins "termination_status" (Some "I was suspended") = true.
Proof.
  exact (relevant_fields_need_their_topic ascii_builtins (Some "I was suspended") (platform_record (VInt 1) [])
           (catch (get_relevant_db_fields ascii_builtins (Some "I was suspended")
                     (VDict (platform_record (VInt 1) []))) [])
           "termination_status" eq_refl eq_refl).
Defined.

Lemma In_firstn {A : Type} (n : nat) (l : list A) (x : A) : In x (firstn n l) -> In x l.
Proof.
  revert l. induction n as [|n IH]; intros [|y l]; simpl; try tauto.
  intros [->|H]; [now left | right; now apply IH].
Qed.

Lemma taken_from_self (os : list value) : taken_from os (VList os).
Proof. exists os. repeat split; auto. Qed.

Lemma taken_from_filtered (f : value -> bool) (os : list value) :
  (10 <? Z.of_nat (List.length os)) = true ->
  taken_from os (or_else (VList (filter f os)) (VList (firstn 10 os))).
Proof.
  intros Hlen. apply Z.ltb_lt in Hlen. unfold or_else. cbn [truthy].
  destruct (filter f os) as [|x l] eqn:E.
  - exists (firstn 10 os). repeat split.
    + intros o. apply In_firstn.
    + rewrite length_firstn. apply Nat.le_min_r.
    + intros H. exfalso. lia.
    + intros _ H. apply (f_equal (@List.length value)) in H.
      rewrite length_firstn in H. cbn [List.length] in H. lia.
  - exists (x :: l). repeat split.
    + intros o Ho. rewrite <- E in Ho. now apply filter_In in Ho.
    + rewrite <- E. apply filter_length_le.
    + intros H. exfalso. lia.
    + intros _. discriminate.
Qed.

(** X8.  The orders that [get_relevant_db_fields] returns for a record
    whose orders are objects are orders of the record, never more than the
    record has; they are all the record's orders when it has at most ten,
    and the list is empty only when the record's list is. *)
Theorem relevant_orders_taken_from_record
    (py : Builtins) (t : option string) (d rel : dict) (os : list value) (kept : value) :
  get_relevant_db_fields py t (VDict d) = Ok rel ->
  dict_get "orders" d = Some (VList os) ->
  forallb is_dict os = true ->
  dict_get "orders" rel = Some kept ->
  exists l',
    kept = VList l' /\
    (forall o, In o l' -> In o os) /\
    (List.length l' <= List.length os)%nat /\
    ((List.length os <= 10)%nat -> l' = os) /\
    (os <> [] -> l' <> []).
Proof.
  intros H Hos Hobj Hkept. fold (taken_from os kept).
  apply get_relevant_db_fields_inv in H as (r1 & r2 & r3 & r4 & E1 & E2 & E3 & E4 & E5).
  pose proof (no_worker_before_worker_part py t d r1 r2 r3 E1 E2 E3) as Hnone.
  destruct (termination_part_outside py t d []) as (r1' & E1' & O1).
  rewrite E1 in E1'. injection E1' as <-.
  destruct (worker_part_dict d r3 Hnone) as (r4' & E4' & O4 & _).
  rewrite E4 in E4'. injection E4' as <-.
  destruct (review_part_outside py t d r4) as (r5 & E5' & O5).
  rewrite E5 in E5'. injection E5' as <-.
  rewrite O5, O4 in Hkept by (simpl; intuition discriminate).
  assert (H1 : dict_get "orders" r1 = None).
  { rewrite O1; [reflexivity|]. simpl; intuition discriminate. }
  assert (H2 : forall x, dict_get "orders" r2 = Some x -> taken_from os x).
  { revert E2. unfold payout_part. destruct (_ || _).
    - rewrite copy_field_dict. cbn [bind has]. unfold dict_mem, getitem. rewrite Hos.
      cbn [bind]. rewrite (relevant_orders_objects os Hobj). cbn [bind].
      intros [= <-] x. rewrite dict_get_set_eq. intros [= <-].
      destruct (10 <? Z.of_nat (List.length os)) eqn:El.
      + now apply taken_from_filtered.
      + apply taken_from_self.
    - intros [= <-] x. rewrite H1. discriminate. }
  revert E3. unfold rating_part. destruct (_ || _).
  - rewrite copy_field_dict. cbn [bind has]. unfold dict_mem, getitem. rewrite Hos.
    cbn [bind]. intros [= <-].
    rewrite dict_get_setdefault_eq in Hkept.
    destruct (dict_get "penalties" d) as [p|].
    + rewrite dict_get_set_neq in Hkept by discriminate.
      destruct (dict_get "orders" r2) as [x|] eqn:Ex.
      * injection Hkept as <-. now apply H2.
      * injection Hkept as <-. apply taken_from_self.
    + destruct (dict_get "orders" r2) as [x|] eqn:Ex.
      * injection Hkept as <-. now apply H2.
      * injection Hkept as <-. apply taken_from_self.
  - intros [= <-]. now apply H2.
Qed.

Lemma relevant_orders_taken_from_record_run :
  exists l',
    VList [bare_order 3 0; bare_order 8 0] = VList l' /\
    (forall o, In o l' -> In o (eleven bare_order)) /\
    (List.length l' <= List.length (eleven bare_order))%nat /\
    ((List.length (eleven bare_order) <= 10)%nat -> l' = eleven bare_order) /\
    (eleven bare_order <> [] -> l' <> []).
Proof.
  exact (relevant_orders_taken_from_record ascii_builtins (Some "my payout was reduced")
           (platform_record (VInt 0) (eleven bare_order))
           (catch (get_relevant_db_fields ascii_builtins (Some "my payout was reduced")
                     (VDict (platform_record (VInt 0) (eleven bare_order)))) [])
           (eleven bare_order) (VList [bare_order 3 0; bare_order 8 0])
           eq_refl eq_refl eq_refl eq_refl).
Defined.

End ExtractorProperties.

(* ===================================================================== *)
(** * Further properties of the /seek handler and the classifier call *)
(* ===================================================================== *)

Module ServiceProperties.

Import Py GigWorkerApp DecisionProperties.

Lemma snd_io_bind {A B : Type} (m : io A) (k : A -> io B) :
  snd (io_bind m k) =
  (snd m ++ match fst m with Return a => snd (k a) | _ => [] end)%list.
Proof.
  destruct m as [[a|c d|e] tr]; cbn [io_bind fst snd]; try (now rewrite app_nil_r).
  now destruct (k a).
Qed.

Lemma fst_io_bind {A B : Type} (m : io A) (k : A -> io B) :
  fst (io_bind m k) =
  match fst m with
  | Return a => fst (k a)
  | HTTPException c d => HTTPException c d
  | Uncaught e => Uncaught e
  end.
Proof.
  destruct m as [[a|c d|e] tr]; cbn [io_bind fst snd]; try reflexivity.
  now destruct (k a).
Qed.

Lemma quiet_lift {A : Type} (r : result A) : quiet (io_lift r).
Proof. now destruct r. Qed.

Lemma quiet_ret {A : Type} (a : A) : quiet (io_ret a).
Proof. reflexivity. Qed.

Lemma quiet_bind {A B : Type} (m : io A) (k : A -> io B) :
  quiet m -> (forall a, quiet (k a)) -> quiet (io_bind m k).
Proof.
  unfold quiet. intros Hm Hk. rewrite snd_io_bind, Hm.
  destruct (fst m); [apply Hk | reflexivity | reflexivity].
Qed.

Ltac quiet_tac :=
  repeat first [ apply quiet_lift | apply quiet_ret
               | apply quiet_bind; [| intros ? ] ].

Section Calls.

Variable py : Builtins.
Variable w : World.

Lemma call_gemini_api_trace (text : string) (payload : value) :
  (GEMINI_API_KEY w = "" -> snd (call_gemini_api py w text payload) = []) /\
  (GEMINI_API_KEY w <> "" ->
   exists u p, snd (call_gemini_api py w text payload) = [HttpPost u p]).
Proof.
  unfold call_gemini_api. split.
  - intros ->. reflexivity.
  - intros H. apply String.eqb_neq in H. rewrite H. cbn [snd]. eauto.
Qed.

Lemma seek_decide_trace_of (body : SeekPostRequest) (external_data payload : value)
      (t : list event) :
  snd (seek_decide py w body external_data payload) = t ->
  t = [] \/ exists u p, t = [HttpPost u p].
Proof.
  unfold seek_decide. rewrite snd_io_bind.
  rewrite (quiet_lift (check_discrepancy py (transcript body) external_data)).
  cbn [app].
  destruct (check_discrepancy py (transcript body) external_data) as [[|]|e]; cbn [io_lift fst].
  - intros <-. left. quiet_tac.
  - rewrite snd_io_bind.
    destruct (call_gemini_api_trace (or_empty (transcript body)) payload) as [H0 H1].
    destruct (call_gemini_api py w (or_empty (transcript body)) payload) as [r tr].
    cbn [fst snd] in *.
    assert (Hrest : forall r0 : value,
               quiet (io_bind (io_lift (get r0 "ok")) (fun ok =>
                 if truthy ok then
                   io_bind (io_lift (get_default r0 "decision" (VStr ""))) (fun d =>
                   io_bind (io_lift (final_of_decision py (strip (to_str py d)) body external_data)) (fun final =>
                   io_bind (io_lift (get_relevant_db_fields py (transcript body) external_data)) (fun relevant =>
                   io_bind (io_lift (get r0 "raw")) (fun raw =>
                   io_ret (VDict [("final_decision", VStr final); ("relevant_db", VDict relevant); ("gemini_raw", raw)])))))
                 else
                   io_bind (io_lift (fallback_local_decision py (Some (or_empty (transcript body))) external_data)) (fun final =>
                   io_bind (io_lift (get_relevant_db_fields py (transcript body) external_data)) (fun relevant =>
                   io_bind (io_lift (get r0 "error")) (fun err =>
                   io_ret (VDict [("final_decision", VStr final); ("relevant_db", VDict relevant); ("gemini_error", err)]))))))).
    { intros r0. apply quiet_bind; [apply quiet_lift|]. intros ok.
      destruct (truthy ok); quiet_tac. }
    rewrite (Hrest r), app_nil_r. intros <-.
    destruct (String.eqb_spec (GEMINI_API_KEY w) "") as [E|E]; [left; auto | right; auto].
  - intros <-. left. reflexivity.
Qed.

Lemma seek_decide_trace (body : SeekPostRequest) (external_data payload : value) :
  snd (seek_decide py w body external_data payload) = [] \/
  exists u p, snd (seek_decide py w body external_data payload) = [HttpPost u p].
Proof. exact (seek_decide_trace_of body external_data payload _ eq_refl). Qed.

Lemma seek_post_after_fetch_trace (body : SeekPostRequest) (external_data : value) :
  exists n path content u p,
    snd (io_bind (match save_json_to_file py w (seek_payload w body external_data) (workerId body) with
                  | (inl path, tr) => (Return path, tr)
                  | (inr e, tr) => (HTTPException 500 ("Failed to save file: " ++ e), tr)
                  end)
                 (fun _ : string => seek_decide py w body external_data (seek_payload w body external_data)))
    = firstn n [FileWrite path content; HttpPost u p].
Proof.
  rewrite snd_io_bind. unfold save_json_to_file.
  destruct (write_file w _ _) as [e|]; cbn [fst snd app].
  - exists 1%nat. do 2 eexists. exists "", VNone. reflexivity.
  - destruct (seek_decide_trace body external_data (seek_payload w body external_data))
      as [-> | (u & p & ->)].
    + exists 1%nat. do 2 eexists. exists "", VNone. reflexivity.
    + exists 2%nat. do 2 eexists. exists u, p. reflexivity.
Qed.

(** X10.  Whatever the request and the outside world, the external calls of
    [seek_post] are a prefix of: one GET of the worker record, one write of
    the audit file, one POST to the classifier.  None is repeated and none
    happens before the one that precedes it in this order. *)
Theorem seek_post_calls_once_in_order (body : SeekPostRequest) :
  exists n path content u p,
    snd (seek_post py w body) =
    firstn n [HttpGet (BASE_WORKER_URL w ++ "/" ++ workerId body);
              FileWrite path content;
              HttpPost u p].
Proof.
  unfold seek_post. destruct (workerId body =? "")%string.
  { exists 0%nat, "", "", "", VNone. reflexivity. }
  rewrite snd_io_bind.
  unfold fetch_worker_from_external at 1 2.
  destruct (http_get w (BASE_WORKER_URL w ++ "/" ++ workerId body)) as [e|text [j|]];
    cbn [fst snd app].
  - exists 1%nat, "", "", "", VNone. reflexivity.
  - destruct (seek_post_after_fetch_trace body j) as (n & path & content & u & p & ->).
    exists (S n), path, content, u, p. reflexivity.
  - destruct (seek_post_after_fetch_trace body (VDict [("_raw", VStr text)]))
      as (n & path & content & u & p & ->).
    exists (S n), path, content, u, p. reflexivity.
Qed.

(** X9.  The early exits of [seek_post]: without a [workerId] it answers
    400 before any external call; when the platform cannot be reached it
    answers 502 after the one GET, with nothing written; when the audit
    file cannot be written it answers 500 and the classifier is not
    called. *)
Theorem seek_post_fails_early (body : SeekPostRequest) :
  (workerId body = "" ->
   seek_post py w body = (HTTPException 400 "workerId is required", [])) /\
  (forall e,
      workerId body <> "" ->
      http_get w (BASE_WORKER_URL w ++ "/" ++ workerId body) = HttpFailed e ->
      seek_post py w body =
        (HTTPException 502
           ("Failed to fetch from external (" ++ (BASE_WORKER_URL w ++ "/" ++ workerId body) ++ "): " ++ e),
         [HttpGet (BASE_WORKER_URL w ++ "/" ++ workerId body)])) /\
  (forall external_data e,
      workerId body <> "" ->
      fst (fetch_worker_from_external w (workerId body)) = inl external_data ->
      fst (save_json_to_file py w (seek_payload w body external_data) (workerId body)) = inr e ->
      fst (seek_post py w body) = HTTPException 500 ("Failed to save file: " ++ e) /\
      classifier_calls (snd (seek_post py w body)) = 0%nat).
Proof.
  repeat split.
  - intros H. unfold seek_post. rewrite H. reflexivity.
  - intros e Hid Hget. unfold seek_post, fetch_worker_from_external.
    apply String.eqb_neq in Hid. rewrite Hid, Hget. reflexivity.
  - revert H H0 H1. intros Hid Hfetch Hsave. unfold seek_post.
    apply String.eqb_neq in Hid. rewrite Hid.
    destruct (fetch_worker_from_external w (workerId body)) as [r tr1].
    cbn [fst] in Hfetch. subst r. cbn [io_bind].
    destruct (save_json_to_file py w (seek_payload w body external_data) (workerId body)) as [r tr2].
    cbn [fst] in Hsave. subst r. reflexivity.
  - revert H H0 H1. intros Hid Hfetch Hsave. unfold seek_post.
    apply String.eqb_neq in Hid. rewrite Hid.
    unfold fetch_worker_from_external in *.
    destruct (http_get w _) as [e'|text [j|]]; cbn [fst] in Hfetch; try discriminate;
      injection Hfetch as <-; cbn [io_bind];
      unfold save_json_to_file in *;
      destruct (write_file w _ _); cbn [fst] in Hsave; try discriminate; reflexivity.
Qed.

End Calls.

Lemma seek_post_fails_early_run :
  seek_post ascii_builtins (failing_world (HttpFailed "timed out") None) (request_of "W1" "hello") =
    (HTTPException 502
       ("Failed to fetch from external ("
        ++ (BASE_WORKER_URL (failing_world (HttpFailed "timed out") None) ++ "/"
            ++ workerId (request_of "W1" "hello"))
        ++ "): " ++ "timed out"),
     [HttpGet (BASE_WORKER_URL (failing_world (HttpFailed "timed out") None) ++ "/"
               ++ workerId (request_of "W1" "hello"))]).
Proof.
  refine (proj1 (proj2 (seek_post_fails_early ascii_builtins
                          (failing_world (HttpFailed "timed out") None)
                          (request_of "W1" "hello"))) "timed out" _ eq_refl).
  discriminate.
Defined.

Lemma strip_of_Ok (txt : value) (s : string) :
  strip_of txt = Ok s -> exists t, txt = VStr t /\ s = strip t.
Proof. destruct txt; cbn; intros H; try discriminate. injection H as <-. eauto. Qed.

Section Reply.

Variable py : Builtins.

Lemma gemini_candidates_shape (j resp : value) :
  gemini_candidates j = Ok (Some resp) -> exists s, resp = gemini_ok s j.
Proof.
  unfold gemini_candidates. destruct (dict_has_truthy j "candidates"); [|discriminate].
  intros H.
  apply bind_Ok_inv in H as (cands & _ & H).
  apply bind_Ok_inv in H as (cand & _ & H).
  apply bind_Ok_inv in H as (content & _ & H).
  apply bind_Ok_inv in H as (txt & _ & H).
  destruct (truthy (if negb (truthy txt) && is_str content then content else txt)); [|discriminate].
  apply bind_Ok_inv in H as (d & _ & H). injection H as <-. eauto.
Qed.

Lemma first_text_shape (j resp : value) (content : list value) :
  first_text j content = Ok (Some resp) -> exists s, resp = gemini_ok s j.
Proof.
  induction content as [|c rest IH]; cbn [first_text]; [discriminate|].
  destruct c; auto. destruct (dict_mem "text" _); auto.
  intros H. apply bind_Ok_inv in H as (t & _ & H).
  apply bind_Ok_inv in H as (s & _ & H). injection H as <-. eauto.
Qed.

Lemma gemini_outputs_shape (j resp : value) :
  gemini_outputs j = Ok (Some resp) -> exists s, resp = gemini_ok s j.
Proof.
  unfold gemini_outputs. destruct (dict_has_truthy j "outputs"); [|discriminate].
  intros H.
  apply bind_Ok_inv in H as (outs & _ & H).
  apply bind_Ok_inv in H as (out & _ & H).
  apply bind_Ok_inv in H as (c & _ & H).
  destruct (or_else c (VList [])); try discriminate.
  eapply first_text_shape; eauto.
Qed.

Lemma gemini_decision_shape (j resp : value) :
  gemini_decision py j = Ok resp -> exists s, resp = gemini_ok s j.
Proof.
  unfold gemini_decision. intros H.
  apply bind_Ok_inv in H as ([r1|] & E1 & H).
  - injection H as <-. eapply gemini_candidates_shape; eauto.
  - apply bind_Ok_inv in H as ([r2|] & E2 & H).
    + injection H as <-. eapply gemini_outputs_shape; eauto.
    + injection H as <-. eauto.
Qed.

Variable w : World.

(** X13.  [call_gemini_api] always returns one of the two mappings its
    docstring announces: [ok] true with a text [decision] and a [raw]
    entry, or [ok] false with a text [error].  It posts nothing when the
    key is empty and exactly once otherwise. *)
Theorem call_gemini_api_documented_reply (text : string) (db_payload : value) :
  documented_reply (fst (call_gemini_api py w text db_payload)) = true /\
  classifier_calls (snd (call_gemini_api py w text db_payload)) =
    (if (GEMINI_API_KEY w =? "")%string then 0%nat else 1%nat).
Proof.
  unfold call_gemini_api.
  destruct (GEMINI_API_KEY w =? "")%string; [split; reflexivity|].
  cbn [fst snd classifier_calls]. split; [|reflexivity].
  destruct (http_post w _ _) as [e|body [j|]]; try reflexivity.
  destruct (gemini_decision py j) as [resp|e] eqn:E; [|reflexivity].
  apply gemini_decision_shape in E as (s & ->). reflexivity.
Qed.

(** X14.  When the classifier answers in the shape that [call_gemini] of
    ocr_echo_api.py reads (the text inside an object of [parts]),
    [call_gemini_api] takes that object for the text, fails on its [strip]
    and reports a parse failure with [ok] false: the answer of the
    classifier is not used. *)
Theorem generate_content_reply_not_parsed (text : string) (db_payload j t : value) (body : string) :
  GEMINI_API_KEY w <> "" ->
  (forall url p, http_post w url p = HttpBody body (Some j)) ->
  OcrEchoApi.reply_text j = Ok t ->
  fst (call_gemini_api py w text db_payload) =
    VDict [("ok", VBool false);
           ("error", VStr ("Failed to parse Gemini response: " ++ exn_text py AttributeError));
           ("raw", j)].
Proof.
  intros Hkey Hpost Hreply. unfold call_gemini_api.
  apply String.eqb_neq in Hkey. rewrite Hkey, Hpost. cbn [fst].
  assert (E : gemini_decision py j = Raise AttributeError); [|now rewrite E].
  unfold OcrEchoApi.reply_text in Hreply.
  apply bind_Ok_inv in Hreply as (cands & E1 & H).
  apply bind_Ok_inv in H as (cand & E2 & H).
  apply bind_Ok_inv in H as (content & E3 & H).
  apply bind_Ok_inv in H as (parts & E4 & H).
  apply bind_Ok_inv in H as (part & E5 & H).
  destruct j as [| | | | | |d]; try discriminate.
  cbn [getitem] in E1. destruct (dict_get "candidates" d) as [c0|] eqn:D1; [|discriminate].
  injection E1 as ->.
  destruct cand as [| | | | | |dc]; try discriminate.
  cbn [getitem] in E3. destruct (dict_get "content" dc) as [c1|] eqn:D3; [|discriminate].
  injection E3 as ->.
  destruct content as [| | | | | |dt]; try discriminate.
  cbn [getitem] in E4. destruct (dict_get "parts" dt) as [c2|] eqn:D4; [|discriminate].
  injection E4 as ->.
  destruct part as [| | | | | |dp]; try discriminate.
  cbn [getitem] in H. destruct (dict_get "text" dp) as [c3|] eqn:D5; [|discriminate].
  assert (Tp : truthy (VDict dp) = true) by (destruct dp; [discriminate|reflexivity]).
  assert (Tparts : truthy parts = true /\ is_list parts = true).
  { destruct parts as [| | | |s|l|]; try discriminate.
    - cbn [getitem0] in E5. destruct (utf8_chars s); discriminate.
    - destruct l; [discriminate|]. now split. }
  destruct Tparts as [Tparts Lparts].
  assert (Tc : truthy cands = true).
  { destruct cands as [| | | |s|l|]; try discriminate.
    - cbn [getitem0] in E2. destruct (utf8_chars s); discriminate.
    - destruct l; [discriminate|reflexivity]. }
  unfold gemini_decision, gemini_candidates, dict_has_truthy.
  rewrite D1, Tc. cbn [getitem]. rewrite D1. cbn [bind]. rewrite E2. cbn [bind].
  unfold get, get_default. rewrite D3. cbn [bind is_dict]. rewrite D4. cbn [bind].
  rewrite Tparts. cbn [bind]. rewrite Lparts, Tparts. cbn [andb]. rewrite E5. cbn [bind].
  rewrite Tp. cbn [negb andb]. rewrite Tp. reflexivity.
Qed.

(** X15.  When the first candidate of the classifier's reply holds a
    non-empty text as the first item of its [parts], the decision read from
    the reply is that text, stripped, and the raw reply is passed on. *)
Theorem plain_text_reply_parsed (d c ct : dict) (cs ps : list value) (s : string) :
  dict_get "candidates" d = Some (VList (VDict c :: cs)) ->
  dict_get "content" c = Some (VDict ct) ->
  dict_get "parts" ct = Some (VList (VStr s :: ps)) ->
  s <> "" ->
  gemini_decision py (VDict d) = Ok (gemini_ok (strip s) (VDict d)).
Proof.
  intros D1 D2 D3 Hs. apply String.eqb_neq in Hs.
  unfold gemini_decision, gemini_candidates, dict_has_truthy.
  rewrite D1. cbn [truthy getitem]. rewrite D1. cbn [bind getitem0].
  unfold get, get_default. rewrite D2. cbn [bind is_dict]. rewrite D3.
  cbn [bind truthy is_list andb getitem0]. rewrite Hs. cbn [negb andb].
  cbn [truthy]. rewrite Hs. reflexivity.
Qed.

(** X12.  When the platform answers with JSON that is not an object (a
    list, a number, a text), [seek_post] still writes the audit file and
    then ends in an [AttributeError] that no handler catches; the
    classifier is not called. *)
Theorem seek_post_record_not_an_object (body : SeekPostRequest) (external_data : value) (path : string) :
  workerId body <> "" ->
  fst (fetch_worker_from_external w (workerId body)) = inl external_data ->
  is_dict external_data = false ->
  fst (save_json_to_file py w (seek_payload w body external_data) (workerId body)) = inl path ->
  seek_post py w body =
    (Uncaught AttributeError,
     [HttpGet (BASE_WORKER_URL w ++ "/" ++ workerId body);
      FileWrite path (json_dumps_indent py (seek_payload w body external_data))]).
Proof.
  intros Hid Hfetch Hdict Hsave. unfold seek_post.
  apply String.eqb_neq in Hid. rewrite Hid.
  unfold fetch_worker_from_external in *. cbn [fst] in Hfetch.
  destruct (http_get w _) as [e|text [j|]]; try discriminate;
    injection Hfetch as <-; cbn [io_bind]; [|discriminate].
  unfold save_json_to_file in *. cbn [fst] in Hsave.
  destruct (write_file w _ _); [discriminate|]. injection Hsave as <-.
  assert (E : check_discrepancy py (transcript body) j = Raise AttributeError).
  { destruct j; try discriminate; reflexivity. }
  unfold seek_decide. rewrite E. reflexivity.
Qed.

End Reply.

Lemma generate_content_reply_not_parsed_run :
  fst (call_gemini_api ascii_builtins
         (world_of "key" (VDict (platform_record (VInt 1) []))
                   (HttpBody "" (Some (generate_content_reply "Valid complaint"))))
         "I was suspended" VNone) =
    VDict [("ok", VBool false);
           ("error", VStr ("Failed to parse Gemini response: " ++ exn_text ascii_builtins AttributeError));
           ("raw", generate_content_reply "Valid complaint")].
Proof.
  refine (generate_content_reply_not_parsed ascii_builtins
            (world_of "key" (VDict (platform_record (VInt 1) []))
                      (HttpBody "" (Some (generate_content_reply "Valid complaint"))))
            "I was suspended" VNone (generate_content_reply "Valid complaint")
            (VStr "Valid complaint") "" _ _ eq_refl).
  - discriminate.
  - intros url p. reflexivity.
Defined.

Lemma plain_text_reply_parsed_run :
  gemini_decision ascii_builtins
    (VDict [("candidates",
             VList [VDict [("content",
                            VDict [("parts", VList [VStr (bytes [194; 160] ++ "Invalid complaint ")])])]])])
  = Ok (gemini_ok "Invalid complaint"
          (VDict [("candidates",
                   VList [VDict [("content",
                                  VDict [("parts", VList [VStr (bytes [194; 160] ++ "Invalid complaint ")])])]])])).
Proof.
  refine (plain_text_reply_parsed ascii_builtins
            [("candidates",
              VList [VDict [("content",
                             VDict [("parts", VList [VStr (bytes [194; 160] ++ "Invalid complaint ")])])]])]
            [("content", VDict [("parts", VList [VStr (bytes [194; 160] ++ "Invalid complaint ")])])]
            [("parts", VList [VStr (bytes [194; 160] ++ "Invalid complaint ")])]
            [] [] (bytes [194; 160] ++ "Invalid complaint ") eq_refl eq_refl eq_refl _).
  discriminate.
Defined.

Lemma seek_post_record_not_an_object_run :
  seek_post ascii_builtins (world_of "key" (VList []) (HttpBody "Valid complaint" None))
    (request_of "W1" "I was suspended") =
    (Uncaught AttributeError,
     [HttpGet (BASE_WORKER_URL (world_of "key" (VList []) (HttpBody "Valid complaint" None)) ++ "/"
               ++ workerId (request_of "W1" "I was suspended"));
      FileWrite "seek_results/seek_W1_20260101T000000Z.json"
        (json_dumps_indent ascii_builtins
           (seek_payload (world_of "key" (VList []) (HttpBody "Valid complaint" None))
              (request_of "W1" "I was suspended") (VList [])))]).
Proof.
  refine (seek_post_record_not_an_object ascii_builtins
            (world_of "key" (VList []) (HttpBody "Valid complaint" None))
            (request_of "W1" "I was suspended") (VList [])
            "seek_results/seek_W1_20260101T000000Z.json" _ eq_refl eq_refl eq_refl).
  discriminate.
Defined.

Lemma io_lift_Return_inv {A : Type} (m : result A) (a : A) :
  fst (io_lift m) = Return a -> m = Ok a.
Proof. destruct m; cbn; intros H; [now injection H as -> | discriminate]. Qed.

Section Audit.

Variable py : Builtins.
Variable w : World.

Lemma seek_decide_relevant (body : SeekPostRequest) (external_data payload resp : value) :
  fst (seek_decide py w body external_data payload) = Return resp ->
  exists rel fields,
    get_relevant_db_fields py (transcript body) external_data = Ok rel /\
    resp = VDict fields /\
    dict_get "relevant_db" fields = Some (VDict rel).
Proof.
  unfold seek_decide. intros H.
  apply io_bind_Return_inv in H as (discrepancy & _ & H).
  destruct discrepancy.
  - apply io_bind_Return_inv in H as (relevant & E & H).
    apply io_lift_Return_inv in E.
    injection H as <-. now exists relevant; eexists.
  - apply io_bind_Return_inv in H as (gemini_resp & _ & H).
    apply io_bind_Return_inv in H as (ok & _ & H).
    destruct (truthy ok).
    + apply io_bind_Return_inv in H as (d & _ & H).
      apply io_bind_Return_inv in H as (final & _ & H).
      apply io_bind_Return_inv in H as (relevant & E & H).
      apply io_bind_Return_inv in H as (raw & _ & H).
      apply io_lift_Return_inv in E.
      injection H as <-. now exists relevant; eexists.
    + apply io_bind_Return_inv in H as (final & _ & H).
      apply io_bind_Return_inv in H as (relevant & E & H).
      apply io_bind_Return_inv in H as (err & _ & H).
      apply io_lift_Return_inv in E.
      injection H as <-. now exists relevant; eexists.
Qed.

(** X11.  Whenever [seek_post] returns a response, the worker record was
    fetched, the audit file with the request and that record was written
    without error right after the GET, and the [relevant_db] of the
    response is what [get_relevant_db_fields] extracts from that record. *)
Theorem seek_post_answers_after_audit (body : SeekPostRequest) (resp : value) :
  fst (seek_post py w body) = Return resp ->
  exists external_data path rel fields,
    fst (fetch_worker_from_external w (workerId body)) = inl external_data /\
    write_file w path (json_dumps_indent py (seek_payload w body external_data)) = None /\
    firstn 2 (snd (seek_post py w body)) =
      [HttpGet (BASE_WORKER_URL w ++ "/" ++ workerId body);
       FileWrite path (json_dumps_indent py (seek_payload w body external_data))] /\
    get_relevant_db_fields py (transcript body) external_data = Ok rel /\
    resp = VDict fields /\
    dict_get "relevant_db" fields = Some (VDict rel).
Proof.
  unfold seek_post. destruct (workerId body =? "")%string; [discriminate|].
  intros H.
  assert (exists external_data, fst (fetch_worker_from_external w (workerId body)) = inl external_data)
    as (external_data & Hf).
  { destruct (fetch_worker_from_external w (workerId body)) as [[j|e] tr];
      [cbn [fst]; eauto | cbn [io_bind fst] in H; discriminate]. }
  exists external_data.
  unfold fetch_worker_from_external in *. cbn [fst] in Hf.
  destruct (http_get w _) as [e|text [j|]]; try discriminate; injection Hf as <-.
  - cbn [io_bind] in *. unfold save_json_to_file in *.
    destruct (write_file w _ _) eqn:W; [discriminate|].
    cbn [io_bind] in *.
    destruct (seek_decide py w body j (seek_payload w body j)) as [r tr] eqn:D.
    cbn [fst snd app firstn] in *.
    destruct (seek_decide_relevant body j (seek_payload w body j) resp) as (rel & fields & ? & ? & ?).
    { now rewrite D. }
    eexists; exists rel, fields. repeat split; eauto.
  - cbn [io_bind] in *. unfold save_json_to_file in *.
    destruct (write_file w _ _) eqn:W; [discriminate|].
    cbn [io_bind] in *.
    match goal with |- context [seek_decide py w body ?j ?p] =>
      destruct (seek_decide py w body j p) as [r tr] eqn:D;
      cbn [fst snd app firstn] in *;
      destruct (seek_decide_relevant body j p resp) as (rel & fields & ? & ? & ?);
      [now rewrite D|]
    end.
    eexists; exists rel, fields. repeat split; eauto.
Qed.

End Audit.

Lemma seek_post_answers_after_audit_run :
  exists external_data path rel fields,
    fst (fetch_worker_from_external
           (world_of "" (VDict (platform_record (VInt 1) [])) (HttpFailed "unused"))
           (workerId (request_of "W1" "I was suspended"))) = inl external_data /\
    write_file (world_of "" (VDict (platform_record (VInt 1) [])) (HttpFailed "unused")) path
      (json_dumps_indent ascii_builtins
         (seek_payload (world_of "" (VDict (platform_record (VInt 1) [])) (HttpFailed "unused"))
            (request_of "W1" "I was suspended") external_data)) = None /\
    firstn 2 (snd (seek_post ascii_builtins
                     (world_of "" (VDict (platform_record (VInt 1) [])) (HttpFailed "unused"))
                     (request_of "W1" "I was suspended"))) =
      [HttpGet (BASE_WORKER_URL (world_of "" (VDict (platform_record (VInt 1) [])) (HttpFailed "unused"))
                ++ "/" ++ workerId (request_of "W1" "I was suspended"));
       FileWrite path
         (json_dumps_indent ascii_builtins
            (seek_payload (world_of "" (VDict (platform_record (VInt 1) [])) (HttpFailed "unused"))
               (request_of "W1" "I was suspended") external_data))] /\
    get_relevant_db_fields ascii_builtins (transcript (request_of "W1" "I was suspended")) external_data = Ok rel /\
    returned (seek_post ascii_builtins
                (world_of "" (VDict (platform_record (VInt 1) [])) (HttpFailed "unused"))
                (request_of "W1" "I was suspended")) = VDict fields /\
    dict_get "relevant_db" fields = Some (VDict rel).
Proof.
  exact (seek_post_answers_after_audit ascii_builtins
           (world_of "" (VDict (platform_record (VInt 1) [])) (HttpFailed "unused"))
           (request_of "W1" "I was suspended")
           (returned (seek_post ascii_builtins
                        (world_of "" (VDict (platform_record (VInt 1) [])) (HttpFailed "unused"))
                        (request_of "W1" "I was suspended")))
           eq_refl).
Defined.

End ServiceProperties.

(* ===================================================================== *)
(** * Further properties of the record store *)
(* ===================================================================== *)

Module StoreProperties.

Import Py ZomatoSimulator SimulatorProperties.

Lemma delete_where_none (col x : string) (t : list row) :
  select_where col x t = [] -> delete_where col x t = t.
Proof.
  unfold select_where, delete_where. induction t as [|r t IH]; [reflexivity|].
  cbn [filter]. destruct (col_is col x r); [discriminate|].
  intros H. cbn [negb]. now rewrite IH.
Qed.

Lemma delete_where_twice (col x : string) (t : list row) :
  delete_where col x (delete_where col x t) = delete_where col x t.
Proof. apply delete_where_none, select_after_delete. Qed.

Lemma col_is_other (col x y : string) (r : row) :
  x <> y -> col_is col x r = true -> col_is col y r = false.
Proof.
  unfold col_is, eq_str. destruct (cell col r); try discriminate.
  intros Hxy H. apply String.eqb_eq in H. subst. now apply String.eqb_neq.
Qed.

Lemma select_other_after_delete (col x y : string) (t : list row) :
  x <> y -> select_where col y (delete_where col x t) = select_where col y t.
Proof.
  intros Hxy. unfold select_where, delete_where.
  induction t as [|r t IH]; [reflexivity|].
  cbn [filter]. destruct (col_is col x r) eqn:E; cbn [negb filter].
  - rewrite (col_is_other col x y r Hxy E). exact IH.
  - now rewrite IH.
Qed.

Lemma length_select_pos (col x : string) (t : list row) :
  (0 <? Z.of_nat (List.length (select_where col x t))) = existsb (col_is col x) t.
Proof.
  unfold select_where. induction t as [|r t IH]; [reflexivity|].
  cbn [filter existsb]. destruct (col_is col x r); cbn [orb]; [|exact IH].
  cbn [List.length]. apply Z.ltb_lt. lia.
Qed.

Section Removal.

Variable engine : Engine.

(** X16.  [remove_worker] returns [True] exactly when a row of [workers]
    holds the identifier.  When none does, the endpoint answers 404 and the
    workers are untouched, yet every row of the four dependent tables keyed
    by the identifier has been deleted. *)
Theorem remove_worker_unknown_clears_dependents (worker_id : string) (db : database) :
  fst (remove_worker worker_id (Some db)) = Ok (existsb (col_is "worker_id" worker_id) (workers db)) /\
  (existsb (col_is "worker_id" worker_id) (workers db) = false ->
   api_remove_worker worker_id (Some db) =
     (Ok {| status_code := 404;
            content := VDict [("ok", VBool false); ("error", VStr "worker not found")] |},
      Some {| workers := workers db;
              orders := delete_where "worker_id" worker_id (orders db);
              termination_status := delete_where "worker_id" worker_id (termination_status db);
              termination_logs := delete_where "worker_id" worker_id (termination_logs db);
              review_counts := delete_where "worker_id" worker_id (review_counts db) |})).
Proof.
  split.
  - unfold remove_worker. cbn [fst]. now rewrite length_select_pos.
  - intros H. unfold api_remove_worker, remove_worker. rewrite length_select_pos, H.
    rewrite (delete_where_none "worker_id" worker_id (workers db)); [reflexivity|].
    unfold select_where. clear -H. induction (workers db) as [|r t IH]; [reflexivity|].
    cbn [existsb filter] in *. apply orb_false_iff in H as [-> H]. auto.
Qed.

(** X17.  Removing a worker a second time finds nothing: [remove_worker]
    returns [False], the endpoint answers 404, and the database stays as
    the first removal left it. *)
Theorem remove_worker_twice (worker_id : string) (db : database) :
  exists db',
    snd (remove_worker worker_id (Some db)) = Some db' /\
    remove_worker worker_id (Some db') = (Ok false, Some db') /\
    api_remove_worker worker_id (Some db') =
      (Ok {| status_code := 404;
             content := VDict [("ok", VBool false); ("error", VStr "worker not found")] |},
       Some db').
Proof.
  eexists. split; [reflexivity|].
  assert (E : forall db0, remove_worker worker_id
             (Some {| workers := delete_where "worker_id" worker_id (workers db0);
                      orders := delete_where "worker_id" worker_id (orders db0);
                      termination_status := delete_where "worker_id" worker_id (termination_status db0);
                      termination_logs := delete_where "worker_id" worker_id (termination_logs db0);
                      review_counts := delete_where "worker_id" worker_id (review_counts db0) |})
           = (Ok false,
              Some {| workers := delete_where "worker_id" worker_id (workers db0);
                      orders := delete_where "worker_id" worker_id (orders db0);
                      termination_status := delete_where "worker_id" worker_id (termination_status db0);
                      termination_logs := delete_where "worker_id" worker_id (termination_logs db0);
                      review_counts := delete_where "worker_id" worker_id (review_counts db0) |})).
  { intros db0. unfold remove_worker.
    cbn [workers orders termination_status termination_logs review_counts].
    rewrite !delete_where_twice, select_after_delete. reflexivity. }
  split; [apply E|]. unfold api_remove_worker. now rewrite E.
Qed.

(** X18.  Removing a worker does not change what [get_worker_summary] and
    its endpoint return for any other identifier. *)
Theorem remove_worker_keeps_other_summaries (worker_id other : string) (st : store) :
  worker_id <> other ->
  get_worker_summary engine other (snd (remove_worker worker_id st)) =
    get_worker_summary engine other st /\
  api_get_worker_summary engine other (snd (remove_worker worker_id st)) =
    api_get_worker_summary engine other st.
Proof.
  intros Hne.
  assert (E : get_worker_summary engine other (snd (remove_worker worker_id st)) =
              get_worker_summary engine other st).
  { destruct st as [db|]; [|reflexivity].
    unfold remove_worker, get_worker_summary.
    cbn [snd workers orders termination_status termination_logs review_counts].
    now rewrite !(select_other_after_delete "worker_id" worker_id other) by exact Hne. }
  split; [exact E|]. unfold api_get_worker_summary. now rewrite E.
Qed.

(** X19.  After [remove_worker], deleting the termination status or the
    review counts of the same identifier answers 404 and changes
    nothing. *)
Theorem remove_worker_then_dependents_not_found (worker_id : string) (db : database) :
  exists db',
    snd (remove_worker worker_id (Some db)) = Some db' /\
    api_remove_termination_status worker_id (Some db') =
      (Ok {| status_code := 404;
             content := VDict [("ok", VBool false); ("error", VStr "termination_status not found")] |},
       Some db') /\
    api_remove_review_counts worker_id (Some db') =
      (Ok {| status_code := 404;
             content := VDict [("ok", VBool false); ("error", VStr "review_counts not found")] |},
       Some db').
Proof.
  eexists. split; [reflexivity|].
  unfold api_remove_termination_status, api_remove_review_counts,
    remove_termination_status, remove_review_counts.
  cbn [workers orders termination_status termination_logs review_counts].
  rewrite !delete_where_twice, !select_after_delete. split; reflexivity.
Qed.

End Removal.

Lemma remove_worker_unknown_clears_dependents_run :
  api_remove_worker "W1"
    (Some (with_workers one_worker_db [])) =
    (Ok {| status_code := 404;
           content := VDict [("ok", VBool false); ("error", VStr "worker not found")] |},
     Some {| workers := workers (with_workers one_worker_db []);
             orders := delete_where "worker_id" "W1" (orders (with_workers one_worker_db []));
             termination_status :=
               delete_where "worker_id" "W1" (termination_status (with_workers one_worker_db []));
             termination_logs :=
               delete_where "worker_id" "W1" (termination_logs (with_workers one_worker_db []));
             review_counts :=
               delete_where "worker_id" "W1" (review_counts (with_workers one_worker_db [])) |}).
Proof.
  exact (proj2 (remove_worker_unknown_clears_dependents "W1" (with_workers one_worker_db [])) eq_refl).
Defined.

Lemma remove_worker_keeps_other_summaries_run :
  get_worker_summary plain_engine "W1" (snd (remove_worker "W2" (Some one_worker_db))) =
    get_worker_summary plain_engine "W1" (Some one_worker_db) /\
  api_get_worker_summary plain_engine "W1" (snd (remove_worker "W2" (Some one_worker_db))) =
    api_get_worker_summary plain_engine "W1" (Some one_worker_db).
Proof.
  refine (remove_worker_keeps_other_summaries plain_engine "W2" "W1" (Some one_worker_db) _).
  discriminate.
Defined.

Lemma col_is_cell_eq (id : string) (r : row) :
  col_is "worker_id" id r = cell_eq (cell "worker_id" r) (VStr id).
Proof. unfold col_is, eq_str, cell_eq. now destruct (cell "worker_id" r). Qed.

Lemma select_where_app (col x : string) (t t' : list row) :
  select_where col x (t ++ t') = (select_where col x t ++ select_where col x t')%list.
Proof. apply filter_app. Qed.

Lemma delete_where_app (col x : string) (t t' : list row) :
  delete_where col x (t ++ t') = (delete_where col x t ++ delete_where col x t')%list.
Proof. apply filter_app. Qed.

Lemma select_none_when_free (id : string) (r : row) (t : list row) :
  cell "worker_id" r = VStr id ->
  worker_id_taken r t = false ->
  select_where "worker_id" id t = [].
Proof.
  unfold worker_id_taken, select_where. intros Hc. rewrite Hc.
  induction t as [|r' t IH]; [reflexivity|].
  cbn [existsb filter]. intros H. apply orb_false_iff in H as [H1 H2].
  rewrite col_is_cell_eq, H1. auto.
Qed.

Lemma add_worker_inv (engine : Engine) (payload : dict) (db : database) (st' : store) :
  add_worker engine payload (Some db) = (Ok true, st') ->
  exists r,
    bind_params worker_fields payload = Ok r /\
    worker_id_taken r (workers db) = false /\
    st' = Some (with_workers db (workers db ++ [r])).
Proof.
  unfold add_worker. destruct (negb (dict_mem "worker_id" payload)); [discriminate|].
  destruct (bind_params worker_fields payload) as [r|e]; [|discriminate].
  destruct (worker_id_taken r (workers db)) eqn:T; [discriminate|].
  destruct (negb (workers_row_ok engine r)); [discriminate|].
  cbn [orb]. intros [= <-]. now exists r.
Qed.

Lemma bound_worker_id (payload : dict) (r : row) (id : string) :
  dict_get "worker_id" payload = Some (VStr id) ->
  bind_params worker_fields payload = Ok r ->
  cell "worker_id" r = VStr id.
Proof.
  intros Hid Hr. apply bind_params_worker_id in Hr.
  unfold cell at 1 in Hr. rewrite Hid in Hr. cbn [bind_param] in Hr. now injection Hr.
Qed.

Section Insertion.

Variable engine : Engine.

(** X20.  After a successful [add_worker] of a worker with a text
    identifier, the summary endpoint, which answered 404 for that
    identifier before the insert, answers 200 with a summary whose [worker]
    is a row. *)
Theorem add_worker_then_summary (payload : dict) (db : database) (id : string) (st' : store) :
  dict_get "worker_id" payload = Some (VStr id) ->
  add_worker engine payload (Some db) = (Ok true, st') ->
  api_get_worker_summary engine id (Some db) =
    Ok {| status_code := 404; content := VDict [("error", VStr "worker not found")] |} /\
  exists summary r,
    api_get_worker_summary engine id st' = Ok {| status_code := 200; content := summary |} /\
    get summary "worker" = Ok (VDict r).
Proof.
  intros Hid Hadd. apply add_worker_inv in Hadd as (r & Hr & Hfree & ->).
  pose proof (bound_worker_id payload r id Hid Hr) as Hc.
  pose proof (select_none_when_free id r (workers db) Hc Hfree) as Hnone.
  split.
  { unfold api_get_worker_summary, get_worker_summary. rewrite Hnone. reflexivity. }
  eexists. exists r.
  assert (Hsel : select_where "worker_id" id (workers db ++ [r]) = [r]).
  { rewrite select_where_app, Hnone.
    unfold select_where. cbn [app filter].
    rewrite col_is_cell_eq, Hc. cbn [cell_eq]. now rewrite String.eqb_refl. }
  unfold api_get_worker_summary, get_worker_summary, with_workers.
  cbn [workers orders termination_status termination_logs review_counts].
  rewrite Hsel. cbn [fetchone]. split; reflexivity.
Qed.

(** X22.  Removing a worker right after it was added succeeds and gives
    back the [workers] table from before the insert; the whole database is
    what removing the identifier from the original one gives. *)
Theorem add_worker_then_remove (payload : dict) (db : database) (id : string) (st' : store) :
  dict_get "worker_id" payload = Some (VStr id) ->
  add_worker engine payload (Some db) = (Ok true, st') ->
  fst (remove_worker id st') = Ok true /\
  snd (remove_worker id st') = snd (remove_worker id (Some db)) /\
  exists db'', snd (remove_worker id st') = Some db'' /\ workers db'' = workers db.
Proof.
  intros Hid Hadd. apply add_worker_inv in Hadd as (r & Hr & Hfree & ->).
  pose proof (bound_worker_id payload r id Hid Hr) as Hc.
  pose proof (select_none_when_free id r (workers db) Hc Hfree) as Hnone.
  assert (Hr1 : col_is "worker_id" id r = true).
  { rewrite col_is_cell_eq, Hc. cbn [cell_eq]. apply String.eqb_refl. }
  unfold remove_worker, with_workers.
  cbn [fst snd workers orders termination_status termination_logs review_counts].
  rewrite select_where_app, delete_where_app, Hnone.
  rewrite (delete_where_none _ _ _ Hnone).
  unfold select_where, delete_where. cbn [filter app]. rewrite Hr1. cbn [negb List.length app].
  rewrite app_nil_r.
  split; [reflexivity|]. split; [reflexivity|]. eexists. split; reflexivity.
Qed.

(** X23.  POST /workers changes the database only when it answers 201:
    with any other status, and when it raises, the database is as it
    was. *)
Theorem api_add_worker_changes_only_on_201 (payload : dict) (st : store) :
  (forall resp, fst (api_add_worker engine payload st) = Ok resp ->
                status_code resp <> 201 ->
                snd (api_add_worker engine payload st) = st) /\
  (forall e, fst (api_add_worker engine payload st) = Raise e ->
             snd (api_add_worker engine payload st) = st).
Proof.
  assert (A : forall b st', add_worker engine payload st = (Ok b, st') -> b = false -> st' = st).
  { unfold add_worker. intros b st'.
    destruct (negb (dict_mem "worker_id" payload)); [discriminate|].
    destruct st as [db|]; [|discriminate].
    destruct (bind_params worker_fields payload) as [r|e]; [|discriminate].
    destruct (_ || _); intros [= <- <-]; [reflexivity|discriminate]. }
  assert (B : forall e st', add_worker engine payload st = (Raise e, st') -> st' = st).
  { unfold add_worker. intros e st'.
    destruct (negb (dict_mem "worker_id" payload)); [now intros [= _ <-]|].
    destruct st as [db|]; [|now intros [= _ <-]].
    destruct (bind_params worker_fields payload) as [r|e']; [|now intros [= _ <-]].
    destruct (_ || _); discriminate. }
  unfold api_add_worker.
  destruct (negb (truthy (VDict payload))); [split; reflexivity|].
  destruct (negb (dict_mem "worker_id" payload)); [split; reflexivity|].
  destruct (add_worker engine payload st) as [[[|]|e] st'] eqn:E; cbn [fst snd].
  - split; [|discriminate]. intros resp [= <-]. cbn. congruence.
  - pose proof (A false st' eq_refl eq_refl) as ->. split; reflexivity.
  - pose proof (B e st' eq_refl) as ->. destruct e; split; reflexivity.
Qed.

End Insertion.

Lemma add_worker_then_summary_run :
  api_get_worker_summary plain_engine "W2" (Some one_worker_db) =
    Ok {| status_code := 404; content := VDict [("error", VStr "worker not found")] |} /\
  exists summary r,
    api_get_worker_summary plain_engine "W2"
      (snd (add_worker plain_engine [("worker_id", VStr "W2"); ("name", VStr "Ravi")]
              (Some one_worker_db)))
      = Ok {| status_code := 200; content := summary |} /\
    get summary "worker" = Ok (VDict r).
Proof.
  exact (add_worker_then_summary plain_engine [("worker_id", VStr "W2"); ("name", VStr "Ravi")]
           one_worker_db "W2"
           (snd (add_worker plain_engine [("worker_id", VStr "W2"); ("name", VStr "Ravi")]
                   (Some one_worker_db)))
           eq_refl eq_refl).
Defined.

Lemma add_worker_then_remove_run :
  fst (remove_worker "W2"
         (snd (add_worker plain_engine [("worker_id", VStr "W2"); ("name", VStr "Ravi")]
                 (Some one_worker_db)))) = Ok true /\
  snd (remove_worker "W2"
         (snd (add_worker plain_engine [("worker_id", VStr "W2"); ("name", VStr "Ravi")]
                 (Some one_worker_db)))) = snd (remove_worker "W2" (Some one_worker_db)) /\
  exists db'',
    snd (remove_worker "W2"
           (snd (add_worker plain_engine [("worker_id", VStr "W2"); ("name", VStr "Ravi")]
                   (Some one_worker_db)))) = Some db'' /\
    workers db'' = workers one_worker_db.
Proof.
  exact (add_worker_then_remove plain_engine [("worker_id", VStr "W2"); ("name", VStr "Ravi")]
           one_worker_db "W2"
           (snd (add_worker plain_engine [("worker_id", VStr "W2"); ("name", VStr "Ravi")]
                   (Some one_worker_db)))
           eq_refl eq_refl).
Defined.

End StoreProperties.

(* ===================================================================== *)
(** * Fields kept in the notes of a worker *)
(* ===================================================================== *)

Module NotesProperties.

Import Py ZomatoSimulator DecisionProperties SimulatorProperties StoreProperties.

Lemma cell_set_other (c k : string) (v : value) (r : row) :
  c <> k -> cell c (dict_set k v r) = cell c r.
Proof. intros H. unfold cell. now rewrite dict_get_set_neq. Qed.

Lemma cell_set_same (k : string) (v : value) (r : row) :
  cell k (dict_set k v r) = v.
Proof. unfold cell. now rewrite dict_get_set_eq. Qed.

Lemma col_is_set_notes (id : string) (v : value) (r : row) :
  col_is "worker_id" id (dict_set "notes" v r) = col_is "worker_id" id r.
Proof. unfold col_is. rewrite cell_set_other; [reflexivity|discriminate]. Qed.

Lemma select_update_notes (id s : string) (t : list row) :
  select_where "worker_id" id (update_notes id s t) =
  map (dict_set "notes" (VStr s)) (select_where "worker_id" id t).
Proof.
  unfold select_where, update_notes. induction t as [|r t IH]; [reflexivity|].
  cbn [map filter]. destruct (col_is "worker_id" id r) eqn:E.
  - rewrite col_is_set_notes, E. cbn [map]. now rewrite IH.
  - rewrite E. exact IH.
Qed.

Lemma select_other_update_notes (id other s : string) (t : list row) :
  id <> other ->
  select_where "worker_id" other (update_notes id s t) = select_where "worker_id" other t.
Proof.
  intros Hne. unfold select_where, update_notes. induction t as [|r t IH]; [reflexivity|].
  cbn [map filter]. destruct (col_is "worker_id" id r) eqn:E.
  - rewrite col_is_set_notes, (col_is_other _ _ _ _ Hne E). exact IH.
  - now rewrite IH.
Qed.

Lemma dict_remove_set_fresh (k : string) (v : value) (d : dict) :
  dict_mem k d = false -> dict_remove k (dict_set k v d) = d.
Proof.
  unfold dict_mem, dict_remove. induction d as [|[k' v'] d IH]; cbn [dict_get dict_set filter fst].
  - now rewrite String.eqb_refl.
  - destruct (k' =? k)%string eqn:E; [discriminate|].
    intros H. cbn [filter fst]. rewrite E. cbn [negb]. now rewrite IH.
Qed.

Lemma dict_mem_set (k : string) (v : value) (d : dict) :
  dict_mem k (dict_set k v d) = true.
Proof. unfold dict_mem. now rewrite dict_get_set_eq. Qed.

Section Fields.

Variable codec : JsonCodec.

Lemma read_written (d : dict) :
  reads_back codec d ->
  _read_notes_json codec (VStr (dumps codec (VDict d))) = VDict d.
Proof.
  intros [Hne Hrt]. unfold _read_notes_json. cbn [truthy].
  apply String.eqb_neq in Hne. rewrite Hne. cbn [negb]. now rewrite Hrt.
Qed.

(** X24.  After [add_field_to_worker] on a stored worker whose notes read
    as an object, the notes read back hold the value under the field, and
    the same values as before under every other key; the rows of other
    workers are unchanged.  Stated for a JSON codec that reads back the
    text it writes for the new notes. *)
Theorem add_field_then_read
    (worker_id field : string) (v : value) (db : database) (r : row) (rest : list row) (notes : dict) :
  select_where "worker_id" worker_id (workers db) = r :: rest ->
  _read_notes_json codec (cell "notes" r) = VDict notes ->
  reads_back codec (dict_set field v notes) ->
  exists db' notes',
    add_field_to_worker codec worker_id field v (Some db) = (Ok true, Some db') /\
    notes_of codec worker_id (Some db') = Some (VDict notes') /\
    dict_get field notes' = Some v /\
    (forall k, k <> field -> dict_get k notes' = dict_get k notes) /\
    (forall other, worker_id <> other ->
       select_where "worker_id" other (workers db') = select_where "worker_id" other (workers db)).
Proof.
  intros Hsel Hnotes Hrt.
  eexists. exists (dict_set field v notes).
  unfold add_field_to_worker. rewrite Hsel, Hnotes.
  split; [reflexivity|].
  split.
  { unfold notes_of, with_workers. cbn [workers].
    rewrite select_update_notes, Hsel. cbn [map].
    rewrite cell_set_same. now rewrite read_written. }
  split; [apply dict_get_set_eq|].
  split; [intros k Hk; now apply dict_get_set_neq|].
  intros other Hne. unfold with_workers. cbn [workers].
  now apply select_other_update_notes.
Qed.

(** X25.  Adding a field that the notes of a worker did not have and then
    removing it gives back the notes as they read before.  Stated for a
    JSON codec that reads back the texts it writes for the two notes. *)
Theorem add_field_then_remove
    (worker_id field : string) (v : value) (db : database) (r : row) (rest : list row) (notes : dict) :
  select_where "worker_id" worker_id (workers db) = r :: rest ->
  _read_notes_json codec (cell "notes" r) = VDict notes ->
  dict_mem field notes = false ->
  reads_back codec (dict_set field v notes) ->
  reads_back codec notes ->
  exists db' db'',
    add_field_to_worker codec worker_id field v (Some db) = (Ok true, Some db') /\
    remove_field_from_worker codec worker_id field (Some db') = (Ok true, Some db'') /\
    notes_of codec worker_id (Some db'') = Some (VDict notes).
Proof.
  intros Hsel Hnotes Hfresh Hrt1 Hrt2.
  do 2 eexists.
  unfold add_field_to_worker. rewrite Hsel, Hnotes.
  split; [reflexivity|].
  unfold remove_field_from_worker, notes_of, with_workers. cbn [workers].
  rewrite select_update_notes, Hsel. cbn [map].
  rewrite cell_set_same, (read_written _ Hrt1). cbn [has]. rewrite dict_mem_set.
  rewrite (dict_remove_set_fresh _ _ _ Hfresh).
  split; [reflexivity|]. cbn [workers].
  rewrite select_update_notes, select_update_notes, Hsel. cbn [map].
  rewrite cell_set_same. now rewrite (read_written _ Hrt2).
Qed.

(** X26.  When the notes of a worker are a text that is not JSON,
    [add_field_to_worker] keeps that text under [__raw_notes] beside the new
    field, in the notes of every row of the worker.  Stated for a field
    other than [__raw_notes]. *)
Theorem add_field_keeps_raw_notes
    (worker_id field s : string) (v : value) (db : database) (r : row) (rest : list row) :
  select_where "worker_id" worker_id (workers db) = r :: rest ->
  cell "notes" r = VStr s ->
  s <> "" ->
  loads codec s = None ->
  field <> "__raw_notes" ->
  exists db',
    add_field_to_worker codec worker_id field v (Some db) = (Ok true, Some db') /\
    forall r', In r' (select_where "worker_id" worker_id (workers db')) ->
      cell "notes" r' = VStr (dumps codec (VDict [("__raw_notes", VStr s); (field, v)])).
Proof.
  intros Hsel Hcell Hs Hload Hf.
  assert (Hn : _read_notes_json codec (cell "notes" r) = VDict [("__raw_notes", VStr s)]).
  { unfold _read_notes_json. rewrite Hcell. cbn [truthy].
    apply String.eqb_neq in Hs. rewrite Hs. cbn [negb]. now rewrite Hload. }
  eexists. unfold add_field_to_worker. rewrite Hsel, Hn.
  split; [reflexivity|].
  unfold with_workers. cbn [workers]. rewrite select_update_notes.
  intros r' Hin. apply in_map_iff in Hin as (r0 & <- & _).
  rewrite cell_set_same. cbn [dict_set].
  assert (E : ("__raw_notes" =? field)%string = false).
  { apply String.eqb_neq. congruence. }
  now rewrite E.
Qed.

(** X27.  When the notes of a worker are JSON that is not an object (a
    list, a number, [null]), [add_field_to_worker] raises [TypeError] and
    the database is unchanged. *)
Theorem add_field_to_notes_not_an_object
    (worker_id field s : string) (v j : value) (db : database) (r : row) (rest : list row) :
  select_where "worker_id" worker_id (workers db) = r :: rest ->
  cell "notes" r = VStr s ->
  s <> "" ->
  loads codec s = Some j ->
  is_dict j = false ->
  add_field_to_worker codec worker_id field v (Some db) = (Raise TypeError, Some db).
Proof.
  intros Hsel Hcell Hs Hload Hj.
  unfold add_field_to_worker, _read_notes_json. rewrite Hsel, Hcell. cbn [truthy].
  apply String.eqb_neq in Hs. rewrite Hs. cbn [negb]. rewrite Hload.
  destruct j; try reflexivity; discriminate.
Qed.

End Fields.

Lemma add_field_then_read_run :
  exists db' notes',
    add_field_to_worker flat_codec "W1" "shift" (VStr "night") (Some one_worker_db) = (Ok true, Some db') /\
    notes_of flat_codec "W1" (Some db') = Some (VDict notes') /\
    dict_get "shift" notes' = Some (VStr "night") /\
    (forall k, k <> "shift" -> dict_get k notes' = dict_get k []) /\
    (forall other, "W1" <> other ->
       select_where "worker_id" other (workers db') = select_where "worker_id" other (workers one_worker_db)).
Proof.
  refine (add_field_then_read flat_codec "W1" "shift" (VStr "night") one_worker_db asha_row [] []
            eq_refl eq_refl _).
  split; [discriminate|reflexivity].
Defined.

Lemma add_field_then_remove_run :
  exists db' db'',
    add_field_to_worker flat_codec "W1" "shift" (VStr "night") (Some (noted_db (VStr "{zone=east;}"))) = (Ok true, Some db') /\
    remove_field_from_worker flat_codec "W1" "shift" (Some db') = (Ok true, Some db'') /\
    notes_of flat_codec "W1" (Some db'') = Some (VDict [("zone", VStr "east")]).
Proof.
  refine (add_field_then_remove flat_codec "W1" "shift" (VStr "night") (noted_db (VStr "{zone=east;}"))
            (dict_set "notes" (VStr "{zone=east;}") asha_row) [] [("zone", VStr "east")]
            eq_refl eq_refl eq_refl _ _); (split; [discriminate|reflexivity]).
Defined.

Lemma add_field_keeps_raw_notes_run :
  exists db',
    add_field_to_worker flat_codec "W1" "shift" (VStr "night") (Some (noted_db (VStr "call back"))) = (Ok true, Some db') /\
    forall r', In r' (select_where "worker_id" "W1" (workers db')) ->
      cell "notes" r' = VStr (dumps flat_codec (VDict [("__raw_notes", VStr "call back"); ("shift", VStr "night")])).
Proof.
  refine (add_field_keeps_raw_notes flat_codec "W1" "shift" "call back" (VStr "night") (noted_db (VStr "call back"))
            (dict_set "notes" (VStr "call back") asha_row) []
            eq_refl eq_refl _ eq_refl _); discriminate.
Defined.

Lemma add_field_to_notes_not_an_object_run :
  add_field_to_worker flat_codec "W1" "shift" (VStr "night") (Some (noted_db (VStr "null")))
  = (Raise TypeError, Some (noted_db (VStr "null"))).
Proof.
  refine (add_field_to_notes_not_an_object flat_codec "W1" "shift" "null" (VStr "night") VNone
            (noted_db (VStr "null")) (dict_set "notes" (VStr "null") asha_row) []
            eq_refl eq_refl _ eq_refl eq_refl); discriminate.
Defined.

End NotesProperties.

(* ===================================================================== *)
(** * The record the simulator serves, as the decision service reads it *)
(* ===================================================================== *)

Module PlatformRecordProperties.

Import Py GigWorkerApp ZomatoSimulator DecisionProperties.

(** X28.  On a summary that [get_worker_summary] serves from a [workers]
    table without a [payouts] column, the decision service finds no payouts
    (the summary has no such key, and neither has its worker), so rule 2 of
    [check_discrepancy] cannot hold, whatever amount the transcript
    states. *)
Theorem payout_rule_silent_on_summary
    (py : Builtins) (engine : Engine) (worker_id : string) (db : database) (summary : value) (claimed : option float) :
  (forall r, In r (workers db) -> dict_get "payouts" r = None) ->
  get_worker_summary engine worker_id (Some db) = Ok summary ->
  payouts_of summary = Ok (VList []) /\
  payout_contradiction py claimed (VList []) = false.
Proof.
  intros Hcols H. unfold get_worker_summary in H. injection H as <-.
  split; [|now destruct claimed].
  unfold payouts_of, get, get_default. cbn [dict_get String.eqb Ascii.eqb Bool.eqb bind truthy].
  destruct (select_where "worker_id" worker_id (workers db)) as [|r rest] eqn:S;
    cbn [fetchone or_else truthy]; [reflexivity|].
  assert (Hin : In r (workers db)).
  { assert (I : In r (select_where "worker_id" worker_id (workers db))) by (rewrite S; now left).
    unfold select_where in I. now apply filter_In in I. }
  pose proof (Hcols _ Hin) as Hr.
  destruct r as [|kv r]; [reflexivity|].
  unfold or_else at 1. cbn [truthy bind]. now rewrite Hr.
Qed.

Lemma payout_rule_silent_on_summary_run :
  payouts_of (catch (get_worker_summary plain_engine "W1" (Some one_worker_db)) VNone) = Ok (VList []) /\
  payout_contradiction ascii_builtins (Some 250.5%float) (VList []) = false.
Proof.
  refine (payout_rule_silent_on_summary ascii_builtins plain_engine "W1" one_worker_db
            (catch (get_worker_summary plain_engine "W1" (Some one_worker_db)) VNone)
            (Some 250.5%float) _ eq_refl).
  intros r [<-|[]]. reflexivity.
Defined.

End PlatformRecordProperties.

(* ===================================================================== *)
(** * Properties of ocr_echo_api.py *)
(* ===================================================================== *)

Module OcrProperties.

Import Py GigWorkerApp OcrEchoApi DecisionProperties.

Lemma dict_get_set_cases (k k' : string) (v : value) (d : dict) :
  dict_get k (dict_set k' v d) = if (k' =? k)%string then Some v else dict_get k d.
Proof.
  destruct (String.eqb_spec k' k) as [->|H].
  - apply dict_get_set_eq.
  - apply dict_get_set_neq. congruence.
Qed.

Lemma index_by_name_sound (ms : list value) (acc models : dict) (k : string) (entry : value) :
  index_by_name ms acc = Ok models ->
  dict_get k models = Some entry ->
  dict_get k acc = Some entry \/ (In entry ms /\ getitem entry "name" = Ok (VStr k)).
Proof.
  revert acc. induction ms as [|m ms IH]; cbn [index_by_name]; intros acc H Hk.
  - injection H as <-. now left.
  - apply bind_Ok_inv in H as (name & En & H).
    destruct name; try discriminate;
      try (destruct (IH _ H Hk) as [L|[L1 L2]]; [now left | right; split; [now right | exact L2]]).
    destruct (IH _ H Hk) as [L|[L1 L2]].
    + rewrite dict_get_set_cases in L. destruct (String.eqb_spec s k) as [->|Hs].
      * injection L as <-. right. split; [now left | exact En].
      * now left.
    + right. split; [now right | exact L2].
Qed.

Lemma index_by_name_complete (ms : list value) (acc models : dict) (k : string) :
  index_by_name ms acc = Ok models ->
  dict_get k acc <> None \/ (exists e, In e ms /\ getitem e "name" = Ok (VStr k)) ->
  dict_get k models <> None.
Proof.
  revert acc. induction ms as [|m ms IH]; cbn [index_by_name]; intros acc H Hk.
  - injection H as <-. destruct Hk as [Hk|(e & [] & _)]. exact Hk.
  - apply bind_Ok_inv in H as (name & En & H).
    assert (Hcase : (exists e, In e ms /\ getitem e "name" = Ok (VStr k)) \/
                    dict_get k acc <> None \/ name = VStr k).
    { destruct Hk as [Hk|(e & [<-|Hin] & He)]; [now right; left | | left; eauto].
      right; right. rewrite En in He. now injection He. }
    destruct name; try discriminate;
      try (apply (IH _ H); destruct Hcase as [Hc|[Hc|Hc]];
           [now right | now left | discriminate]).
    apply (IH _ H). destruct Hcase as [Hc|[Hc|Hc]]; [now right | left | left].
    + rewrite dict_get_set_cases. destruct (s =? k)%string; [discriminate|exact Hc].
    + injection Hc as ->. rewrite dict_get_set_eq. discriminate.
Qed.

Lemma first_supported_spec (models : dict) (preferred : list string) (m : string) :
  first_supported models preferred = Ok (Some m) ->
  exists pre post entry,
    preferred = (pre ++ m :: post)%list /\
    dict_get m models = Some entry /\
    supports_generate entry = Ok true /\
    forall m', In m' pre ->
      dict_get m' models = None \/
      exists entry', dict_get m' models = Some entry' /\ supports_generate entry' = Ok false.
Proof.
  induction preferred as [|p rest IH]; cbn [first_supported]; [discriminate|].
  destruct (dict_get p models) as [entry|] eqn:E.
  - intros H. apply bind_Ok_inv in H as (methods & E1 & H).
    apply bind_Ok_inv in H as (supported & E2 & H).
    destruct supported.
    + injection H as <-. exists [], rest, entry. cbn [app].
      repeat split; auto.
      * unfold supports_generate. now rewrite E1.
      * intros m' [].
    + destruct (IH H) as (pre & post & entry' & -> & D & S & P).
      exists (p :: pre), post, entry'. cbn [app]. repeat split; auto.
      intros m' [<-|Hin]; [|auto]. right. exists entry. split; [exact E|].
      unfold supports_generate. now rewrite E1.
  - intros H. destruct (IH H) as (pre & post & entry' & -> & D & S & P).
    exists (p :: pre), post, entry'. cbn [app]. repeat split; auto.
    intros m' [<-|Hin]; [now left|auto].
Qed.

(** X29.  When [pick_gemini_model] selects a model, it is a preferred
    model that the listing names with [generateContent] among its methods,
    the URL is built from its name and the key, and every model preferred
    before it is either not listed or listed without that method. *)
Theorem pick_gemini_model_first_preferred
    (key : string) (http_get : string -> http_reply) (m url : string) :
  pick_gemini_model key http_get = Done (m, url) ->
  url = "https://generativelanguage.googleapis.com/v1beta/" ++ m ++ ":generateContent?key=" ++ key /\
  exists text data listed ms entry pre post,
    http_get (LIST_MODELS_URL key) = HttpBody text (Some data) /\
    get_default data "models" (VList []) = Ok listed /\
    iterate listed = Ok ms /\
    PREFERRED_MODELS = (pre ++ m :: post)%list /\
    In entry ms /\
    getitem entry "name" = Ok (VStr m) /\
    supports_generate entry = Ok true /\
    forall m', In m' pre ->
      (forall e, In e ms -> getitem e "name" <> Ok (VStr m')) \/
      (exists e, In e ms /\ getitem e "name" = Ok (VStr m') /\ supports_generate e = Ok false).
Proof.
  unfold pick_gemini_model, fetch_models_list.
  destruct (http_get (LIST_MODELS_URL key)) as [e|text [data|]] eqn:G; try discriminate.
  destruct (bind (get_default data "models" (VList [])) _) as [[m0|]|e] eqn:B; try discriminate.
  intros [= <- <-]. split; [reflexivity|].
  apply bind_Ok_inv in B as (listed & E1 & B).
  apply bind_Ok_inv in B as (ms & E2 & B).
  apply bind_Ok_inv in B as (models & E3 & B).
  apply first_supported_spec in B as (pre & post & entry & Hp & D & S & P).
  destruct (index_by_name_sound ms [] models m0 entry E3 D) as [L|[L1 L2]]; [discriminate|].
  exists text, data, listed, ms, entry, pre, post.
  repeat split; auto.
  intros m' Hin. destruct (P m' Hin) as [N|(entry' & D' & S')].
  - left. intros e He Hn.
    apply (index_by_name_complete ms [] models m' E3); [right; eauto | exact N].
  - right. destruct (index_by_name_sound ms [] models m' entry' E3 D') as [L|[L1' L2']];
      [discriminate|]. eauto.
Qed.

Lemma drawn_lines_app (a b : list canvas_op) :
  drawn_lines (a ++ b) = (drawn_lines a ++ drawn_lines b)%list.
Proof.
  induction a as [|o a IH]; [reflexivity|].
  destruct o; cbn [app drawn_lines]; rewrite IH; reflexivity.
Qed.

Lemma drawn_above_app (low : float) (a b : list canvas_op) :
  drawn_above low (a ++ b) = drawn_above low a && drawn_above low b.
Proof.
  induction a as [|o a IH]; [reflexivity|].
  destruct o; cbn [app drawn_above]; rewrite IH; auto using andb_assoc.
Qed.

Section Page.

Variables page_w page_h mm : float.
Variable wrap : string -> list string.

Hypothesis page_fits : PrimFloat.ltb (PrimFloat.sub page_h (margin mm)) (margin mm) = false.

Lemma draw_wrapped_spec (wrapped : list string) (y : float) (ops : list canvas_op) :
  drawn_lines (snd (draw_wrapped page_h mm wrapped y ops)) = (drawn_lines ops ++ wrapped)%list /\
  (drawn_above (margin mm) ops = true ->
   drawn_above (margin mm) (snd (draw_wrapped page_h mm wrapped y ops)) = true).
Proof.
  revert y ops. induction wrapped as [|w rest IH]; intros y ops; cbn [draw_wrapped].
  - rewrite app_nil_r. auto.
  - destruct (PrimFloat.ltb y (margin mm)) eqn:L.
    + destruct (IH (PrimFloat.sub (PrimFloat.sub page_h (margin mm)) 14%float)
                  ((ops ++ [ShowPage; SetFont "Helvetica" 11]) ++
                   [DrawString (margin mm) (PrimFloat.sub page_h (margin mm)) w])%list) as [I1 I2].
      split.
      * rewrite I1, !drawn_lines_app. cbn [drawn_lines]. now rewrite app_nil_r, <- app_assoc.
      * intros A. apply I2. rewrite !drawn_above_app, A. cbn [drawn_above].
        now rewrite page_fits.
    + destruct (IH (PrimFloat.sub y 14%float) (ops ++ [DrawString (margin mm) y w])%list) as [I1 I2].
      split.
      * rewrite I1, drawn_lines_app. cbn [drawn_lines]. now rewrite <- app_assoc.
      * intros A. apply I2. rewrite drawn_above_app, A. cbn [drawn_above]. now rewrite L.
Qed.

Lemma draw_lines_spec (lines : list string) (y : float) (ops : list canvas_op) :
  drawn_lines (snd (draw_lines page_h mm wrap lines y ops)) =
    (drawn_lines ops ++ List.concat (map wrap lines))%list /\
  (drawn_above (margin mm) ops = true ->
   drawn_above (margin mm) (snd (draw_lines page_h mm wrap lines y ops)) = true).
Proof.
  revert y ops. induction lines as [|line rest IH]; intros y ops; cbn [draw_lines map List.concat].
  - rewrite app_nil_r. auto.
  - destruct (draw_wrapped_spec (wrap line) y ops) as [W1 W2].
    destruct (draw_wrapped page_h mm (wrap line) y ops) as [y' ops']. cbn [snd] in *.
    destruct (IH y' ops') as [I1 I2]. split.
    + now rewrite I1, W1, app_assoc.
    + auto.
Qed.

End Page.

(** X30.  [render_pdf] draws every wrapped line of every line of the text,
    in order and once, and never below the bottom margin.  Stated for a
    page on which the top margin lies above the bottom margin. *)
Theorem render_pdf_draws_every_line
    (page_w page_h mm : float) (wrap : string -> list string) (s : string) :
  PrimFloat.ltb (PrimFloat.sub page_h (margin mm)) (margin mm) = false ->
  exists ops,
    render_pdf page_w page_h mm wrap (VStr s) = Ok ops /\
    drawn_lines ops = List.concat (map wrap (split_lines s)) /\
    drawn_above (margin mm) ops = true.
Proof.
  intros Hfit. unfold render_pdf.
  match goal with |- context [draw_lines page_h mm wrap ?l ?y ?o] =>
    destruct (draw_lines_spec page_h mm wrap Hfit l y o) as [D1 D2];
    destruct (draw_lines page_h mm wrap l y o) as [y' ops']
  end.
  cbn [snd] in *. eexists. split; [reflexivity|]. split.
  - rewrite drawn_lines_app, D1. cbn [drawn_lines]. now rewrite app_nil_r.
  - rewrite drawn_above_app, D2; reflexivity.
Qed.

Lemma render_pdf_draws_every_line_run :
  exists ops,
    render_pdf reportlab_A4_w reportlab_A4_h reportlab_mm (chunks 100 95)
      (VStr ("HEADER:" ++ nl ++ nl ++ "FACTS:")) = Ok ops /\
    drawn_lines ops = List.concat (map (chunks 100 95) (split_lines ("HEADER:" ++ nl ++ nl ++ "FACTS:"))) /\
    drawn_above (margin reportlab_mm) ops = true.
Proof.
  apply (render_pdf_draws_every_line reportlab_A4_w reportlab_A4_h reportlab_mm (chunks 100 95)).
  reflexivity.
Defined.

Lemma pick_gemini_model_first_preferred_run :
  "https://generativelanguage.googleapis.com/v1beta/models/gemini-2.5-pro:generateContent?key=K"
    = "https://generativelanguage.googleapis.com/v1beta/" ++ "models/gemini-2.5-pro"
      ++ ":generateContent?key=" ++ "K" /\
  exists text data listed ms entry pre post,
    serve (listing ["models/x"; "models/gemini-pro-latest"; "models/gemini-2.5-pro"]
                   ["generateContent"])
          (LIST_MODELS_URL "K") = HttpBody text (Some data) /\
    get_default data "models" (VList []) = Ok listed /\
    iterate listed = Ok ms /\
    PREFERRED_MODELS = (pre ++ "models/gemini-2.5-pro" :: post)%list /\
    In entry ms /\
    getitem entry "name" = Ok (VStr "models/gemini-2.5-pro") /\
    supports_generate entry = Ok true /\
    forall m', In m' pre ->
      (forall e, In e ms -> getitem e "name" <> Ok (VStr m')) \/
      (exists e, In e ms /\ getitem e "name" = Ok (VStr m') /\ supports_generate e = Ok false).
Proof.
  exact (pick_gemini_model_first_preferred "K"
           (serve (listing ["models/x"; "models/gemini-pro-latest"; "models/gemini-2.5-pro"]
                           ["generateContent"]))
           "models/gemini-2.5-pro"
           "https://generativelanguage.googleapis.com/v1beta/models/gemini-2.5-pro:generateContent?key=K"
           eq_refl).
Defined.

End OcrProperties.
